(** * Copy-on-write string buffers of [include/amvsimpstr.h]

    A shallow embedding of [BStringData], [IAmvStringMgr] and
    [CSimpleStringT] (namespace AMV), and the properties of the
    buffer-sharing protocol: fork on write, growth, assignment, append,
    concatenation, locking and the payload invariant.

    Memory is a finite map from payload addresses to buffers; a buffer is
    its header fields together with its payload.  Every member function of
    [CSimpleStringT] is a computation in a state-and-fault monad over the
    heap and the handle's [m_pszData]. *)

From stdpp Require Import base option gmap.
From Stdlib Require Import ZArith Lia Ascii String List.

Local Open Scope Z_scope.

(** ** Machine integers *)

Definition INT_MAX : Z := 2147483647.
Definition INT_MIN : Z := -2147483648.

(** Conversion of a mathematical value to [int] / [long] (32 bits, two's
    complement), to [UINT] and to [UINT_PTR]. *)
Definition to_int (z : Z) : Z := (z + 2147483648) mod 4294967296 - 2147483648.
Definition to_uint (z : Z) : Z := z mod 4294967296.
Definition to_uintptr (z : Z) : Z := z mod 18446744073709551616.

Definition is_int (z : Z) : Prop := INT_MIN <= z <= INT_MAX.

(** ** Characters and buffers *)

Definition XCHAR : Type := ascii.
Definition NUL : XCHAR := Ascii.zero.
Definition is_nul (c : XCHAR) : bool := Ascii.eqb c NUL.

(** A buffer is named by the address of its payload ([data()], which is
    what [m_pszData] holds); the header sits just in front of it. *)
Abbreviation addr := Z (only parsing).
(** [IAmvStringMgr*]; [0] is the null pointer. *)
Abbreviation mgr := Z (only parsing).

Record BStringData : Type := mkBStringData {
  pStringMgr : mgr;
  nDataLength : Z;
  nAllocLength : Z;
  nRefs : Z;
  data : Z -> XCHAR
}.

Abbreviation heap := (gmap Z BStringData) (only parsing).

Definition with_nRefs (b : BStringData) (n : Z) : BStringData :=
  mkBStringData (pStringMgr b) (nDataLength b) (nAllocLength b) n (data b).
Definition with_nDataLength (b : BStringData) (n : Z) : BStringData :=
  mkBStringData (pStringMgr b) n (nAllocLength b) (nRefs b) (data b).
Definition with_data (b : BStringData) (d : Z -> XCHAR) : BStringData :=
  mkBStringData (pStringMgr b) (nDataLength b) (nAllocLength b) (nRefs b) d.

(** [d[i] = c] *)
Definition poke (d : Z -> XCHAR) (i : Z) (c : XCHAR) : Z -> XCHAR :=
  fun j => if j =? i then c else d j.

(** The effect of [memcpy]/[memmove] of [n] units read from [src] onto
    [d + off]: the source is read as it was before the call. *)
Definition blit (d : Z -> XCHAR) (off : Z) (src : Z -> XCHAR) (n : Z)
  : Z -> XCHAR :=
  fun j => if (off <=? j) && (j <? off + n) then src (j - off) else d j.

Definition IsLocked (b : BStringData) : bool := nRefs b <? 0.
Definition IsShared (b : BStringData) : bool := nRefs b >? 1.

(** [CNilStringData::CNilStringData], with the manager already set. *)
Definition CNilStringData (m : mgr) : BStringData :=
  mkBStringData m 0 0 2 (fun _ => NUL).

(** ** Source pointers

    A [PCXSTR] argument is null, points [off] units into the payload of a
    buffer, or points at the start of an array owned by the caller.  Past
    the end of such an array the model reads NUL, so [External cs] is the
    literal [cs] with its terminator. *)
Inductive PCXSTR : Type :=
| NULL
| InBuf (p : addr) (off : Z)
| External (cs : list XCHAR).

Definition ext_mem (cs : list XCHAR) : Z -> XCHAR :=
  fun i => if i <? 0 then NUL else nth (Z.to_nat i) cs NUL.

(** What can be read through a pointer; [None] for null and for a pointer
    into a buffer that is not live. *)
Definition deref (h : heap) (psz : PCXSTR) : option (Z -> XCHAR) :=
  match psz with
  | NULL => None
  | InBuf p off =>
      match h !! p with
      | Some b => Some (fun i => data b (off + i))
      | None => None
      end
  | External cs => Some (ext_mem cs)
  end.

(** [pszSrc - GetString()] as [UINT_PTR], compared with [nOldLength]:
    pointers into different allocations are never within one payload of
    each other, so only a pointer into the same buffer can pass the test. *)
Definition ptr_diff (psz : PCXSTR) (base : addr) : option Z :=
  match psz with
  | InBuf p off => if p =? base then Some (to_uintptr off) else None
  | _ => None
  end.

(** Index of the first NUL at or after [i], looking at [fuel] units. *)
Fixpoint find_nul (f : Z -> XCHAR) (fuel : nat) (i : Z) : Z :=
  match fuel with
  | O => i
  | S k => if is_nul (f i) then i else find_nul f k (i + 1)
  end.

Definition strnlen (f : Z -> XCHAR) (n : Z) : Z := find_nul f (Z.to_nat n) 0.

(** ** The state-and-fault monad *)

(** Modelled from the spec: [include/amvdefine.h], which defines [AmvThrow],
    [AMVENSURE], [AMVENSURE_THROW] and [AMVASSERT], is not part of the
    sources.  [AmvThrow(msg)] raises a catchable fault named by its
    message, [AMVENSURE_THROW(c, msg)] raises it when [c] is false,
    [AMVENSURE(c)] raises a fault of its own when [c] is false, and
    [AMVASSERT(c)] is a debug assertion, compiled out.  A read or write
    through a pointer that is not live has no meaning in the source; here
    it stops the computation with [InvalidAccess]. *)
Inductive fault : Type :=
| OutOfMemory        (* AmvThrow("Out of memory") *)
| InvalidArgument    (* AmvThrow("Invalid arguments") *)
| EnsureFailed       (* a failed AMVENSURE *)
| InvalidAccess.     (* a read or write through a pointer that is not live *)

Record State : Type := mkState {
  mem : heap;
  m_pszData : addr
}.

Inductive Res (A : Type) : Type :=
| Ok (a : A) (s : State)
| Throw (e : fault) (s : State).
Arguments Ok {A} a s.
Arguments Throw {A} e s.

Definition M (A : Type) : Type := State -> Res A.

Definition ret {A} (a : A) : M A := fun s => Ok a s.
Definition bind {A B} (m : M A) (k : A -> M B) : M B :=
  fun s => match m s with
           | Ok a s' => k a s'
           | Throw e s' => Throw e s'
           end.
Definition AmvThrow {A} (e : fault) : M A := fun s => Throw e s.

Notation "x <~ m ; k" := (bind m (fun x => k))
  (at level 100, m at next level, right associativity,
   format "'[v' x  <~  m ; '/' k ']'").
Notation "m ;; k" := (bind m (fun _ => k))
  (at level 100, right associativity, format "'[v' m ;; '/' k ']'").

Definition get_this : M addr := fun s => Ok (m_pszData s) s.

(** Reading and writing a header through a [BStringData*]. *)
Definition load (p : addr) : M BStringData :=
  fun s => match mem s !! p with
           | Some b => Ok b s
           | None => Throw InvalidAccess s
           end.
Definition store (p : addr) (b : BStringData) : M unit :=
  fun s => Ok tt (mkState (<[p := b]> (mem s)) (m_pszData s)).

(** ** The allocator interface *)

Record IAmvStringMgr : Type := {
  Allocate : mgr -> Z -> Z -> heap -> option addr * heap;
  Free : mgr -> addr -> heap -> heap;
  Reallocate : mgr -> addr -> Z -> Z -> heap -> option addr * heap;
  GetNilString : mgr -> heap -> addr * heap;
  Clone : mgr -> mgr
}.

Definition sizeof_XCHAR : Z := 1.

Section CSimpleStringT.

Variable Mgr : IAmvStringMgr.

(** Calls through the manager's interface. *)
Definition mgr_Allocate (m : mgr) (nAllocLength nCharSize : Z)
  : M (option addr) :=
  fun s => let '(r, h) := Allocate Mgr m nAllocLength nCharSize (mem s) in
           Ok r (mkState h (m_pszData s)).
Definition mgr_Free (m : mgr) (pData : addr) : M unit :=
  fun s => Ok tt (mkState (Free Mgr m pData (mem s)) (m_pszData s)).
Definition mgr_Reallocate (m : mgr) (pData : addr) (nAllocLength nCharSize : Z)
  : M (option addr) :=
  fun s => let '(r, h) := Reallocate Mgr m pData nAllocLength nCharSize (mem s) in
           Ok r (mkState h (m_pszData s)).
Definition mgr_GetNilString (m : mgr) : M addr :=
  fun s => let '(p, h) := GetNilString Mgr m (mem s) in
           Ok p (mkState h (m_pszData s)).

(** *** [BStringData] member functions ([AMVASSERT] compiles to nothing) *)

Definition AddRef (p : addr) : M unit :=
  b <~ load p;
  store p (with_nRefs b (to_int (nRefs b + 1))).

Definition Lock (p : addr) : M unit :=
  b <~ load p;
  let n := to_int (nRefs b - 1) in
  store p (with_nRefs b (if n =? 0 then -1 else n)).

Definition Release (p : addr) : M unit :=
  b <~ load p;
  let n := to_int (nRefs b - 1) in
  store p (with_nRefs b n);;
  if n <=? 0 then mgr_Free (pStringMgr b) p else ret tt.

Definition Unlock (p : addr) : M unit :=
  b <~ load p;
  if IsLocked b then
    let n := to_int (nRefs b + 1) in
    store p (with_nRefs b (if n =? 0 then 1 else n))
  else ret tt.

(** *** Character helpers *)

(** [memcpy(pchDest + off, pchSrc, nChars)] on the payload of [pchDest].
    Copying nothing touches nothing; otherwise both ends must be live. *)
Definition memcpy (pchDest : addr) (off : Z) (pchSrc : PCXSTR) (nChars : Z)
  : M unit :=
  if nChars =? 0 then ret tt
  else fun s =>
    match deref (mem s) pchSrc, mem s !! pchDest with
    | Some f, Some b =>
        if nChars <? 0 then Throw InvalidAccess s
        else Ok tt (mkState (<[pchDest := with_data b (blit (data b) off f nChars)]> (mem s))
                            (m_pszData s))
    | _, _ => Throw InvalidAccess s
    end.

Definition CopyChars (pchDest : addr) (off : Z) (nDestLen : Z)
    (pchSrc : PCXSTR) (nChars : Z) : M unit :=
  memcpy pchDest off pchSrc nChars.

(** [memmove_s] refuses a count larger than the destination. *)
Definition CopyCharsOverlapped (pchDest : addr) (off : Z) (nDestLen : Z)
    (pchSrc : PCXSTR) (nChars : Z) : M unit :=
  if nChars >? nDestLen then AmvThrow InvalidAccess
  else memcpy pchDest off pchSrc nChars.

(** [strlen]: the scan is bounded by what the pointer can reach. *)
Definition StringLength (psz : PCXSTR) : M Z :=
  fun s =>
    match psz with
    | NULL => Ok 0 s
    | External cs => Ok (to_int (strnlen (ext_mem cs) (Z.of_nat (length cs)))) s
    | InBuf p off =>
        match mem s !! p with
        | Some b => Ok (to_int (strnlen (fun i => data b (off + i))
                                        (nAllocLength b + 1 - off))) s
        | None => Throw InvalidAccess s
        end
    end.

Definition StringLengthN (psz : PCXSTR) (sizeInXChar : Z) : M Z :=
  fun s =>
    match psz with
    | NULL => Ok 0 s
    | _ => match deref (mem s) psz with
           | Some f => Ok (to_int (strnlen f sizeInXChar)) s
           | None => Throw InvalidAccess s
           end
    end.

Definition ThrowMemoryException {A} : M A := AmvThrow OutOfMemory.

(** *** Implementation members *)

Definition Attach (pData : addr) : M unit :=
  fun s => Ok tt (mkState (mem s) pData).

Definition GetData : M BStringData := p <~ get_this; load p.

Definition GetLength : M Z := b <~ GetData; ret (nDataLength b).
Definition GetAllocLength : M Z := b <~ GetData; ret (nAllocLength b).
Definition GetString : M PCXSTR := p <~ get_this; ret (InBuf p 0).
Definition GetManager : M mgr :=
  b <~ GetData;
  ret (if pStringMgr b =? 0 then 0 else Clone Mgr (pStringMgr b)).

Definition SetLength (nLength : Z) : M unit :=
  b <~ GetData;
  if (nLength <? 0) || (nLength >? nAllocLength b) then AmvThrow InvalidArgument
  else
    p <~ get_this;
    store p (with_data (with_nDataLength b nLength) (poke (data b) nLength NUL)).

Definition Fork (nLength : Z) : M unit :=
  pOldData <~ get_this;
  old <~ load pOldData;
  let nOldLength := nDataLength old in
  r <~ mgr_Allocate (Clone Mgr (pStringMgr old)) nLength sizeof_XCHAR;
  match r with
  | None => ThrowMemoryException
  | Some pNewData =>
      let nCharsToCopy :=
        to_int ((if nOldLength <? nLength then nOldLength else nLength) + 1) in
      CopyChars pNewData 0 nCharsToCopy (InBuf pOldData 0) nCharsToCopy;;
      new <~ load pNewData;
      store pNewData (with_nDataLength new nOldLength);;
      Release pOldData;;
      Attach pNewData
  end.

Definition Reallocate_ (nLength : Z) : M unit :=
  pOldData <~ get_this;
  old <~ load pOldData;
  let pStringMgr := pStringMgr old in
  if (nAllocLength old >=? nLength) || (nLength <=? 0) then ThrowMemoryException
  else
    r <~ mgr_Reallocate pStringMgr pOldData nLength sizeof_XCHAR;
    match r with
    | None => ThrowMemoryException
    | Some pNewData => Attach pNewData
    end.

Definition PrepareWrite2 (nLength : Z) : M unit :=
  old <~ GetData;
  let nLength := if nDataLength old >? nLength then nDataLength old else nLength in
  if IsShared old then Fork nLength
  else if nAllocLength old <? nLength then
    (* Grow exponentially, until we hit 1G, then by 1M thereafter. *)
    let nNewLength := nAllocLength old in
    let nNewLength :=
      if nNewLength >? 1024 * 1024 * 1024
      then to_int (nNewLength + 1024 * 1024)
      else to_int (nNewLength + nNewLength ÷ 2) in
    let nNewLength := if nNewLength <? nLength then nLength else nNewLength in
    Reallocate_ nNewLength
  else ret tt.

Definition PrepareWrite (nLength : Z) : M addr :=
  if nLength <? 0 then AmvThrow InvalidArgument
  else
    old <~ GetData;
    (* nShared < 0 means true, >= 0 means false *)
    let nShared := to_int (1 - nRefs old) in
    (* nTooShort < 0 means true, >= 0 means false *)
    let nTooShort := to_int (nAllocLength old - nLength) in
    (if Z.lor nShared nTooShort <? 0 then PrepareWrite2 nLength else ret tt);;
    get_this.

Definition CloneData (pData : addr) : M addr :=
  b <~ load pData;
  let pNewStringMgr := Clone Mgr (pStringMgr b) in
  if negb (IsLocked b) && (pNewStringMgr =? pStringMgr b) then
    AddRef pData;;
    ret pData
  else
    r <~ mgr_Allocate pNewStringMgr (nDataLength b) sizeof_XCHAR;
    match r with
    | None => ThrowMemoryException
    | Some pNewData =>
        new <~ load pNewData;
        store pNewData (with_nDataLength new (nDataLength b));;
        (* Copy the terminator too *)
        CopyChars pNewData 0 (to_int (nDataLength b + 1))
                  (InBuf pData 0) (to_int (nDataLength b + 1));;
        ret pNewData
    end.

(** *** Buffer access *)

Definition GetBuffer0 : M addr :=
  b <~ GetData;
  (if IsShared b then Fork (nDataLength b) else ret tt);;
  get_this.

Definition GetBuffer (nMinBufferLength : Z) : M addr :=
  PrepareWrite nMinBufferLength.

Definition GetBufferSetLength (nLength : Z) : M addr :=
  pszBuffer <~ GetBuffer nLength;
  SetLength nLength;;
  ret pszBuffer.

Definition LockBuffer : M addr :=
  b <~ GetData;
  (if IsShared b then Fork (nDataLength b) else ret tt);;
  (* Do it again, because the fork might have changed it *)
  pData <~ get_this;
  Lock pData;;
  get_this.

Definition UnlockBuffer : M unit :=
  pData <~ get_this;
  Unlock pData.

Definition Preallocate (nLength : Z) : M unit :=
  PrepareWrite nLength;; ret tt.

Definition ReleaseBuffer (nNewLength : Z) : M unit :=
  nNewLength <~ (if nNewLength =? -1 then
                   nAlloc <~ GetAllocLength;
                   p <~ get_this;
                   StringLengthN (InBuf p 0) nAlloc
                 else ret nNewLength);
  SetLength nNewLength.

Definition ReleaseBufferSetLength (nNewLength : Z) : M unit :=
  SetLength nNewLength.

Definition Truncate (nNewLength : Z) : M unit :=
  GetBuffer nNewLength;;
  ReleaseBufferSetLength nNewLength.

(** [pszBuffer[i] = ch] *)
Definition write_char (pszBuffer : addr) (i : Z) (ch : XCHAR) : M unit :=
  b <~ load pszBuffer;
  store pszBuffer (with_data b (poke (data b) i ch)).

(** A [const] member function called on another handle. *)
Definition on {A} (h : addr) (m : M A) : M A :=
  fun s => match m (mkState (mem s) h) with
           | Ok a s' => Ok a (mkState (mem s') (m_pszData s))
           | Throw e s' => Throw e (mkState (mem s') (m_pszData s))
           end.

(** *** Construction and destruction

    A constructor runs on a handle whose [m_pszData] is not yet set. *)

Definition ctor_mgr (pStringMgr : mgr) : M unit :=
  if pStringMgr =? 0 then AmvThrow EnsureFailed
  else
    pData <~ mgr_GetNilString pStringMgr;
    Attach pData.

Definition ctor_copy (strSrc : addr) : M unit :=
  pData <~ CloneData strSrc;
  Attach pData.

Definition ctor_psz (pszSrc : PCXSTR) (pStringMgr : mgr) : M unit :=
  if pStringMgr =? 0 then AmvThrow EnsureFailed
  else
    nLength <~ StringLength pszSrc;
    r <~ mgr_Allocate pStringMgr nLength sizeof_XCHAR;
    match r with
    | None => ThrowMemoryException
    | Some pData =>
        Attach pData;;
        SetLength nLength;;
        CopyChars pData 0 nLength pszSrc nLength
    end.

Definition ctor_pch (pchSrc : PCXSTR) (nLength : Z) (pStringMgr : mgr) : M unit :=
  if pStringMgr =? 0 then AmvThrow EnsureFailed
  else if (match pchSrc with NULL => true | _ => false end) && negb (nLength =? 0)
  then AmvThrow InvalidArgument
  else
    r <~ mgr_Allocate pStringMgr nLength sizeof_XCHAR;
    match r with
    | None => ThrowMemoryException
    | Some pData =>
        Attach pData;;
        SetLength nLength;;
        CopyChars pData 0 nLength pchSrc nLength
    end.

Definition dtor : M unit :=
  pData <~ get_this;
  Release pData.

(** *** Mutation *)

Definition Empty : M unit :=
  pOldData <~ get_this;
  old <~ load pOldData;
  let pStringMgr := pStringMgr old in
  if nDataLength old =? 0 then ret tt
  else if IsLocked old then
    (* Don't reallocate a locked buffer that's shrinking *)
    SetLength 0
  else
    Release pOldData;;
    pNewData <~ mgr_GetNilString pStringMgr;
    Attach pNewData.

Definition FreeExtra : M unit :=
  pOldData <~ get_this;
  old <~ load pOldData;
  let nLength := nDataLength old in
  let pStringMgr := pStringMgr old in
  if nAllocLength old =? nLength then ret tt
  else if negb (IsLocked old) then
    r <~ mgr_Allocate pStringMgr nLength sizeof_XCHAR;
    match r with
    | None => SetLength nLength
    | Some pNewData =>
        CopyChars pNewData 0 nLength (InBuf pOldData 0) nLength;;
        Release pOldData;;
        Attach pNewData;;
        SetLength nLength
    end
  else ret tt.

Definition GetAt (iChar : Z) : M XCHAR :=
  len <~ GetLength;
  if (iChar <? 0) || (iChar >? len) then AmvThrow InvalidArgument
  else
    b <~ GetData;
    ret (data b iChar).

Definition SetAt (iChar : Z) (ch : XCHAR) : M unit :=
  len <~ GetLength;
  if (iChar <? 0) || (iChar >=? len) then AmvThrow InvalidArgument
  else
    nLength <~ GetLength;
    pszBuffer <~ GetBuffer0;
    write_char pszBuffer iChar ch;;
    ReleaseBufferSetLength nLength.

Definition SetString (pszSrc : PCXSTR) (nLength : Z) : M unit :=
  if nLength =? 0 then Empty
  else
    match pszSrc with
    | NULL => AmvThrow InvalidArgument
    | _ =>
        len <~ GetLength;
        let nOldLength := to_uint len in
        this <~ get_this;
        let nOffset := ptr_diff pszSrc this in
        (* If 0 <= nOffset <= nOldLength, then pszSrc points into our buffer *)
        pszBuffer <~ GetBuffer nLength;
        alloc <~ GetAllocLength;
        (match nOffset with
         | Some o =>
             if o <=? nOldLength
             then CopyCharsOverlapped pszBuffer 0 alloc (InBuf pszBuffer o) nLength
             else CopyChars pszBuffer 0 alloc pszSrc nLength
         | None => CopyChars pszBuffer 0 alloc pszSrc nLength
         end);;
        ReleaseBufferSetLength nLength
    end.

Definition SetString_psz (pszSrc : PCXSTR) : M unit :=
  n <~ StringLength pszSrc;
  SetString pszSrc n.

Definition Append (pszSrc : PCXSTR) (nLength : Z) : M unit :=
  (* See comment in SetString() about why we do this *)
  this <~ get_this;
  let nOffset := ptr_diff pszSrc this in
  len <~ GetLength;
  let nOldLength := to_uint len in
  let nOldLength := if nOldLength <? 0 then 0 else nOldLength in
  (* Make sure the nLength is greater than zero *)
  if negb (nLength >=? 0) then AmvThrow InvalidArgument
  else
    (* Make sure we don't read pass end of the terminating NULL *)
    nLength <~ StringLengthN pszSrc nLength;
    (* Make sure after the string doesn't exceed INT_MAX after appending *)
    if negb (to_int (INT_MAX - nLength) >=? to_int nOldLength)
    then AmvThrow InvalidArgument
    else
      let nNewLength := to_int (to_uint (nOldLength + nLength)) in
      pszBuffer <~ GetBuffer nNewLength;
      let pszSrc :=
        match nOffset with
        | Some o => if o <=? nOldLength then InBuf pszBuffer o else pszSrc
        | None => pszSrc
        end in
      CopyChars pszBuffer nOldLength nLength pszSrc nLength;;
      ReleaseBufferSetLength nNewLength.

Definition Append_psz (pszSrc : PCXSTR) : M unit :=
  n <~ StringLength pszSrc;
  Append pszSrc n.

Definition Append_str (strSrc : addr) : M unit :=
  n <~ on strSrc GetLength;
  Append (InBuf strSrc 0) n.

Definition AppendChar (ch : XCHAR) : M unit :=
  len <~ GetLength;
  let nOldLength := to_uint len in
  let nNewLength := to_int (to_uint (nOldLength + 1)) in
  pszBuffer <~ GetBuffer nNewLength;
  write_char pszBuffer nOldLength ch;;
  ReleaseBufferSetLength nNewLength.

Definition SetManager (pStringMgr : mgr) : M unit :=
  pData <~ get_this;
  Release pData;;
  pData <~ mgr_GetNilString pStringMgr;
  Attach pData.

(** [operator=(const CSimpleStringT&)] *)
Definition operator_assign (strSrc : addr) : M unit :=
  let pSrcData := strSrc in
  pOldData <~ get_this;
  if negb (pSrcData =? pOldData) then
    src <~ load pSrcData;
    old <~ load pOldData;
    if IsLocked old || negb (pStringMgr src =? pStringMgr old) then
      SetString (InBuf strSrc 0) (nDataLength src)
    else
      pNewData <~ CloneData pSrcData;
      Release pOldData;;
      Attach pNewData
  else ret tt.

(** [operator=(PCXSTR)] *)
Definition operator_assign_psz (pszSrc : PCXSTR) : M unit :=
  SetString_psz pszSrc.

(** *** Concatenation *)

Definition Concatenate (psz1 : PCXSTR) (nLength1 : Z)
    (psz2 : PCXSTR) (nLength2 : Z) : M unit :=
  let nNewLength := to_int (nLength1 + nLength2) in
  pszBuffer <~ GetBuffer nNewLength;
  CopyChars pszBuffer 0 nLength1 psz1 nLength1;;
  CopyChars pszBuffer nLength1 nLength2 psz2 nLength2;;
  ReleaseBufferSetLength nNewLength.

(** [operator+(str1, str2)]: the local [s] is the handle the computation
    runs on, and it is the handle returned.  The three operators are
    modelled up to their return: when [Concatenate] throws, the fault is
    passed on from the state of the throw, and the destructor that
    unwinding runs on the local [s] (one [Release] of the nil string) is
    not part of the model. *)
Definition operator_plus (str1 str2 : addr) : M unit :=
  m <~ on str1 GetManager;
  ctor_mgr m;;
  n1 <~ on str1 GetLength;
  n2 <~ on str2 GetLength;
  Concatenate (InBuf str1 0) n1 (InBuf str2 0) n2.

Definition operator_plus_str_psz (str1 : addr) (psz2 : PCXSTR) : M unit :=
  m <~ on str1 GetManager;
  ctor_mgr m;;
  n1 <~ on str1 GetLength;
  n2 <~ StringLength psz2;
  Concatenate (InBuf str1 0) n1 psz2 n2.

Definition operator_plus_psz_str (psz1 : PCXSTR) (str2 : addr) : M unit :=
  m <~ on str2 GetManager;
  ctor_mgr m;;
  n1 <~ StringLength psz1;
  n2 <~ on str2 GetLength;
  Concatenate psz1 n1 (InBuf str2 0) n2.

End CSimpleStringT.

(** ** A heap-backed manager

    One implementation of the interface, used to run the code on concrete
    strings: addresses are handed out in increasing order, a request above
    [limit] fails, [Reallocate] always moves the buffer, and each manager
    keeps its nil string at a fixed non-positive address. *)

Definition fresh_addr (h : heap) : addr :=
  1 + map_fold (fun k _ acc => Z.max k acc) 0 h.

Definition junk : Z -> XCHAR := fun _ => "?"%char.

Definition nil_addr (m : mgr) : addr := - Z.abs m.

Definition is_nil_data (m : mgr) (b : BStringData) : bool :=
  (pStringMgr b =? m) && (nDataLength b =? 0) && (nAllocLength b =? 0) &&
  is_nul (data b 0).

Definition Heap_Allocate (limit : Z) (m : mgr) (n sz : Z) (h : heap)
  : option addr * heap :=
  if (n <? 0) || (n >? limit) then (None, h)
  else let p := fresh_addr h in
       (Some p, <[p := mkBStringData m 0 n 1 junk]> h).

Definition Heap_Free (m : mgr) (p : addr) (h : heap) : heap := delete p h.

Definition Heap_Reallocate (limit : Z) (m : mgr) (p : addr) (n sz : Z) (h : heap)
  : option addr * heap :=
  match h !! p with
  | None => (None, h)
  | Some b =>
      if (n <? 0) || (n >? limit) then (None, h)
      else let q := fresh_addr h in
           (Some q,
            <[q := mkBStringData (pStringMgr b) (nDataLength b) n (nRefs b) (data b)]>
              (delete p h))
  end.

Definition Heap_GetNilString (m : mgr) (h : heap) : addr * heap :=
  let p := nil_addr m in
  match h !! p with
  | None => (p, <[p := CNilStringData m]> h)
  | Some b =>
      if is_nil_data m b then
        (p, <[p := with_nRefs b (if nRefs b <? 1 then 2
                                 else Z.min INT_MAX (nRefs b + 1))]> h)
      else let q := fresh_addr h in (q, <[q := CNilStringData m]> h)
  end.

Definition HeapMgr (limit : Z) : IAmvStringMgr :=
  {| Allocate := Heap_Allocate limit;
     Free := Heap_Free;
     Reallocate := Heap_Reallocate limit;
     GetNilString := Heap_GetNilString;
     Clone := fun m => m |}.

(** ** What the code relies on from a manager *)

(** Modelled from the spec: the allocator behind [IAmvStringMgr] is not part
    of the sources.  [allocate] yields a new buffer in the unique state
    (count 1) of at least the requested capacity, or fails and leaves memory
    alone; [reallocate] may return a different buffer object, keeps header
    and characters, and grants at least the requested capacity; [free]
    touches no other buffer; the nil string is zero-length, terminated, and
    pinned with a count of at least 2 ([CNilStringData] starts it at 2). *)
Record MgrSpec (Mgr : IAmvStringMgr) : Prop := {
  Allocate_fail : forall m n sz (h h' : heap),
    Allocate Mgr m n sz h = (None, h') -> h' = h;
  Allocate_ok : forall m n sz (h h' : heap) p,
    Allocate Mgr m n sz h = (Some p, h') ->
    h !! p = None /\
    exists b, h' = <[p := b]> h /\ pStringMgr b = m /\ nRefs b = 1 /\
              n <= nAllocLength b <= INT_MAX;
  Reallocate_fail : forall m p n sz (h h' : heap),
    Reallocate Mgr m p n sz h = (None, h') -> h' = h;
  Reallocate_ok : forall m p n sz (h h' : heap) q b,
    Reallocate Mgr m p n sz h = (Some q, h') -> h !! p = Some b ->
    (q = p \/ h !! q = None) /\
    exists b', h' = <[q := b']> (delete p h) /\
               pStringMgr b' = pStringMgr b /\
               nDataLength b' = nDataLength b /\
               nRefs b' = nRefs b /\
               n <= nAllocLength b' <= INT_MAX /\
               forall i, 0 <= i <= nAllocLength b -> data b' i = data b i;
  Free_other : forall m p (h : heap) q,
    q <> p -> Free Mgr m p h !! q = h !! q;
  GetNilString_ok : forall m (h h' : heap) p,
    GetNilString Mgr m h = (p, h') ->
    (exists b, h' !! p = Some b /\ pStringMgr b = m /\
               nDataLength b = 0 /\ 0 <= nAllocLength b <= INT_MAX /\
               2 <= nRefs b <= INT_MAX /\ data b 0 = NUL) /\
    (forall q, q <> p -> h' !! q = h !! q) /\
    (forall b, h !! p = Some b -> exists r, h' !! p = Some (with_nRefs b r))
}.

(** ** The payload invariant *)

(** [dataLength <= allocLength], and the payload is terminated at
    [dataLength]. *)
Definition StringInv (b : BStringData) : Prop :=
  0 <= nDataLength b <= nAllocLength b /\ data b (nDataLength b) = NUL.

(** The header fields hold values of their C types, and a payload of
    [nAllocLength + 1] units can exist. *)
Definition typed (b : BStringData) : Prop :=
  is_int (nRefs b) /\ nAllocLength b <= INT_MAX.

Definition wf_data (b : BStringData) : Prop := typed b /\ StringInv b.

(** The handle is attached to a live buffer that satisfies [P]. *)
Definition attached (P : BStringData -> Prop) (s : State) : Prop :=
  exists b, mem s !! m_pszData s = Some b /\ P b.

(** The state a computation ends in, whether it returns or throws. *)
Definition final {A} (r : Res A) : State :=
  match r with Ok _ s => s | Throw _ s => s end.

(** The characters a handle denotes: the first [nDataLength] units. *)
Definition chars (b : BStringData) : list XCHAR :=
  map (fun i => data b (Z.of_nat i)) (seq 0 (Z.to_nat (nDataLength b))).

Definition value_of (s : State) : option string :=
  match mem s !! m_pszData s with
  | Some b => Some (string_of_list_ascii (chars b))
  | None => None
  end.

(** A payload holding the characters of [s], its terminator, then NULs. *)
Definition payload (s : string) : Z -> XCHAR := ext_mem (list_ascii_of_string s).

(** ** Auxiliary definitions for the statements *)

(** Header equality: everything but the payload. *)
Definition hdr_eq (b' b : BStringData) : Prop :=
  pStringMgr b' = pStringMgr b /\ nDataLength b' = nDataLength b /\
  nAllocLength b' = nAllocLength b /\ nRefs b' = nRefs b.

(** The buffer a fork builds from the buffer [b0] the manager handed out. *)
Definition forked (old b0 : BStringData) (nLength : Z) : BStringData :=
  with_nDataLength
    (with_data b0 (blit (data b0) 0 (data old)
                        (Z.min (nDataLength old) nLength + 1)))
    (nDataLength old).

(** What [PrepareWrite2] asks [Reallocate] for, from capacity [A] and
    wanted length [L] (the arithmetic of the source, in [int]). *)
Definition grown (A L : Z) : Z :=
  let nNewLength :=
    if A >? 1024 * 1024 * 1024
    then to_int (A + 1024 * 1024)
    else to_int (A + A ÷ 2) in
  if nNewLength <? L then L else nNewLength.

(** The outcome of handing the attached buffer to the manager's
    [Reallocate]. *)
Definition realloc_outcome (p : addr) (r : option addr * gmap Z BStringData)
  : Res addr :=
  match r with
  | (Some q, h) => Ok q (mkState h q)
  | (None, h) => Throw OutOfMemory (mkState h p)
  end.

Definition then_this (r : Res unit) : Res addr :=
  match r with
  | Ok _ s => Ok (m_pszData s) s
  | Throw e s => Throw e s
  end.

(** ** Concrete buffers and states *)

(** A buffer of manager [m] with count [refs] and capacity [alloc] holding
    the characters of [s]. *)
Definition buf (m : mgr) (refs alloc : Z) (s : string) : BStringData :=
  mkBStringData m (Z.of_nat (String.length s)) alloc refs (payload s).

(** The growth rule in the words of the specification: a factor of 1.5
    below 1 GiB, a fixed 1 MiB at or above it, and never less than the
    wanted length. *)
Definition growth_claimed (A L : Z) : Z :=
  Z.max L (if A <? 1073741824 then A + A / 2 else A + 1048576).

(** A unique, empty buffer whose capacity is exactly 1 GiB. *)
Definition st_1G : State := mkState {[ 1 := buf 1 1 1073741824 "" ]} 1.

(** A unique buffer ["abc"] of capacity 4. *)
Definition st_abc : State := mkState {[ 1 := buf 1 1 4 "abc" ]} 1.

(** The number of character units a fork copies, in the words of the
    specification. *)
Definition copied_claimed (oldLength requestedLength : Z) : Z :=
  Z.min oldLength requestedLength + 1.

(** The three ways a caller asks for mutable access to the payload. *)
Inductive access : Type :=
| ByGetBuffer
| ByPrepareWrite (nLength : Z)
| ByLockBuffer.

(** The length each of them passes to [Fork] when the buffer is shared. *)
Definition fork_length (a : access) (old : BStringData) : Z :=
  match a with
  | ByPrepareWrite n => Z.max (nDataLength old) n
  | _ => nDataLength old
  end.

Definition request (Mgr : IAmvStringMgr) (a : access) : M addr :=
  match a with
  | ByGetBuffer => GetBuffer0 Mgr
  | ByPrepareWrite n => PrepareWrite Mgr n
  | ByLockBuffer => LockBuffer Mgr
  end.

(** Two handles on ["hello"]: one buffer with count 2. *)
Definition st_shared : State := mkState {[ 1 := buf 1 2 5 "hello" ]} 1.

(** A locked buffer ["hello"] of capacity 8. *)
Definition st_locked : State := mkState {[ 1 := buf 1 (-1) 8 "hello" ]} 1.

(** A unique buffer ["hello"] of capacity 8. *)
Definition st_hello : State := mkState {[ 1 := buf 1 1 8 "hello" ]} 1.

(** Every buffer live in [s] is still there, unchanged, in [s']. *)
Definition preserves (s s' : State) : Prop :=
  forall r x, mem s !! r = Some x -> mem s' !! r = Some x.

(** What a caller of [PrepareWrite n] may rely on, from a state [s] whose
    handle is attached to [old]: on return the handle is attached to an
    unshared buffer of capacity at least [n] with the old length and the
    old characters, which is the old buffer or a new one, and no third
    buffer has changed; on a throw the handle is where it was and no live
    buffer has changed. *)
Definition prepared (s : State) (old : BStringData) (n : Z) (r : Res addr)
  : Prop :=
  match r with
  | Ok p1 s1 =>
      m_pszData s1 = p1 /\
      exists b1,
        mem s1 !! p1 = Some b1 /\
        nDataLength b1 = nDataLength old /\
        Z.max n (nDataLength old) <= nAllocLength b1 <= INT_MAX /\
        nRefs b1 <= 1 /\ is_int (nRefs b1) /\
        (nRefs old <= 1 -> nRefs b1 = nRefs old /\
                           pStringMgr b1 = pStringMgr old) /\
        (forall i, 0 <= i <= nDataLength old -> data b1 i = data old i) /\
        (p1 = m_pszData s \/ mem s !! p1 = None) /\
        (forall r, r <> m_pszData s -> r <> p1 -> mem s1 !! r = mem s !! r) /\
        (p1 <> m_pszData s ->
           mem s1 !! m_pszData s = None \/
           mem s1 !! m_pszData s = Some (with_nRefs old (nRefs old - 1)))
  | Throw e s1 =>
      m_pszData s1 = m_pszData s /\ preserves s s1 /\
      (e = OutOfMemory -> s1 = s)
  end.

(** The source [Append] copies from once it has the writable buffer. *)
Definition rebase (pszSrc : PCXSTR) (this : addr) (nOldLength : Z)
    (pszBuffer : addr) : PCXSTR :=
  match ptr_diff pszSrc this with
  | Some o => if o <=? nOldLength then InBuf pszBuffer o else pszSrc
  | None => pszSrc
  end.

(** Sources that a fork or a reallocation of the handle's own buffer cannot
    invalidate: an array of the caller, another live buffer, or a position
    inside the handle's own characters (terminator included). *)
Definition steady (s : State) (old : BStringData) (src : PCXSTR) : Prop :=
  match src with
  | NULL => False
  | External _ => True
  | InBuf q off =>
      (q <> m_pszData s /\ is_Some (mem s !! q)) \/
      (q = m_pszData s /\ 0 <= off <= nDataLength old)
  end.

(** An independent copy of the [n] units found [off] units into a payload. *)
Definition span_copy (b : BStringData) (off n : Z) : list XCHAR :=
  map (fun i => data b (off + Z.of_nat i)) (seq 0 (Z.to_nat n)).

(** Two outcomes that a caller cannot tell apart: the same fault in the
    same state, or the same attachment and, buffer by buffer, the same
    header and the same characters. *)
Definition same_buffer (b1 b2 : BStringData) : Prop :=
  hdr_eq b1 b2 /\ forall i, data b1 i = data b2 i.

Definition same_outcome (r1 r2 : Res unit) : Prop :=
  match r1, r2 with
  | Ok _ s1, Ok _ s2 =>
      m_pszData s1 = m_pszData s2 /\
      value_of s1 = value_of s2 /\
      forall q, option_Forall2 same_buffer (mem s1 !! q) (mem s2 !! q)
  | Throw e1 s1, Throw e2 s2 => e1 = e2 /\ s1 = s2
  | _, _ => False
  end.

(** A unique buffer ["abc"] of capacity 3 and a longer one elsewhere. *)
Definition st_tight : State :=
  mkState {[ 1 := buf 1 1 3 "abc"; 2 := buf 1 1 8 "wxyz" ]} 1.

(** The four units [x y NUL z]: a source with an embedded terminator. *)
Definition xy0z : PCXSTR := External ["x"; "y"; NUL; "z"]%char.

(** The copy step of [SetString], once the buffer [pszBuffer] of capacity
    [alloc] is prepared. *)
Definition SetString_copy (pszSrc : PCXSTR) (this : addr) (nOldLength : Z)
    (pszBuffer : addr) (alloc nLength : Z) : M unit :=
  match ptr_diff pszSrc this with
  | Some o =>
      if o <=? nOldLength
      then CopyCharsOverlapped pszBuffer 0 alloc (InBuf pszBuffer o) nLength
      else CopyChars pszBuffer 0 alloc pszSrc nLength
  | None => CopyChars pszBuffer 0 alloc pszSrc nLength
  end.

(** A locked, roomy target ["hello"] and a source ["abc"] of the same
    manager. *)
Definition st_locked_target : State :=
  mkState {[ 1 := buf 1 (-1) 8 "hello"; 2 := buf 1 1 3 "abc" ]} 1.

(** Two unlocked buffers of the same manager. *)
Definition st_two : State :=
  mkState {[ 1 := buf 1 1 8 "hello"; 2 := buf 1 1 3 "abc" ]} 1.

(** Two strings of one manager, ["foo"] shared by two handles and
    ["bar"]. *)
Definition st_foo_bar : State :=
  mkState {[ 1 := buf 1 2 3 "foo"; 2 := buf 1 1 8 "bar" ]} 0.

(** ** The public operations that leave a handle behind *)

Inductive public_op : Type :=
| Op_ctor_mgr (pStringMgr : mgr)
| Op_ctor_copy (strSrc : addr)
| Op_ctor_psz (pszSrc : PCXSTR) (pStringMgr : mgr)
| Op_ctor_pch (pchSrc : PCXSTR) (nLength : Z) (pStringMgr : mgr)
| Op_assign (strSrc : addr)
| Op_assign_psz (pszSrc : PCXSTR)
| Op_Append (pszSrc : PCXSTR) (nLength : Z)
| Op_Append_psz (pszSrc : PCXSTR)
| Op_Append_str (strSrc : addr)
| Op_AppendChar (ch : XCHAR)
| Op_SetString (pszSrc : PCXSTR) (nLength : Z)
| Op_SetString_psz (pszSrc : PCXSTR)
| Op_SetAt (iChar : Z) (ch : XCHAR)
| Op_Truncate (nNewLength : Z)
| Op_Empty
| Op_FreeExtra
| Op_ReleaseBuffer (nNewLength : Z)
| Op_ReleaseBufferSetLength (nNewLength : Z).

Definition exec (Mgr : IAmvStringMgr) (o : public_op) : M unit :=
  match o with
  | Op_ctor_mgr m => ctor_mgr Mgr m
  | Op_ctor_copy src => ctor_copy Mgr src
  | Op_ctor_psz psz m => ctor_psz Mgr psz m
  | Op_ctor_pch pch n m => ctor_pch Mgr pch n m
  | Op_assign src => operator_assign Mgr src
  | Op_assign_psz psz => operator_assign_psz Mgr psz
  | Op_Append psz n => Append Mgr psz n
  | Op_Append_psz psz => Append_psz Mgr psz
  | Op_Append_str src => Append_str Mgr src
  | Op_AppendChar ch => AppendChar Mgr ch
  | Op_SetString psz n => SetString Mgr psz n
  | Op_SetString_psz psz => SetString_psz Mgr psz
  | Op_SetAt i ch => SetAt Mgr i ch
  | Op_Truncate n => Truncate Mgr n
  | Op_Empty => Empty Mgr
  | Op_FreeExtra => FreeExtra Mgr
  | Op_ReleaseBuffer n => ReleaseBuffer n
  | Op_ReleaseBufferSetLength n => ReleaseBufferSetLength n
  end.

(** A constructor starts from nothing; a mutation starts from a handle in
    good standing; a buffer release ends a spell of raw writes, so only
    the header can be relied on when it starts. *)
Inductive op_kind : Type := Constructs | Mutates | Commits.

Definition kind_of (o : public_op) : op_kind :=
  match o with
  | Op_ctor_mgr _ | Op_ctor_copy _ | Op_ctor_psz _ _ | Op_ctor_pch _ _ _ =>
      Constructs
  | Op_ReleaseBuffer _ | Op_ReleaseBufferSetLength _ => Commits
  | _ => Mutates
  end.

(** The other handle an operation reads, if any. *)
Definition source_handle (o : public_op) : option addr :=
  match o with
  | Op_ctor_copy src | Op_assign src | Op_Append_str src => Some src
  | _ => None
  end.

(** The [int] argument of an operation, if any. *)
Definition int_argument (o : public_op) : option Z :=
  match o with
  | Op_ctor_pch _ n _ | Op_Append _ n | Op_SetString _ n | Op_SetAt n _
  | Op_Truncate n | Op_ReleaseBuffer n | Op_ReleaseBufferSetLength n => Some n
  | _ => None
  end.

Definition op_pre (o : public_op) (s : State) : Prop :=
  match kind_of o with
  | Constructs => True
  | Mutates => attached wf_data s
  | Commits => attached typed s
  end /\
  match source_handle o with
  | Some src => exists b, mem s !! src = Some b /\ wf_data b
  | None => True
  end /\
  match int_argument o with
  | Some n => is_int n
  | None => True
  end.

(** What holds after it, started from [s]: on return the handle is in good
    standing; a mutation that throws leaves it in good standing too, a
    buffer release that throws leaves the state as it was, and a
    constructor that throws leaves no handle. *)
Definition op_post (o : public_op) (s : State) (r : Res unit) : Prop :=
  match r with
  | Ok _ s' => attached wf_data s'
  | Throw _ s' =>
      match kind_of o with
      | Mutates => attached wf_data s'
      | Commits => s' = s
      | Constructs => True
      end
  end.

(** The state a mutation may end in, whether it returns or throws. *)
Definition keeps {A} (r : Res A) : Prop := attached wf_data (final r).

(** A step that writes characters only: it ends attached to the same
    buffer with the same header, or throws without having changed
    anything. *)
Definition writes_payload (m : M unit) (s : State) (b : BStringData) : Prop :=
  match m s with
  | Ok _ s' =>
      m_pszData s' = m_pszData s /\
      exists b', mem s' !! m_pszData s = Some b' /\ hdr_eq b' b
  | Throw _ s' => s' = s
  end.

(** ** More of [CSimpleStringT], and [CStrBufT] *)

(** [operator[]] *)
Definition operator_index (iChar : Z) : M XCHAR :=
  len <~ GetLength;
  if (iChar <? 0) || (iChar >? len) then AmvThrow InvalidArgument
  else
    b <~ GetData;
    ret (data b iChar).

Definition IsEmpty : M bool :=
  len <~ GetLength;
  ret (len =? 0).

(** [CStrBufT]: the string it wraps is the handle the computation runs on;
    the object itself is its two other members. *)
Record CStrBufT : Type := mkCStrBufT {
  m_pszBuffer : addr;
  m_nLength : Z
}.

Definition AUTO_LENGTH : Z := 1.
Definition SET_LENGTH : Z := 2.

(** [CStrBufT(str)] *)
Definition CStrBufT_ctor (Mgr : IAmvStringMgr) : M CStrBufT :=
  nLength <~ GetLength;
  pszBuffer <~ GetBuffer0 Mgr;
  ret (mkCStrBufT pszBuffer nLength).

(** [CStrBufT(str, nMinLength, dwFlags)] *)
Definition CStrBufT_ctor_min (Mgr : IAmvStringMgr) (nMinLength dwFlags : Z)
  : M CStrBufT :=
  let nLength :=
    if negb (Z.land dwFlags AUTO_LENGTH =? 0) then -1 else nMinLength in
  pszBuffer <~ (if negb (Z.land dwFlags SET_LENGTH =? 0)
                then GetBufferSetLength Mgr nMinLength
                else GetBuffer Mgr nMinLength);
  ret (mkCStrBufT pszBuffer nLength).

(** [~CStrBufT()].  A fault of [ReleaseBuffer] is passed on as a fault;
    what a throw out of a destructor does to the program is not part of
    the model. *)
Definition CStrBufT_dtor (buf : CStrBufT) : M unit :=
  ReleaseBuffer (m_nLength buf).

(** [CStrBufT::SetLength] *)
Definition CStrBufT_SetLength (buf : CStrBufT) (nLength : Z) : M CStrBufT :=
  if nLength <? 0 then AmvThrow InvalidArgument
  else ret (mkCStrBufT (m_pszBuffer buf) nLength).


(** A fault other than the model's own stop on a dead pointer: one the
    source raises with [AmvThrow] or [AMVENSURE]. *)
Definition raised (e : fault) : Prop := e <> InvalidAccess.

(** An outcome that is all or nothing: a raised fault leaves the state it
    started from. *)
Definition all_or_nothing {A} (s : State) (r : Res A) : Prop :=
  forall e s', r = Throw e s' -> raised e -> s' = s.

(** A unique buffer ["hi"] of capacity 10. *)
Definition st_loose : State := mkState {[ 1 := buf 1 1 10 "hi" ]} 1.


(* ================================================================ *)
(** ** Basic facts *)

Lemma to_int_id z : is_int z -> to_int z = z.
Proof.
  unfold is_int, to_int, INT_MIN, INT_MAX. intros H.
  rewrite Z.mod_small by lia. lia.
Qed.

Lemma to_int_is_int z : is_int (to_int z).
Proof.
  unfold is_int, to_int, INT_MIN, INT_MAX.
  pose proof (Z.mod_pos_bound (z + 2147483648) 4294967296). lia.
Qed.

Lemma to_uint_id z : 0 <= z <= INT_MAX -> to_uint z = z.
Proof. unfold to_uint, INT_MAX. intros H. apply Z.mod_small. lia. Qed.

Lemma to_uintptr_id z : 0 <= z <= INT_MAX -> to_uintptr z = z.
Proof. unfold to_uintptr, INT_MAX. intros H. apply Z.mod_small. lia. Qed.

Lemma lor_sign a b : (Z.lor a b <? 0) = (a <? 0) || (b <? 0).
Proof.
  destruct (Z.ltb_spec (Z.lor a b) 0) as [H|H].
  - apply Z.lor_neg in H. symmetry. apply orb_true_iff.
    destruct H; [left | right]; by apply Z.ltb_lt.
  - apply Z.lor_nonneg in H. destruct H. symmetry. apply orb_false_iff.
    split; apply Z.ltb_ge; lia.
Qed.

Lemma fresh_addr_above (h : heap) k : is_Some (h !! k) -> k < fresh_addr h.
Proof.
  unfold fresh_addr.
  enough (Hall : forall k, is_Some (h !! k) ->
            k <= map_fold (fun k _ acc => Z.max k acc) 0 h).
  { intros Hk. specialize (Hall k Hk). lia. }
  clear k.
  apply (map_fold_weak_ind
           (fun r (m : gmap Z BStringData) => forall k, is_Some (m !! k) -> k <= r)).
  - intros k [x Hx]. by rewrite lookup_empty in Hx.
  - intros i x m r Hi IH k Hk.
    destruct (decide (k = i)) as [->|Hne]; [lia|].
    rewrite lookup_insert_ne in Hk by done. specialize (IH k Hk). lia.
Qed.

Lemma fresh_addr_fresh (h : heap) : h !! fresh_addr h = None.
Proof.
  destruct (h !! fresh_addr h) eqn:E; [|done].
  pose proof (fresh_addr_above h (fresh_addr h)) as H.
  rewrite E in H. specialize (H (mk_is_Some _ _ eq_refl)). lia.
Qed.

(** The heap-backed manager meets the contract. *)
Lemma HeapMgr_spec limit : limit <= INT_MAX -> MgrSpec (HeapMgr limit).
Proof.
  intros Hlim. split; simpl.
  - intros m n sz h h'. unfold Heap_Allocate.
    destruct ((n <? 0) || (n >? limit)); congruence.
  - intros m n sz h h' p. unfold Heap_Allocate.
    destruct ((n <? 0) || (n >? limit)) eqn:E; [congruence|].
    intros [= <- <-]. split; [apply fresh_addr_fresh|].
    eexists; split; [reflexivity|]. simpl.
    apply orb_false_iff in E as [E1 E2].
    repeat split; try lia.
  - intros m p n sz h h'. unfold Heap_Reallocate.
    destruct (h !! p); [|congruence].
    destruct ((n <? 0) || (n >? limit)); congruence.
  - intros m p n sz h h' q b. unfold Heap_Reallocate. intros H Hb.
    rewrite Hb in H.
    destruct ((n <? 0) || (n >? limit)) eqn:E; [congruence|].
    injection H as <- <-. split; [right; apply fresh_addr_fresh|].
    eexists; split; [reflexivity|]. simpl.
    apply orb_false_iff in E as [E1 E2].
    repeat split; try lia.
  - intros m p h q Hne. unfold Heap_Free. by rewrite lookup_delete_ne.
  - intros m h h' p. unfold Heap_GetNilString.
    destruct (h !! nil_addr m) as [b|] eqn:E.
    + destruct (is_nil_data m b) eqn:En.
      * intros [= <- <-]. unfold is_nil_data in En.
        apply andb_true_iff in En as [En E4]. apply andb_true_iff in En as [En E3].
        apply andb_true_iff in En as [E1 E2].
        apply Z.eqb_eq in E1, E2, E3. apply Ascii.eqb_eq in E4.
        split; [|split].
        -- eexists. rewrite lookup_insert_eq. split; [reflexivity|]. simpl.
           unfold INT_MAX in *.
           destruct (Z.ltb_spec (nRefs b) 1); repeat split; try lia; done.
        -- intros q Hq. by rewrite lookup_insert_ne.
        -- intros b' Hb'. rewrite E in Hb'. injection Hb' as <-.
           eexists. by rewrite lookup_insert_eq.
      * intros [= <- <-]. split; [|split].
        -- eexists. rewrite lookup_insert_eq. split; [reflexivity|]. simpl.
           unfold INT_MAX. repeat split; lia.
        -- intros q Hq. by rewrite lookup_insert_ne.
        -- intros b' Hb'. by rewrite fresh_addr_fresh in Hb'.
    + intros [= <- <-]. split; [|split].
      * eexists. rewrite lookup_insert_eq. split; [reflexivity|]. simpl.
        unfold INT_MAX. repeat split; lia.
      * intros q Hq. by rewrite lookup_insert_ne.
      * intros b' Hb'. congruence.
Qed.

(** ** Running the code symbolically *)

Lemma state_eta s : mkState (mem s) (m_pszData s) = s.
Proof. by destruct s. Qed.

Lemma with_nRefs_same b : with_nRefs b (nRefs b) = b.
Proof. by destruct b. Qed.

Lemma with_nRefs_twice b n k : with_nRefs (with_nRefs b n) k = with_nRefs b k.
Proof. done. Qed.

Lemma load_live p b s : mem s !! p = Some b -> load p s = Ok b s.
Proof. unfold load. by intros ->. Qed.

Lemma bind_ok {A B} (m : M A) (k : A -> M B) s a s' :
  m s = Ok a s' -> bind m k s = k a s'.
Proof. unfold bind. by intros ->. Qed.

Lemma bind_throw {A B} (m : M A) (k : A -> M B) s e s' :
  m s = Throw e s' -> bind m k s = Throw e s'.
Proof. unfold bind. by intros ->. Qed.

Ltac ilia := unfold is_int, INT_MIN, INT_MAX in *; lia.

Ltac mred :=
  unfold GetLength, GetAllocLength, GetString;
  unfold GetData, ThrowMemoryException;
  unfold bind, ret, get_this, load, store, AmvThrow, Attach; simpl.

Lemma Lock_unique p b s :
  mem s !! p = Some b -> nRefs b = 1 ->
  Lock p s = Ok tt (mkState (<[p := with_nRefs b (-1)]> (mem s)) (m_pszData s)).
Proof.
  intros Hb Hr. unfold Lock. mred. rewrite Hb, Hr. reflexivity.
Qed.

Lemma Unlock_locked p b s :
  mem s !! p = Some b -> nRefs b = -1 ->
  Unlock p s = Ok tt (mkState (<[p := with_nRefs b 1]> (mem s)) (m_pszData s)).
Proof.
  intros Hb Hr. unfold Unlock, IsLocked. mred. rewrite Hb, Hr. reflexivity.
Qed.

Lemma Lock_then_Unlock p b s :
  mem s !! p = Some b -> nRefs b = 1 ->
  (Lock p ;; Unlock p) s = Ok tt s.
Proof.
  intros Hb Hr.
  erewrite bind_ok by (by apply Lock_unique).
  erewrite Unlock_locked; [|simpl; apply lookup_insert_eq|done].
  simpl. rewrite insert_insert_eq, with_nRefs_twice, <- Hr, with_nRefs_same.
  rewrite insert_id by done. by rewrite state_eta.
Qed.

Lemma min_if a b : (if a <? b then a else b) = Z.min a b.
Proof. destruct (Z.ltb_spec a b); lia. Qed.

Section Runs.

Variable Mgr : IAmvStringMgr.

Lemma memcpy_ok d off src n f b s :
  0 < n -> deref (mem s) src = Some f -> mem s !! d = Some b ->
  memcpy d off src n s =
  Ok tt (mkState (<[d := with_data b (blit (data b) off f n)]> (mem s))
                 (m_pszData s)).
Proof.
  intros Hn Hf Hb. unfold memcpy.
  destruct (Z.eqb_spec n 0); [lia|]. rewrite Hf, Hb.
  destruct (Z.ltb_spec n 0); [lia|]. reflexivity.
Qed.

Lemma memcpy_zero d off src s : memcpy d off src 0 s = Ok tt s.
Proof. reflexivity. Qed.

Lemma Release_run p b s :
  mem s !! p = Some b ->
  Release Mgr p s =
  Ok tt (mkState
           (let h := <[p := with_nRefs b (to_int (nRefs b - 1))]> (mem s) in
            if to_int (nRefs b - 1) <=? 0 then Free Mgr (pStringMgr b) p h else h)
           (m_pszData s)).
Proof.
  intros Hb. unfold Release. mred. rewrite Hb. simpl.
  destruct (to_int (nRefs b - 1) <=? 0); reflexivity.
Qed.

Lemma Release_shared p b s :
  mem s !! p = Some b -> 1 < nRefs b <= INT_MAX ->
  Release Mgr p s =
  Ok tt (mkState (<[p := with_nRefs b (nRefs b - 1)]> (mem s)) (m_pszData s)).
Proof.
  intros Hb Hr. rewrite (Release_run p b) by done. cbv zeta.
  rewrite to_int_id by ilia.
  destruct (Z.leb_spec (nRefs b - 1) 0); [lia|]. reflexivity.
Qed.

Hypothesis HM : MgrSpec Mgr.

Lemma Fork_ok s old nLength q h1 :
  mem s !! m_pszData s = Some old ->
  1 < nRefs old <= INT_MAX ->
  0 <= nDataLength old < INT_MAX ->
  0 <= nLength ->
  Allocate Mgr (Clone Mgr (pStringMgr old)) nLength sizeof_XCHAR (mem s)
    = (Some q, h1) ->
  exists b0,
    h1 = <[q := b0]> (mem s) /\ mem s !! q = None /\
    pStringMgr b0 = Clone Mgr (pStringMgr old) /\ nRefs b0 = 1 /\
    nLength <= nAllocLength b0 <= INT_MAX /\
    Fork Mgr nLength s =
    Ok tt (mkState (<[m_pszData s := with_nRefs old (nRefs old - 1)]>
                      (<[q := forked old b0 nLength]> (mem s)))
                   q).
Proof.
  intros Hold Hr Hd HL Ha.
  destruct (Allocate_ok _ HM _ _ _ _ _ _ Ha) as (Hq & b0 & -> & Hm & Hr0 & Hcap).
  exists b0. repeat split; try done; try lia.
  assert (Hne : q <> m_pszData s) by congruence.
  unfold Fork. mred. rewrite Hold. unfold mgr_Allocate. rewrite Ha. simpl.
  rewrite min_if.
  rewrite to_int_id by ilia.
  unfold CopyChars.
  erewrite memcpy_ok; [| lia | simpl; rewrite lookup_insert_ne by done; by rewrite Hold
                       | simpl; apply lookup_insert_eq].
  simpl. rewrite lookup_insert_eq. simpl.
  erewrite Release_shared;
    [| simpl; rewrite !lookup_insert_ne by done; exact Hold | done].
  simpl. rewrite !insert_insert_eq. reflexivity.
Qed.

End Runs.

Section Prepare.

Variable Mgr : IAmvStringMgr.

Lemma PrepareWrite_shared s old n :
  mem s !! m_pszData s = Some old ->
  1 < nRefs old <= INT_MAX ->
  0 <= n ->
  PrepareWrite Mgr n s = then_this (Fork Mgr (Z.max (nDataLength old) n) s).
Proof.
  intros Hold Hr Hn. unfold PrepareWrite.
  destruct (Z.ltb_spec n 0); [ilia|].
  mred. rewrite Hold. simpl. rewrite lor_sign.
  rewrite (to_int_id (1 - nRefs old))
    by ilia.
  destruct (Z.ltb_spec (1 - nRefs old) 0); [|ilia]. simpl.
  unfold PrepareWrite2. mred. rewrite Hold. simpl.
  unfold IsShared. destruct (Z.gtb_spec (nRefs old) 1); [|ilia].
  replace (if nDataLength old >? n then nDataLength old else n)
    with (Z.max (nDataLength old) n)
    by (destruct (Z.gtb_spec (nDataLength old) n); lia).
  unfold then_this. destruct (Fork Mgr _ s); reflexivity.
Qed.

Lemma PrepareWrite_roomy s old n :
  mem s !! m_pszData s = Some old ->
  nRefs old <= 1 ->
  nDataLength old <= nAllocLength old ->
  0 <= n <= nAllocLength old ->
  PrepareWrite Mgr n s = Ok (m_pszData s) s.
Proof.
  intros Hold Hr Hd Hn. unfold PrepareWrite.
  destruct (Z.ltb_spec n 0); [lia|].
  mred. rewrite Hold. simpl.
  destruct (Z.lor _ _ <? 0); [|reflexivity].
  unfold PrepareWrite2. mred. rewrite Hold. simpl.
  unfold IsShared. destruct (Z.gtb_spec (nRefs old) 1); [lia|].
  destruct (Z.gtb_spec (nDataLength old) n);
    match goal with |- context [if ?a <? ?b then _ else _] =>
      destruct (Z.ltb_spec a b); [lia|reflexivity] end.
Qed.

Lemma grown_ge A L : L <= grown A L.
Proof.
  unfold grown. cbv zeta.
  match goal with |- context [if ?c <? L then _ else _] =>
    destruct (Z.ltb_spec c L) end; lia.
Qed.

Lemma PrepareWrite_grow s old n :
  mem s !! m_pszData s = Some old ->
  nRefs old <= 1 ->
  0 <= nDataLength old <= nAllocLength old ->
  nAllocLength old < n <= INT_MAX ->
  PrepareWrite Mgr n s =
  realloc_outcome (m_pszData s)
    (Reallocate Mgr (pStringMgr old) (m_pszData s)
                (grown (nAllocLength old) n) sizeof_XCHAR (mem s)).
Proof.
  intros Hold Hr Hd Hn. unfold PrepareWrite.
  destruct (Z.ltb_spec n 0); [ilia|].
  mred. rewrite Hold. simpl. rewrite lor_sign.
  rewrite (to_int_id (nAllocLength old - n))
    by ilia.
  destruct (Z.ltb_spec (nAllocLength old - n) 0); [|ilia].
  rewrite orb_true_r.
  unfold PrepareWrite2. mred. rewrite Hold. simpl.
  unfold IsShared. destruct (Z.gtb_spec (nRefs old) 1); [ilia|].
  destruct (Z.gtb_spec (nDataLength old) n); [ilia|].
  destruct (Z.ltb_spec (nAllocLength old) n); [|ilia].
  fold (grown (nAllocLength old) n).
  pose proof (grown_ge (nAllocLength old) n) as Hg.
  unfold Reallocate_. mred. rewrite Hold. simpl.
  destruct (Z.geb_spec (nAllocLength old) (grown (nAllocLength old) n)); [ilia|].
  destruct (Z.leb_spec (grown (nAllocLength old) n) 0); [ilia|]. simpl.
  unfold mgr_Reallocate, realloc_outcome.
  destruct (Reallocate Mgr _ _ _ _ _) as [[q|] h']; reflexivity.
Qed.

End Prepare.

(** ** Growth policy *)

(** Where growth is needed and the arithmetic stays within [int], the
    request follows the rule of the comment in [PrepareWrite2] away from
    the boundary: on an unshared buffer of capacity [A] that is too short
    for [L], [PrepareWrite] asks the manager's [Reallocate] for
    [max L (A + A/2)] while [A] is below 1 GiB and for [max L (A + 1 MiB)]
    above 1 GiB; with [L <= A] nothing is reallocated and the state is
    untouched. *)
Lemma growth_away_from_boundary (Mgr : IAmvStringMgr) s old L :
  mem s !! m_pszData s = Some old ->
  nRefs old <= 1 ->
  0 <= nDataLength old <= nAllocLength old ->
  0 <= L <= INT_MAX ->
  let A := nAllocLength old in
  let ask n := realloc_outcome (m_pszData s)
                 (Reallocate Mgr (pStringMgr old) (m_pszData s) n
                             sizeof_XCHAR (mem s)) in
  (A < L -> A < 1073741824 ->
     PrepareWrite Mgr L s = ask (growth_claimed A L)) /\
  (A < L -> 1073741824 < A -> A + 1048576 <= INT_MAX ->
     PrepareWrite Mgr L s = ask (growth_claimed A L)) /\
  (L <= A -> PrepareWrite Mgr L s = Ok (m_pszData s) s).
Proof.
  intros Hold Hr Hd HL A ask. subst ask. cbv beta.
  assert (Hgrow : A < L -> PrepareWrite Mgr L s =
            realloc_outcome (m_pszData s)
              (Reallocate Mgr (pStringMgr old) (m_pszData s) (grown A L)
                          sizeof_XCHAR (mem s))).
  { intros HA. apply PrepareWrite_grow; try done. subst A. lia. }
  repeat split.
  - intros HA H1. rewrite Hgrow by done. do 2 f_equal.
    unfold grown, growth_claimed.
    destruct (Z.gtb_spec A (1024 * 1024 * 1024)); [lia|].
    destruct (Z.ltb_spec A 1073741824); [|lia].
    rewrite Z.quot_div_nonneg by lia.
    assert (0 <= A / 2 <= 536870912)
      by (split; [apply Z.div_pos|apply Z.div_le_upper_bound]; lia).
    rewrite to_int_id by ilia.
    destruct (Z.ltb_spec (A + A / 2) L); lia.
  - intros HA H1 H2. rewrite Hgrow by done. do 2 f_equal.
    unfold grown, growth_claimed.
    destruct (Z.gtb_spec A (1024 * 1024 * 1024)); [|lia].
    destruct (Z.ltb_spec A 1073741824); [lia|].
    rewrite to_int_id by ilia.
    destruct (Z.ltb_spec (A + 1024 * 1024) L); lia.
  - intros HA. apply (PrepareWrite_roomy Mgr s old); try done; subst A; lia.
Qed.

(** C2 at a capacity of exactly 1 GiB.  The sentence, like the comment in
    [PrepareWrite2] ("until we hit 1G, then by 1M thereafter"), gives
    1 GiB + 1 MiB = 1074790400 there; the source tests
    [nNewLength > 1024 * 1024 * 1024], takes the exponential branch and
    asks [Reallocate] for 1610612736. *)
Theorem C2_growth_at_one_GiB :
  nAllocLength (buf 1 1 1073741824 "") = 1073741824 /\
  growth_claimed 1073741824 1073741825 = 1074790400 /\
  PrepareWrite (HeapMgr INT_MAX) 1073741825 st_1G =
    realloc_outcome 1 (Reallocate (HeapMgr INT_MAX) 1 1 1610612736 1 (mem st_1G)) /\
  PrepareWrite (HeapMgr INT_MAX) 1073741825 st_1G <>
    realloc_outcome 1 (Reallocate (HeapMgr INT_MAX) 1 1
                         (growth_claimed 1073741824 1073741825) 1 (mem st_1G)).
Proof.
  split; [reflexivity|].
  split; [reflexivity|]. split; [vm_compute; reflexivity|].
  intros H.
  apply (f_equal (fun r => match r with
                           | Ok _ s => nAllocLength <$> (mem s !! m_pszData s)
                           | Throw _ _ => None
                           end)) in H.
  vm_compute in H. discriminate.
Qed.

(** ** Fork on write *)

Section ForkOnWrite.

Variable Mgr : IAmvStringMgr.
Hypothesis HM : MgrSpec Mgr.

(** C1, as the code has it: mutable access to a shared buffer forks.
    The length that reaches [Fork] is never below the old length
    ([GetBuffer()] and [LockBuffer] pass the old length, [PrepareWrite n]
    passes [max oldLength n]), so [Fork], which copies
    [min oldLength nLength + 1] units, copies [oldLength + 1]: every
    character and the terminator, and nothing else.  [Fork] takes the new
    buffer [b0] from the clone of the old buffer's manager, gives it the
    old [nDataLength], leaves the old buffer with one reference fewer, and
    attaches the new one, whose count is 1.  [GetBuffer()] and
    [PrepareWrite] return exactly that state; [LockBuffer] then pins the new
    buffer. *)
Theorem C1_fork_on_mutable_access (a : access) s old q h1 :
  mem s !! m_pszData s = Some old ->
  1 < nRefs old <= INT_MAX ->
  0 <= nDataLength old < INT_MAX ->
  match a with ByPrepareWrite n => 0 <= n | _ => True end ->
  Allocate Mgr (Clone Mgr (pStringMgr old)) (fork_length a old) sizeof_XCHAR
           (mem s) = (Some q, h1) ->
  let copied := nDataLength old + 1 in
  exists b0 new sF,
    h1 = <[q := b0]> (mem s) /\ mem s !! q = None /\
    Fork Mgr (fork_length a old) s = Ok tt sF /\
    m_pszData sF = q /\
    mem sF !! q = Some new /\
    pStringMgr new = Clone Mgr (pStringMgr old) /\
    nRefs new = 1 /\
    nDataLength new = nDataLength old /\
    (forall i, 0 <= i < copied -> data new i = data old i) /\
    (forall i, ~ 0 <= i < copied -> data new i = data b0 i) /\
    mem sF !! m_pszData s = Some (with_nRefs old (nRefs old - 1)) /\
    request Mgr a s =
      match a with
      | ByLockBuffer =>
          Ok q (mkState (<[q := with_nRefs new (-1)]> (mem sF)) q)
      | _ => Ok q sF
      end.
Proof.
  intros Hold Hr Hd Hn Ha copied.
  assert (HL : 0 <= fork_length a old) by (destruct a; simpl; lia).
  assert (Hmin : Z.min (nDataLength old) (fork_length a old) + 1 = copied)
    by (subst copied; destruct a; simpl; lia).
  destruct (Fork_ok Mgr HM s old _ q h1 Hold Hr Hd HL Ha)
    as (b0 & -> & Hq & Hm0 & Hr0 & Hcap & HF).
  assert (Hne : q <> m_pszData s) by congruence.
  exists b0, (forked old b0 (fork_length a old)). eexists.
  split; [done|]. split; [done|]. split; [exact HF|]. simpl.
  split; [done|].
  split; [by rewrite lookup_insert_ne, lookup_insert_eq by done|].
  split; [done|]. split; [done|]. split; [done|].
  split.
  { intros i Hi. unfold blit. rewrite Hmin.
    destruct (Z.leb_spec 0 i); [|lia]. destruct (Z.ltb_spec i (0 + copied)); [|lia].
    simpl. f_equal. lia. }
  split.
  { intros i Hi. unfold blit. rewrite Hmin.
    destruct (Z.leb_spec 0 i); destruct (Z.ltb_spec i (0 + copied));
      simpl; try done. lia. }
  split; [by rewrite lookup_insert_eq|].
  destruct a; simpl.
  - unfold GetBuffer0. mred. rewrite Hold. simpl.
    unfold IsShared. destruct (Z.gtb_spec (nRefs old) 1); [|lia].
    simpl in HF. rewrite HF. reflexivity.
  - rewrite (PrepareWrite_shared Mgr s old) by done.
    simpl in HF. rewrite HF. reflexivity.
  - unfold LockBuffer. mred. rewrite Hold. simpl.
    unfold IsShared. destruct (Z.gtb_spec (nRefs old) 1); [|lia].
    simpl in HF. rewrite HF. simpl.
    unfold Lock. mred.
    rewrite lookup_insert_ne, lookup_insert_eq by done. simpl.
    rewrite Hr0. reflexivity.
Qed.

End ForkOnWrite.

Lemma C1_fork_on_mutable_access_witness :
  exists sF new,
    Fork (HeapMgr 1000) 5 st_shared = Ok tt sF /\
    mem sF !! 2 = Some new /\ nRefs new = 1 /\
    (forall i, 0 <= i < 6 -> data new i = data (buf 1 2 5 "hello") i) /\
    request (HeapMgr 1000) (ByPrepareWrite 3) st_shared = Ok 2 sF.
Proof.
  destruct (C1_fork_on_mutable_access (HeapMgr 1000)
              (HeapMgr_spec 1000 ltac:(ilia)) (ByPrepareWrite 3)
              st_shared (buf 1 2 5 "hello") 2
              (<[2 := mkBStringData 1 0 5 1 junk]> (mem st_shared))
              eq_refl ltac:(simpl; ilia) ltac:(simpl; ilia) ltac:(simpl; lia) eq_refl)
    as (b0 & new & sF & _ & _ & HF & _ & Hnew & _ & Hr & _ & Hcp & _ & _ & Hreq).
  exists sF, new. repeat split; assumption.
Defined.

(** C1 as stated fails for [PrepareWrite 3] on a shared ["hello"]: the
    sentence has [min 5 3 + 1 = 4] units copied, but [PrepareWrite2] raises
    the length to the old length before it forks, and the units at index 4
    (the last character) and 5 (the terminator) of the new buffer are
    those of the old payload, not what the manager handed out. *)
Lemma C1_counterexample :
  copied_claimed (nDataLength (buf 1 2 5 "hello")) 3 = 4 /\
  exists b0 sF new,
    Allocate (HeapMgr 1000) 1 5 sizeof_XCHAR (mem st_shared)
      = (Some 2, <[2 := b0]> (mem st_shared)) /\
    request (HeapMgr 1000) (ByPrepareWrite 3) st_shared = Ok 2 sF /\
    mem sF !! 2 = Some new /\
    data new 4 = "o"%char /\ data new 5 = NUL /\
    ~ (forall i,
         ~ 0 <= i < copied_claimed (nDataLength (buf 1 2 5 "hello")) 3 ->
         data new i = data b0 i).
Proof.
  split; [reflexivity|].
  exists (mkBStringData 1 0 5 1 junk).
  destruct (request (HeapMgr 1000) (ByPrepareWrite 3) st_shared)
    as [p sF|e sF] eqn:Hreq; [|vm_compute in Hreq; discriminate].
  assert (Hp : p = 2) by (pose proof Hreq as Hc; vm_compute in Hc; congruence).
  subst p.
  assert (Hnew : exists new, mem sF !! 2 = Some new /\
                   data new 4 = "o"%char /\ data new 5 = NUL).
  { assert (HsF : sF = final (request (HeapMgr 1000) (ByPrepareWrite 3)
                                 st_shared)) by (by rewrite Hreq).
    rewrite HsF. eexists. split; [vm_compute; reflexivity|].
    split; reflexivity. }
  destruct Hnew as (new & Hnew & H4 & H5).
  exists sF, new. split; [reflexivity|]. split; [reflexivity|].
  split; [exact Hnew|]. split; [exact H4|]. split; [exact H5|].
  intros H. specialize (H 4 ltac:(vm_compute; intros [_ Hlt]; discriminate)).
  rewrite H4 in H. vm_compute in H. discriminate.
Qed.

(** ** Lock and unlock *)

Section Locking.

Variable Mgr : IAmvStringMgr.
Hypothesis HM : MgrSpec Mgr.

(** C8: on a unique buffer, [Lock] then [Unlock] (and [LockBuffer] then
    [UnlockBuffer]) give back the very same state: characters, lengths and
    a count of 1.  On a shared buffer [LockBuffer] forks first; [Lock] is
    applied to the new buffer, whose count is 1 at that point, the shared
    buffer only loses one reference, and [UnlockBuffer] returns the new
    buffer to the count 1 the fork gave it. *)
Theorem C8_lock_unlock_round_trip s old :
  mem s !! m_pszData s = Some old ->
  (nRefs old = 1 ->
     (Lock (m_pszData s) ;; Unlock (m_pszData s)) s = Ok tt s /\
     (LockBuffer Mgr ;; UnlockBuffer) s = Ok tt s /\
     exists sL, LockBuffer Mgr s = Ok (m_pszData s) sL /\
                mem sL !! m_pszData s = Some (with_nRefs old (-1))) /\
  (1 < nRefs old <= INT_MAX -> 0 <= nDataLength old < INT_MAX ->
   forall q h1,
     Allocate Mgr (Clone Mgr (pStringMgr old)) (nDataLength old) sizeof_XCHAR
              (mem s) = (Some q, h1) ->
     exists sF new sL,
       Fork Mgr (nDataLength old) s = Ok tt sF /\
       m_pszData sF = q /\ q <> m_pszData s /\
       mem sF !! q = Some new /\ nRefs new = 1 /\
       Lock q sF = Ok tt sL /\
       LockBuffer Mgr s = Ok q sL /\
       mem sL !! q = Some (with_nRefs new (-1)) /\
       mem sL !! m_pszData s = Some (with_nRefs old (nRefs old - 1)) /\
       UnlockBuffer sL = Ok tt sF).
Proof.
  intros Hold. split.
  - intros Hr.
    assert (HLB : LockBuffer Mgr s =
              Ok (m_pszData s)
                 (mkState (<[m_pszData s := with_nRefs old (-1)]> (mem s))
                          (m_pszData s))).
    { unfold LockBuffer. mred. rewrite Hold. simpl.
      unfold IsShared. destruct (Z.gtb_spec (nRefs old) 1); [lia|]. simpl.
      unfold Lock. mred. rewrite Hold. simpl. rewrite Hr. reflexivity. }
    split; [by apply (Lock_then_Unlock _ old)|]. split.
    + erewrite bind_ok by exact HLB.
      unfold UnlockBuffer. mred.
      erewrite Unlock_locked; [|simpl; apply lookup_insert_eq|done]. simpl.
      rewrite insert_insert_eq, with_nRefs_twice, <- Hr, with_nRefs_same.
      rewrite insert_id by done. by rewrite state_eta.
    + eexists. split; [exact HLB|]. simpl. apply lookup_insert_eq.
  - intros Hr Hd q h1 Ha.
    destruct (Fork_ok Mgr HM s old _ q h1 Hold Hr Hd (proj1 Hd) Ha)
      as (b0 & -> & Hq & Hm0 & Hr0 & Hcap & HF).
    assert (Hne : q <> m_pszData s) by congruence.
    set (new := forked old b0 (nDataLength old)) in *.
    set (hF := <[m_pszData s := with_nRefs old (nRefs old - 1)]>
                 (<[q := new]> (mem s))) in *.
    assert (HnewF : hF !! q = Some new)
      by (subst hF; by rewrite lookup_insert_ne, lookup_insert_eq).
    exists (mkState hF q), new,
      (mkState (<[q := with_nRefs new (-1)]> hF) q).
    split; [exact HF|]. simpl. split; [done|]. split; [done|].
    split; [done|]. split; [done|].
    split; [by apply Lock_unique|].
    split.
    { unfold LockBuffer. mred. rewrite Hold. simpl.
      unfold IsShared. destruct (Z.gtb_spec (nRefs old) 1); [|lia].
      simpl in HF. rewrite HF. simpl.
      unfold Lock. mred. fold hF. rewrite HnewF. simpl.
      replace (nRefs b0) with 1. reflexivity. }
    split; [apply lookup_insert_eq|].
    split.
    { rewrite lookup_insert_ne by done. subst hF. apply lookup_insert_eq. }
    unfold UnlockBuffer. mred.
    erewrite Unlock_locked; [|simpl; apply lookup_insert_eq|done]. simpl.
    rewrite insert_insert_eq, with_nRefs_twice.
    assert (with_nRefs new 1 = new) as ->
      by (unfold new; rewrite <- Hr0; reflexivity).
    by rewrite insert_id.
Qed.

End Locking.

Lemma C8_lock_unlock_round_trip_witness :
  (LockBuffer (HeapMgr 1000) ;; UnlockBuffer) st_hello = Ok tt st_hello.
Proof.
  exact (proj1 (proj2 (proj1 (C8_lock_unlock_round_trip (HeapMgr 1000)
           (HeapMgr_spec 1000 ltac:(ilia)) st_hello (buf 1 1 8 "hello") eq_refl)
           eq_refl))).
Defined.

(** ** Emptying *)

(** C6: [SetString] with length 0 is [Empty]; on an empty buffer [Empty]
    changes nothing; on a locked buffer it stays attached and only sets the
    length to 0 (writing the terminator there); otherwise it releases the
    old buffer and attaches what the manager's [GetNilString] returns. *)
Theorem C6_empty_releases_or_resets (Mgr : IAmvStringMgr) s old :
  mem s !! m_pszData s = Some old ->
  (forall src, SetString Mgr src 0 s = Empty Mgr s) /\
  (nDataLength old = 0 -> Empty Mgr s = Ok tt s) /\
  (nDataLength old <> 0 -> nRefs old < 0 -> 0 <= nAllocLength old ->
     Empty Mgr s =
     Ok tt (mkState (<[m_pszData s :=
                         with_data (with_nDataLength old 0)
                                   (poke (data old) 0 NUL)]> (mem s))
                    (m_pszData s))) /\
  (nDataLength old <> 0 -> 0 <= nRefs old ->
     exists s1,
       Release Mgr (m_pszData s) s = Ok tt s1 /\
       mem s1 =
         (let h := <[m_pszData s := with_nRefs old (to_int (nRefs old - 1))]>
                     (mem s) in
          if to_int (nRefs old - 1) <=? 0
          then Free Mgr (pStringMgr old) (m_pszData s) h else h) /\
       Empty Mgr s =
         (let '(pNil, h) := GetNilString Mgr (pStringMgr old) (mem s1) in
          Ok tt (mkState h pNil))).
Proof.
  intros Hold. split; [reflexivity|]. split; [|split].
  - intros Hd. unfold Empty. mred. rewrite Hold. simpl.
    destruct (Z.eqb_spec (nDataLength old) 0); [|lia]. reflexivity.
  - intros Hd Hr Ha. unfold Empty. mred. rewrite Hold. simpl.
    destruct (Z.eqb_spec (nDataLength old) 0); [lia|].
    unfold IsLocked. destruct (Z.ltb_spec (nRefs old) 0); [|lia].
    unfold SetLength. mred. rewrite Hold. simpl.
    destruct (Z.gtb_spec 0 (nAllocLength old)); [lia|]. reflexivity.
  - intros Hd Hr. eexists. split; [by apply Release_run|]. simpl.
    split; [reflexivity|].
    unfold Empty. mred. rewrite Hold. simpl.
    destruct (Z.eqb_spec (nDataLength old) 0); [lia|].
    unfold IsLocked. destruct (Z.ltb_spec (nRefs old) 0); [lia|].
    rewrite (Release_run Mgr _ _ s Hold). unfold mgr_GetNilString. simpl.
    destruct (GetNilString Mgr _ _). reflexivity.
Qed.

Lemma C6_empty_releases_or_resets_witness :
  Empty (HeapMgr 1000) st_locked =
  Ok tt (mkState (<[1 := with_data (with_nDataLength (buf 1 (-1) 8 "hello") 0)
                          (poke (payload "hello") 0 NUL)]> (mem st_locked)) 1).
Proof.
  exact (proj1 (proj2 (proj2 (C6_empty_releases_or_resets (HeapMgr 1000)
           st_locked (buf 1 (-1) 8 "hello") eq_refl)))
           ltac:(simpl; lia) ltac:(simpl; lia) ltac:(simpl; lia)).
Defined.

(** ** What [PrepareWrite] guarantees *)

Lemma preserves_refl s : preserves s s.
Proof. by intros r x. Qed.

Lemma preserves_trans s1 s2 s3 :
  preserves s1 s2 -> preserves s2 s3 -> preserves s1 s3.
Proof. intros H1 H2 r x Hx. by apply H2, H1. Qed.

Section PrepareSpec.

Variable Mgr : IAmvStringMgr.
Hypothesis HM : MgrSpec Mgr.

Lemma Fork_spec s old nLength :
  mem s !! m_pszData s = Some old ->
  1 < nRefs old <= INT_MAX ->
  0 <= nDataLength old <= INT_MAX ->
  0 <= nLength <= INT_MAX ->
  match Fork Mgr nLength s with
  | Ok _ s1 =>
      exists q b0,
        mem s !! q = None /\
        pStringMgr b0 = Clone Mgr (pStringMgr old) /\ nRefs b0 = 1 /\
        nLength <= nAllocLength b0 <= INT_MAX /\
        s1 = mkState (<[m_pszData s := with_nRefs old (nRefs old - 1)]>
                        (<[q := forked old b0 nLength]> (mem s))) q
  | Throw e s1 =>
      m_pszData s1 = m_pszData s /\ preserves s s1 /\
      (e = OutOfMemory -> s1 = s)
  end.
Proof.
  intros Hold Hr Hd HL.
  destruct (Allocate Mgr (Clone Mgr (pStringMgr old)) nLength sizeof_XCHAR (mem s))
    as [[q|] h1] eqn:Ha.
  - destruct (decide (Z.min (nDataLength old) nLength < INT_MAX)) as [Hlt|Hge].
    + destruct (decide (nDataLength old < INT_MAX)) as [Hlt'|Hge'].
      * destruct (Fork_ok Mgr HM s old _ q h1 Hold Hr ltac:(lia) (proj1 HL) Ha)
          as (b0 & -> & Hq & Hm0 & Hr0 & Hcap & ->).
        exists q, b0. repeat split; try done; lia.
      * (* the old length is INT_MAX and the request is shorter *)
        destruct (Allocate_ok _ HM _ _ _ _ _ _ Ha) as (Hq & b0 & -> & Hm & Hr0 & Hcap).
        assert (Hne : q <> m_pszData s) by congruence.
        unfold Fork. mred. rewrite Hold. unfold mgr_Allocate. rewrite Ha. simpl.
        rewrite min_if. rewrite to_int_id by ilia.
        unfold CopyChars.
        erewrite memcpy_ok; [| lia | simpl; rewrite lookup_insert_ne by done; by rewrite Hold
                             | simpl; apply lookup_insert_eq].
        simpl. rewrite lookup_insert_eq. simpl.
        erewrite Release_shared;
          [| simpl; rewrite !lookup_insert_ne by done; exact Hold | done].
        simpl. rewrite !insert_insert_eq.
        exists q, b0. repeat split; try done; lia.
    + destruct (Allocate_ok _ HM _ _ _ _ _ _ Ha) as (Hq & b0 & -> & Hm & Hr0 & Hcap).
      assert (Hne : q <> m_pszData s) by congruence.
      unfold Fork. mred. rewrite Hold. unfold mgr_Allocate. rewrite Ha. simpl.
      rewrite min_if.
      replace (Z.min (nDataLength old) nLength) with INT_MAX by lia.
      change (to_int (INT_MAX + 1)) with INT_MIN.
      unfold CopyChars, memcpy. simpl.
      rewrite lookup_insert_ne, Hold, lookup_insert_eq by done. simpl.
      split; [done|]. split; [|done].
      intros r x Hx. simpl.
      rewrite lookup_insert_ne by congruence. done.
  - rewrite (Allocate_fail _ HM _ _ _ _ _ Ha) in Ha.
    unfold Fork. mred. rewrite Hold. unfold mgr_Allocate. rewrite Ha. simpl.
    rewrite state_eta. split; [done|]. split; [apply preserves_refl|done].
Qed.

Lemma PrepareWrite_spec s old n :
  mem s !! m_pszData s = Some old ->
  is_int (nRefs old) ->
  0 <= nDataLength old <= nAllocLength old ->
  nAllocLength old <= INT_MAX ->
  0 <= n <= INT_MAX ->
  prepared s old n (PrepareWrite Mgr n s).
Proof.
  intros Hold Hr Hd Ha Hn.
  destruct (decide (1 < nRefs old)) as [Hsh|Hun].
  - rewrite (PrepareWrite_shared Mgr s old) by (try done; ilia).
    pose proof (Fork_spec s old (Z.max (nDataLength old) n) Hold
                  ltac:(ilia) ltac:(lia) ltac:(lia)) as HF.
    destruct (Fork Mgr _ s) as [[] s1|e s1]; unfold prepared, then_this; [|done].
    destruct HF as (q & b0 & Hq & Hm0 & Hr0 & Hcap & ->). simpl.
    assert (Hne : q <> m_pszData s) by congruence.
    split; [done|]. exists (forked old b0 (Z.max (nDataLength old) n)).
    split; [by rewrite lookup_insert_ne, lookup_insert_eq by done|]. simpl.
    split; [done|]. split; [lia|]. split; [lia|]. split; [ilia|].
    split; [lia|]. split.
    { intros i Hi. unfold blit.
      destruct (Z.leb_spec 0 i); [|lia].
      destruct (Z.ltb_spec i (0 + (Z.min (nDataLength old)
                                         (Z.max (nDataLength old) n) + 1))); [|lia].
      simpl. f_equal. lia. }
    split; [by right|]. split.
    { intros r Hr1 Hr2. by rewrite !lookup_insert_ne by done. }
    intros _. right. apply lookup_insert_eq.
  - destruct (decide (n <= nAllocLength old)) as [Hroom|Hshort].
    + rewrite (PrepareWrite_roomy Mgr s old) by (try done; lia). unfold prepared.
      split; [done|]. exists old.
      split; [done|]. split; [done|]. split; [lia|]. split; [lia|].
      split; [done|]. split; [done|]. split; [done|].
      split; [by left|]. split; [done|]. intros Hne. by destruct Hne.
    + rewrite (PrepareWrite_grow Mgr s old) by (try done; lia).
      pose proof (grown_ge (nAllocLength old) n) as Hg.
      destruct (Reallocate Mgr _ _ _ _ _) as [[q|] h'] eqn:HR; unfold prepared, realloc_outcome.
      * destruct (Reallocate_ok _ HM _ _ _ _ _ _ _ _ HR Hold)
          as (Hq & b' & -> & Hm' & Hd' & Hr' & Hcap' & Hdata).
        split; [done|]. exists b'.
        split; [simpl; apply lookup_insert_eq|]. split; [done|]. split; [lia|].
        split; [lia|]. split; [by rewrite Hr'|]. split; [done|].
        split; [intros i Hi; apply Hdata; lia|].
        split; [destruct Hq; [by left|by right]|].
        split.
        { intros r Hr1 Hr2. simpl.
          by rewrite lookup_insert_ne, lookup_delete_ne by done. }
        intros Hne. left. simpl.
        by rewrite lookup_insert_ne, lookup_delete_eq by done.
      * rewrite (Reallocate_fail _ HM _ _ _ _ _ _ HR). rewrite state_eta.
        split; [done|]. split; [apply preserves_refl|done].
Qed.

End PrepareSpec.

(** ** [strnlen] *)

Lemma find_nul_bounds f fuel i :
  i <= find_nul f fuel i <= i + Z.of_nat fuel.
Proof.
  revert i. induction fuel as [|k IH]; intros i; simpl find_nul.
  - lia.
  - destruct (is_nul (f i)); [lia|]. specialize (IH (i + 1)). lia.
Qed.

Lemma find_nul_before f fuel i j :
  i <= j < find_nul f fuel i -> f j <> NUL.
Proof.
  revert i. induction fuel as [|k IH]; intros i; simpl find_nul.
  - lia.
  - destruct (is_nul (f i)) eqn:E; [lia|]. intros Hj.
    destruct (decide (j = i)) as [->|Hne].
    + intros Hz. unfold is_nul in E. apply Ascii.eqb_neq in E. done.
    + apply (IH (i + 1)). lia.
Qed.

Lemma find_nul_stop f fuel i :
  find_nul f fuel i < i + Z.of_nat fuel -> f (find_nul f fuel i) = NUL.
Proof.
  revert i. induction fuel as [|k IH]; intros i; simpl find_nul.
  - lia.
  - destruct (is_nul (f i)) eqn:E.
    + intros _. by apply Ascii.eqb_eq in E.
    + intros H. apply IH. lia.
Qed.

Lemma find_nul_ext f g fuel i :
  (forall j, i <= j < i + Z.of_nat fuel -> f j = g j) ->
  find_nul f fuel i = find_nul g fuel i.
Proof.
  revert i. induction fuel as [|k IH]; intros i H; simpl find_nul; [done|].
  rewrite <- (H i) by lia. destruct (is_nul (f i)); [done|].
  apply IH. intros j Hj. apply H. lia.
Qed.

Lemma find_nul_le_nul f fuel i j :
  i <= j -> f j = NUL -> find_nul f fuel i <= j.
Proof.
  revert i. induction fuel as [|k IH]; intros i Hij Hj; simpl find_nul; [done|].
  destruct (is_nul (f i)) eqn:E; [done|].
  destruct (decide (j = i)) as [->|Hne].
  - unfold is_nul in E. apply Ascii.eqb_neq in E. done.
  - apply IH; [lia|done].
Qed.

Lemma strnlen_bounds f n : 0 <= n -> 0 <= strnlen f n <= n.
Proof.
  intros Hn. unfold strnlen.
  pose proof (find_nul_bounds f (Z.to_nat n) 0). lia.
Qed.

Lemma strnlen_before f n j : 0 <= j < strnlen f n -> f j <> NUL.
Proof. unfold strnlen. apply find_nul_before. Qed.

Lemma strnlen_stop f n : 0 <= n -> strnlen f n < n -> f (strnlen f n) = NUL.
Proof.
  intros Hn H. unfold strnlen in *. apply find_nul_stop. lia.
Qed.

Lemma strnlen_ext f g n :
  (forall j, 0 <= j < n -> f j = g j) -> strnlen f n = strnlen g n.
Proof.
  intros H. unfold strnlen. apply find_nul_ext. intros j Hj. apply H. lia.
Qed.

Lemma strnlen_le_nul f n j : 0 <= j -> f j = NUL -> strnlen f n <= j.
Proof. unfold strnlen. by apply find_nul_le_nul. Qed.

(** ** [SetLength], [StringLengthN] and the tail of a write *)

Lemma SetLength_ok s b n :
  mem s !! m_pszData s = Some b ->
  0 <= n <= nAllocLength b ->
  SetLength n s =
  Ok tt (mkState (<[m_pszData s :=
                      with_data (with_nDataLength b n) (poke (data b) n NUL)]>
                    (mem s))
                 (m_pszData s)).
Proof.
  intros Hb Hn. unfold SetLength. mred. rewrite Hb. simpl.
  destruct (Z.ltb_spec n 0); [lia|].
  destruct (Z.gtb_spec n (nAllocLength b)); [lia|]. reflexivity.
Qed.

Lemma SetLength_bad s b n :
  mem s !! m_pszData s = Some b ->
  n < 0 \/ nAllocLength b < n ->
  SetLength n s = Throw InvalidArgument s.
Proof.
  intros Hb Hn. unfold SetLength. mred. rewrite Hb. simpl.
  destruct (Z.ltb_spec n 0); [done|].
  destruct (Z.gtb_spec n (nAllocLength b)); [done|lia].
Qed.

Lemma StringLengthN_null n s : StringLengthN NULL n s = Ok 0 s.
Proof. reflexivity. Qed.

Lemma StringLengthN_read src n s f :
  deref (mem s) src = Some f -> 0 <= n <= INT_MAX ->
  StringLengthN src n s = Ok (strnlen f n) s.
Proof.
  intros Hf Hn. unfold StringLengthN.
  destruct src; [done| |]; rewrite Hf;
    (rewrite to_int_id; [done|]);
    pose proof (strnlen_bounds f n ltac:(lia)); ilia.
Qed.

Lemma StringLengthN_dangling src n s :
  deref (mem s) src = None -> src <> NULL ->
  StringLengthN src n s = Throw InvalidAccess s.
Proof.
  intros Hf Hn. unfold StringLengthN. destruct src; [done| |]; by rewrite Hf.
Qed.

(** ** Running [Append] *)

Section AppendRuns.

Variable Mgr : IAmvStringMgr.

Lemma Append_negative s old src n :
  mem s !! m_pszData s = Some old -> n < 0 ->
  Append Mgr src n s = Throw InvalidArgument s.
Proof.
  intros Hold Hn. unfold Append. mred. rewrite Hold. simpl.
  destruct (Z.geb_spec n 0); [lia|]. reflexivity.
Qed.

Lemma Append_run s old src n k :
  mem s !! m_pszData s = Some old ->
  0 <= nDataLength old <= INT_MAX ->
  0 <= n ->
  StringLengthN src n s = Ok k s ->
  0 <= k <= INT_MAX ->
  Append Mgr src n s =
  if INT_MAX - k <? nDataLength old then Throw InvalidArgument s
  else
    bind (PrepareWrite Mgr (nDataLength old + k))
         (fun p1 =>
            CopyChars p1 (nDataLength old) k
                      (rebase src (m_pszData s) (nDataLength old) p1) k;;
            SetLength (nDataLength old + k)) s.
Proof.
  intros Hold Hd Hn HSL Hk. unfold Append. mred. rewrite Hold. simpl.
  destruct (Z.geb_spec n 0); [|lia]. simpl.
  rewrite HSL. rewrite to_uint_id by lia.
  destruct (Z.ltb_spec (nDataLength old) 0); [lia|].
  rewrite !to_int_id by ilia.
  destruct (Z.geb_spec (INT_MAX - k) (nDataLength old));
    destruct (Z.ltb_spec (INT_MAX - k) (nDataLength old)); try lia; simpl;
    [|reflexivity].
  rewrite to_uint_id by lia. rewrite to_int_id by ilia.
  unfold GetBuffer, ReleaseBufferSetLength, rebase.
  destruct (PrepareWrite Mgr _ s) as [p1 s1|e s1]; [|reflexivity].
  reflexivity.
Qed.

(** The copy onto the tail and the commit of the new length, in a state
    whose buffer has room. *)
Lemma write_tail s1 b1 off k src f :
  mem s1 !! m_pszData s1 = Some b1 ->
  0 <= off -> 0 <= k -> off + k <= nAllocLength b1 ->
  k = 0 \/ deref (mem s1) src = Some f ->
  exists b',
    (CopyChars (m_pszData s1) off k src k;; SetLength (off + k)) s1 =
      Ok tt (mkState (<[m_pszData s1 := b']> (mem s1)) (m_pszData s1)) /\
    pStringMgr b' = pStringMgr b1 /\ nAllocLength b' = nAllocLength b1 /\
    nRefs b' = nRefs b1 /\ nDataLength b' = off + k /\
    forall i, data b' i = poke (blit (data b1) off f k) (off + k) NUL i.
Proof.
  intros Hb Hoff Hk Hcap Hsrc.
  destruct (decide (k = 0)) as [->|Hk0].
  - eexists. split.
    { unfold CopyChars. erewrite bind_ok by apply memcpy_zero.
      apply SetLength_ok; [done|lia]. }
    simpl. repeat split; try done.
    intros i. unfold poke, blit.
    destruct (Z.eqb_spec i (off + 0)); [done|].
    destruct (Z.leb_spec off i); destruct (Z.ltb_spec i (off + 0)); simpl; try done.
    lia.
  - destruct Hsrc as [?|Hf]; [done|].
    eexists. split.
    { unfold CopyChars.
      erewrite bind_ok by (apply memcpy_ok; [lia|exact Hf|exact Hb]).
      erewrite SetLength_ok; [|simpl; apply lookup_insert_eq|simpl; lia].
      simpl. rewrite insert_insert_eq. reflexivity. }
    simpl. repeat split; done.
Qed.

Lemma write_tail_fault s1 b1 off k src :
  mem s1 !! m_pszData s1 = Some b1 ->
  k <> 0 -> deref (mem s1) src = None ->
  (CopyChars (m_pszData s1) off k src k;; SetLength (off + k)) s1 =
  Throw InvalidAccess s1.
Proof.
  intros Hb Hk Hsrc. unfold CopyChars, bind, memcpy.
  destruct (Z.eqb_spec k 0); [done|]. by rewrite Hsrc.
Qed.

End AppendRuns.

Lemma ext_mem_span b off n j :
  0 <= j < n -> ext_mem (span_copy b off n) j = data b (off + j).
Proof.
  intros Hj. unfold ext_mem, span_copy.
  destruct (Z.ltb_spec j 0); [lia|].
  rewrite (nth_indep _ NUL (data b (off + Z.of_nat 0)))
    by (rewrite length_map, length_seq; lia).
  rewrite (map_nth (fun i => data b (off + Z.of_nat i))).
  rewrite seq_nth by lia. f_equal. lia.
Qed.

Lemma same_buffer_refl b : same_buffer b b.
Proof. by repeat split. Qed.

Lemma chars_ext b1 b2 :
  nDataLength b1 = nDataLength b2 -> (forall i, data b1 i = data b2 i) ->
  chars b1 = chars b2.
Proof.
  intros Hl Hd. unfold chars. rewrite Hl. apply map_ext. intros i. apply Hd.
Qed.

(** ** Append *)

Section AppendLength.

Variable Mgr : IAmvStringMgr.
Hypothesis HM : MgrSpec Mgr.

(** A steady source reads the same after [PrepareWrite], up to its first
    terminator. *)
Lemma steady_after s old n p1 s1 src f m :
  mem s !! m_pszData s = Some old ->
  0 <= nDataLength old <= INT_MAX ->
  data old (nDataLength old) = NUL ->
  prepared s old n (Ok p1 s1) ->
  steady s old src ->
  deref (mem s) src = Some f ->
  exists f1,
    deref (mem s1) (rebase src (m_pszData s) (nDataLength old) p1) = Some f1 /\
    forall i, 0 <= i < strnlen f m -> f1 i = f i.
Proof.
  intros Hold Hd Hz (Hp1 & b1 & Hb1 & Hd1 & Hcap & _ & _ & _ & Hdata & Hfresh & Hframe & _)
    Hst Hf.
  destruct src as [|q off|cs]; [done| |].
  - simpl in Hst, Hf. destruct Hst as [[Hq Hlive]|[-> Hoff]].
    + unfold rebase, ptr_diff. destruct (Z.eqb_spec q (m_pszData s)); [done|].
      exists f. split; [|done]. simpl.
      assert (q <> p1) by (destruct Hfresh as [->|Hn]; [done|];
                           intros ->; rewrite Hn in Hlive; by destruct Hlive).
      rewrite Hframe by done. exact Hf.
    + unfold rebase, ptr_diff. rewrite Z.eqb_refl.
      rewrite to_uintptr_id by lia.
      destruct (Z.leb_spec off (nDataLength old)); [|lia].
      simpl. rewrite Hb1. eexists. split; [reflexivity|].
      rewrite Hold in Hf. injection Hf as <-. intros i Hi. cbv beta in *.
      apply Hdata.
      pose proof (strnlen_le_nul (fun i => data old (off + i)) m
                    (nDataLength old - off) ltac:(lia)) as Hle.
      cbv beta in Hle. replace (off + (nDataLength old - off))
        with (nDataLength old) in Hle by lia.
      specialize (Hle Hz). lia.
  - exists f. split; [|done]. unfold rebase. simpl in *. done.
Qed.

(** How [Append] ends once the length of the source is known and the
    buffer is prepared. *)
Lemma Append_commit s old src n k p1 s1 f1 :
  mem s !! m_pszData s = Some old ->
  wf_data old ->
  0 <= n <= INT_MAX ->
  StringLengthN src n s = Ok k s ->
  0 <= k <= n ->
  nDataLength old + k <= INT_MAX ->
  PrepareWrite Mgr (nDataLength old + k) s = Ok p1 s1 ->
  k = 0 \/ deref (mem s1) (rebase src (m_pszData s) (nDataLength old) p1)
           = Some f1 ->
  exists b1 b',
    mem s1 !! p1 = Some b1 /\
    Append Mgr src n s = Ok tt (mkState (<[p1 := b']> (mem s1)) p1) /\
    pStringMgr b' = pStringMgr b1 /\ nAllocLength b' = nAllocLength b1 /\
    nRefs b' = nRefs b1 /\ nDataLength b' = nDataLength old + k /\
    (forall i, data b' i =
               poke (blit (data b1) (nDataLength old) f1 k)
                    (nDataLength old + k) NUL i) /\
    (forall i, 0 <= i <= nDataLength old -> data b1 i = data old i).
Proof.
  intros Hold [[Hr Ha] [Hd Hz]] Hn HSL Hk Hsum HPW Hsrc.
  pose proof (PrepareWrite_spec Mgr HM s old (nDataLength old + k) Hold Hr Hd Ha
                ltac:(lia)) as HP.
  rewrite HPW in HP.
  destruct HP as (Hp1 & b1 & Hb1 & Hd1 & Hcap & _ & _ & _ & Hdata & _).
  rewrite (Append_run Mgr s old src n k) by (try done; lia).
  destruct (Z.ltb_spec (INT_MAX - k) (nDataLength old)); [lia|].
  erewrite bind_ok by exact HPW. subst p1.
  destruct (write_tail s1 b1 (nDataLength old) k
              (rebase src (m_pszData s) (nDataLength old) (m_pszData s1)) f1
              Hb1 ltac:(lia) ltac:(lia) ltac:(lia) Hsrc)
    as (b' & Hrun & Hm' & Ha' & Hr' & Hd' & Hdata').
  exists b1, b'. repeat split; done.
Qed.

(** C10: [Append] commits [old length + strnlen(pszSrc, nLength)].  For
    any source that can be read before and after the buffer is prepared,
    [k = strnlen] units are written after the old characters, then the
    terminator, and nothing beyond; [k] stops at the first NUL within
    [nLength].  For a steady source the units written are the units of the
    source before that NUL.  A null source appends nothing. *)
Theorem C10_append_clamps_at_terminator s old n :
  mem s !! m_pszData s = Some old ->
  wf_data old ->
  0 <= n <= INT_MAX ->
  (forall src f p1 s1 f1,
     deref (mem s) src = Some f ->
     let k := strnlen f n in
     nDataLength old + k <= INT_MAX ->
     PrepareWrite Mgr (nDataLength old + k) s = Ok p1 s1 ->
     deref (mem s1) (rebase src (m_pszData s) (nDataLength old) p1) = Some f1 ->
     exists s' b1 b',
       Append Mgr src n s = Ok tt s' /\
       m_pszData s' = p1 /\ mem s1 !! p1 = Some b1 /\ mem s' !! p1 = Some b' /\
       nDataLength b' = nDataLength old + k /\
       k <= n /\ (forall i, 0 <= i < k -> f i <> NUL) /\ (k < n -> f k = NUL) /\
       (forall i, 0 <= i < nDataLength old -> data b' i = data old i) /\
       (forall i, 0 <= i < k -> data b' (nDataLength old + i) = f1 i) /\
       data b' (nDataLength old + k) = NUL /\
       (forall i, nDataLength old + k < i -> data b' i = data b1 i)) /\
  (forall src f p1 s1,
     deref (mem s) src = Some f -> steady s old src ->
     let k := strnlen f n in
     nDataLength old + k <= INT_MAX ->
     PrepareWrite Mgr (nDataLength old + k) s = Ok p1 s1 ->
     exists s' b1 b',
       Append Mgr src n s = Ok tt s' /\
       m_pszData s' = p1 /\ mem s1 !! p1 = Some b1 /\ mem s' !! p1 = Some b' /\
       nDataLength b' = nDataLength old + k /\
       k <= n /\ (forall i, 0 <= i < k -> f i <> NUL) /\ (k < n -> f k = NUL) /\
       (forall i, 0 <= i < nDataLength old -> data b' i = data old i) /\
       (forall i, 0 <= i < k -> data b' (nDataLength old + i) = f i) /\
       data b' (nDataLength old + k) = NUL /\
       (forall i, nDataLength old + k < i -> data b' i = data b1 i)) /\
  (forall p1 s1,
     PrepareWrite Mgr (nDataLength old) s = Ok p1 s1 ->
     exists s' b',
       Append Mgr NULL n s = Ok tt s' /\
       m_pszData s' = p1 /\ mem s' !! p1 = Some b' /\
       nDataLength b' = nDataLength old /\
       forall i, 0 <= i < nDataLength old -> data b' i = data old i).
Proof.
  intros Hold Hwf Hn. pose proof Hwf as [[Hr Ha] [Hd Hz]].
  assert (Hgen : forall src f p1 s1 f1 (g : Z -> XCHAR),
     deref (mem s) src = Some f ->
     nDataLength old + strnlen f n <= INT_MAX ->
     PrepareWrite Mgr (nDataLength old + strnlen f n) s = Ok p1 s1 ->
     deref (mem s1) (rebase src (m_pszData s) (nDataLength old) p1) = Some f1 ->
     (forall i, 0 <= i < strnlen f n -> f1 i = g i) ->
     exists s' b1 b',
       Append Mgr src n s = Ok tt s' /\
       m_pszData s' = p1 /\ mem s1 !! p1 = Some b1 /\ mem s' !! p1 = Some b' /\
       nDataLength b' = nDataLength old + strnlen f n /\
       strnlen f n <= n /\
       (forall i, 0 <= i < strnlen f n -> f i <> NUL) /\
       (strnlen f n < n -> f (strnlen f n) = NUL) /\
       (forall i, 0 <= i < nDataLength old -> data b' i = data old i) /\
       (forall i, 0 <= i < strnlen f n ->
                  data b' (nDataLength old + i) = g i) /\
       data b' (nDataLength old + strnlen f n) = NUL /\
       (forall i, nDataLength old + strnlen f n < i ->
                  data b' i = data b1 i)).
  { intros src f p1 s1 f1 g Hf Hsum HPW Hf1 Hagree.
    set (k := strnlen f n) in *.
    pose proof (strnlen_bounds f n ltac:(lia)) as Hk. fold k in Hk.
    destruct (Append_commit s old src n k p1 s1 f1 Hold Hwf Hn
                (StringLengthN_read src n s f Hf Hn) Hk Hsum HPW (or_intror Hf1))
      as (b1 & b' & Hb1 & Hrun & _ & _ & _ & Hd' & Hdata' & Hdata).
    eexists _, b1, b'. split; [exact Hrun|]. simpl.
    split; [done|]. split; [done|]. split; [apply lookup_insert_eq|].
    split; [done|]. split; [lia|].
    split; [intros i Hi; by apply (strnlen_before f n)|].
    split; [intros Hlt; by apply strnlen_stop; [lia|]|].
    split.
    { intros i Hi. rewrite Hdata'. unfold poke, blit.
      destruct (Z.eqb_spec i (nDataLength old + k)); [lia|].
      destruct (Z.leb_spec (nDataLength old) i); [lia|]. simpl.
      apply Hdata. lia. }
    split.
    { intros i Hi. rewrite Hdata'. unfold poke, blit.
      destruct (Z.eqb_spec (nDataLength old + i) (nDataLength old + k)); [lia|].
      destruct (Z.leb_spec (nDataLength old) (nDataLength old + i)); [|lia].
      destruct (Z.ltb_spec (nDataLength old + i) (nDataLength old + k)); [|lia].
      simpl. replace (nDataLength old + i - nDataLength old) with i by lia.
      by apply Hagree. }
    split.
    { rewrite Hdata'. unfold poke. by rewrite Z.eqb_refl. }
    intros i Hi. rewrite Hdata'. unfold poke, blit.
    destruct (Z.eqb_spec i (nDataLength old + k)); [lia|].
    destruct (Z.leb_spec (nDataLength old) i); [|lia].
    destruct (Z.ltb_spec i (nDataLength old + k)); [lia|]. done. }
  split; [|split].
  - intros src f p1 s1 f1 Hf k Hsum HPW Hf1.
    by apply (Hgen src f p1 s1 f1 f1).
  - intros src f p1 s1 Hf Hst k Hsum HPW.
    pose proof (strnlen_bounds f n ltac:(lia)) as Hk. fold k in Hk.
    pose proof (PrepareWrite_spec Mgr HM s old (nDataLength old + k) Hold
                  Hr Hd Ha ltac:(lia)) as HP.
    rewrite HPW in HP.
    destruct (steady_after s old _ p1 s1 src f n Hold ltac:(lia) Hz HP Hst Hf)
      as (f1 & Hf1 & Hagree).
    by apply (Hgen src f p1 s1 f1 f).
  - intros p1 s1 HPW.
    replace (nDataLength old) with (nDataLength old + 0) in HPW by lia.
    destruct (Append_commit s old NULL n 0 p1 s1 (fun _ => NUL) Hold Hwf Hn
                (StringLengthN_null n s) ltac:(lia) ltac:(lia) HPW
                (or_introl eq_refl))
      as (b1 & b' & Hb1 & Hrun & _ & _ & _ & Hd' & Hdata' & Hdata).
    eexists _, b'. split; [exact Hrun|]. simpl.
    split; [done|]. split; [apply lookup_insert_eq|]. split; [lia|].
    intros i Hi. rewrite Hdata'. unfold poke, blit.
    destruct (Z.eqb_spec i (nDataLength old + 0)); [lia|].
    destruct (Z.leb_spec (nDataLength old) i); [lia|]. simpl.
    apply Hdata. lia.
Qed.

End AppendLength.

Lemma C10_append_clamps_at_terminator_witness :
  exists s' b',
    Append (HeapMgr 1000) xy0z 4 st_tight = Ok tt s' /\
    mem s' !! m_pszData s' = Some b' /\ nDataLength b' = 3 + 2.
Proof.
  destruct (proj1 (proj2 (C10_append_clamps_at_terminator (HeapMgr 1000)
              (HeapMgr_spec 1000 ltac:(ilia)) st_tight (buf 1 1 3 "abc") 4
              eq_refl
              ltac:(repeat split; simpl; try ilia; reflexivity)
              ltac:(ilia)))
              xy0z _ _ _ eq_refl I ltac:(vm_compute; discriminate) eq_refl)
    as (s' & b1 & b' & Hrun & Hp & _ & Hb' & Hd & _).
  exists s', b'. rewrite Hp. repeat split; assumption.
Defined.

Section AppendErrors.

Variable Mgr : IAmvStringMgr.
Hypothesis HM : MgrSpec Mgr.

Lemma StringLengthN_range src n s k s' :
  0 <= n <= INT_MAX -> StringLengthN src n s = Ok k s' ->
  s' = s /\ 0 <= k <= n.
Proof.
  intros Hn H.
  assert (Hsrc : src = NULL \/ src <> NULL) by (destruct src; auto).
  destruct Hsrc as [->|Hsrc].
  - rewrite StringLengthN_null in H. injection H as <- <-. split; [done|lia].
  - destruct (deref (mem s) src) as [f|] eqn:Hf.
    + rewrite (StringLengthN_read src n s f Hf Hn) in H. injection H as <- <-.
      split; [done|]. apply strnlen_bounds. lia.
    + by rewrite (StringLengthN_dangling src n s Hf Hsrc) in H.
Qed.

(** C5, as the code has it: a negative length is rejected; otherwise the
    length is first clamped to [k = StringLengthN(pszSrc, nLength)], the
    call is rejected when [old length + k] exceeds INT_MAX, and a call that
    goes through commits [old length + k].  Both rejections are
    invalid-argument faults raised in the unchanged state. *)
Theorem C5_append_length_and_rejections s old src n :
  mem s !! m_pszData s = Some old ->
  wf_data old ->
  is_int n ->
  (n < 0 -> Append Mgr src n s = Throw InvalidArgument s) /\
  (0 <= n -> forall k,
     StringLengthN src n s = Ok k s ->
     (INT_MAX < nDataLength old + k ->
        Append Mgr src n s = Throw InvalidArgument s) /\
     (nDataLength old + k <= INT_MAX -> forall p1 s1,
        PrepareWrite Mgr (nDataLength old + k) s = Ok p1 s1 ->
        k = 0 \/ is_Some (deref (mem s1)
                            (rebase src (m_pszData s) (nDataLength old) p1)) ->
        exists s' b',
          Append Mgr src n s = Ok tt s' /\ m_pszData s' = p1 /\
          mem s' !! p1 = Some b' /\
          nDataLength b' = nDataLength old + k)).
Proof.
  intros Hold Hwf Hn. pose proof Hwf as [[Hr Ha] [Hd Hz]]. split.
  - intros Hneg. by apply (Append_negative Mgr s old).
  - intros Hpos k HSL.
    destruct (StringLengthN_range src n s k s ltac:(ilia) HSL) as [_ Hk].
    split.
    + intros Hover.
      rewrite (Append_run Mgr s old src n k) by (try done; ilia).
      destruct (Z.ltb_spec (INT_MAX - k) (nDataLength old)); [done|lia].
    + intros Hsum p1 s1 HPW Hsrc.
      assert (Hsrc' : exists f1, k = 0 \/
                deref (mem s1) (rebase src (m_pszData s) (nDataLength old) p1)
                = Some f1).
      { destruct Hsrc as [->|[f1 Hf1]]; [exists (fun _ => NUL); by left|].
        exists f1. by right. }
      destruct Hsrc' as [f1 Hsrc'].
      destruct (Append_commit Mgr HM s old src n k p1 s1 f1 Hold Hwf
                  ltac:(ilia) HSL Hk Hsum HPW Hsrc')
        as (b1 & b' & Hb1 & Hrun & _ & _ & _ & Hd' & _).
      eexists _, b'. split; [exact Hrun|]. simpl.
      split; [done|]. split; [apply lookup_insert_eq|done].
Qed.

End AppendErrors.

Lemma C5_append_length_and_rejections_witness :
  Append (HeapMgr 1000) xy0z (-1) st_tight = Throw InvalidArgument st_tight.
Proof.
  exact (proj1 (C5_append_length_and_rejections (HeapMgr 1000)
           (HeapMgr_spec 1000 ltac:(ilia)) st_tight (buf 1 1 3 "abc") xy0z (-1)
           eq_refl
           ltac:(repeat split; simpl; try ilia; reflexivity)
           ltac:(ilia))
           ltac:(lia)).
Defined.

(** C5 as stated fails when the source holds a terminator inside the given
    length: appending 4 units [x y NUL z] to ["abc"] commits length 5, not
    3 + 4. *)
Lemma C5_counterexample :
  exists s' b',
    Append (HeapMgr 1000) xy0z 4 st_tight = Ok tt s' /\
    mem s' !! m_pszData s' = Some b' /\
    nDataLength b' = 5 /\ nDataLength b' <> 3 + 4 /\
    value_of s' = Some "abcxy"%string.
Proof.
  eexists _, _. split; [vm_compute; reflexivity|].
  split; [vm_compute; reflexivity|].
  split; [reflexivity|]. split; [discriminate|]. vm_compute. reflexivity.
Qed.

(** ** Appending a part of the string to itself *)

Section SelfAppend.

Variable Mgr : IAmvStringMgr.
Hypothesis HM : MgrSpec Mgr.

(** C4: appending [n] units that start [off] units into the handle's own
    characters ends exactly as appending an independent copy of those
    units does: the same fault in the same state, or the same attachment,
    the same string value and, buffer by buffer, the same header and
    characters, whether [PrepareWrite] forked, reallocated or did neither.
    Where [PrepareWrite] returns, both calls return. *)
Theorem C4_self_append_is_copy_then_append s old off n :
  mem s !! m_pszData s = Some old ->
  wf_data old ->
  0 <= off <= nDataLength old ->
  0 <= n <= INT_MAX ->
  let self := Append Mgr (InBuf (m_pszData s) off) n s in
  let temp := Append Mgr (External (span_copy old off n)) n s in
  let k := strnlen (fun i => data old (off + i)) n in
  same_outcome self temp /\
  (nDataLength old + k <= INT_MAX ->
   forall p1 s1, PrepareWrite Mgr (nDataLength old + k) s = Ok p1 s1 ->
   exists s' s'', self = Ok tt s' /\ temp = Ok tt s'').
Proof.
  intros Hold Hwf Hoff Hn self temp k.
  pose proof Hwf as [[Hr Ha] [Hd Hz]].
  assert (Hf : deref (mem s) (InBuf (m_pszData s) off)
               = Some (fun i => data old (off + i))) by (simpl; by rewrite Hold).
  assert (Hk : 0 <= k <= n) by (apply strnlen_bounds; lia).
  assert (Hkt : strnlen (ext_mem (span_copy old off n)) n = k).
  { apply strnlen_ext. intros j Hj. by apply ext_mem_span. }
  assert (Hkd : k <= nDataLength old - off).
  { pose proof (strnlen_le_nul (fun i => data old (off + i)) n
                  (nDataLength old - off) ltac:(lia)) as Hle.
    cbv beta in Hle. replace (off + (nDataLength old - off))
      with (nDataLength old) in Hle by lia. by apply Hle. }
  assert (HS1 : StringLengthN (InBuf (m_pszData s) off) n s = Ok k s)
    by (by apply StringLengthN_read).
  assert (HS2 : StringLengthN (External (span_copy old off n)) n s = Ok k s)
    by (rewrite <- Hkt; by apply StringLengthN_read).
  assert (Hself : self = Append Mgr (InBuf (m_pszData s) off) n s) by done.
  assert (Htemp : temp = Append Mgr (External (span_copy old off n)) n s) by done.
  clearbody self temp.
  rewrite (Append_run Mgr s old _ n k) in Hself by (try done; lia).
  rewrite (Append_run Mgr s old _ n k) in Htemp by (try done; lia).
  destruct (Z.ltb_spec (INT_MAX - k) (nDataLength old)) as [Hover|Hfits].
  { subst self temp. split; [by split|]. intros; lia. }
  pose proof (PrepareWrite_spec Mgr HM s old (nDataLength old + k) Hold Hr Hd Ha
                ltac:(lia)) as HP.
  destruct (PrepareWrite Mgr (nDataLength old + k) s) as [p1 s1|e s1] eqn:HPW.
  2:{ rewrite (bind_throw _ _ _ _ _ HPW) in Hself.
      rewrite (bind_throw _ _ _ _ _ HPW) in Htemp. subst self temp.
      split; [by split|]. intros _ ? ? [=]. }
  rewrite (bind_ok _ _ _ _ _ HPW) in Hself.
  rewrite (bind_ok _ _ _ _ _ HPW) in Htemp.
  pose proof HP as (Hp1 & b1 & Hb1 & Hd1 & Hcap & _ & _ & _ & Hdata & _).
  subst p1.
  assert (Hre : rebase (InBuf (m_pszData s) off) (m_pszData s) (nDataLength old)
                       (m_pszData s1) = InBuf (m_pszData s1) off).
  { unfold rebase, ptr_diff. rewrite Z.eqb_refl, to_uintptr_id by lia.
    destruct (Z.leb_spec off (nDataLength old)); [done|lia]. }
  rewrite Hre in Hself.
  change (rebase (External (span_copy old off n)) (m_pszData s)
                 (nDataLength old) (m_pszData s1))
    with (External (span_copy old off n)) in Htemp.
  destruct (write_tail s1 b1 (nDataLength old) k (InBuf (m_pszData s1) off)
              (fun i => data b1 (off + i)) Hb1 ltac:(lia) ltac:(lia) ltac:(lia)
              ltac:(right; simpl; by rewrite Hb1))
    as (b' & Hrun' & Hm' & Ha' & Hr' & Hd' & Hdata').
  destruct (write_tail s1 b1 (nDataLength old) k (External (span_copy old off n))
              (ext_mem (span_copy old off n)) Hb1 ltac:(lia) ltac:(lia) ltac:(lia)
              ltac:(by right))
    as (b'' & Hrun'' & Hm'' & Ha'' & Hr'' & Hd'' & Hdata'').
  rewrite Hrun' in Hself. rewrite Hrun'' in Htemp. subst self temp.
  assert (Hsame : same_buffer b' b'').
  { split; [unfold hdr_eq; repeat split; congruence|].
    intros i. rewrite Hdata', Hdata''. unfold poke, blit.
    destruct (Z.eqb_spec i (nDataLength old + k)); [done|].
    destruct (Z.leb_spec (nDataLength old) i);
      destruct (Z.ltb_spec i (nDataLength old + k)); simpl; try done.
    rewrite ext_mem_span by lia. apply Hdata. lia. }
  split; [|intros _ p1' s1' [= <- <-]; by eexists _, _].
  split; [done|]. split.
  - unfold value_of. simpl. rewrite !lookup_insert_eq. do 2 f_equal.
    destruct Hsame as [(_ & Hl & _) Hdat]. by apply chars_ext.
  - intros q. simpl. destruct (decide (q = m_pszData s1)) as [->|Hq].
    + rewrite !lookup_insert_eq. by constructor.
    + rewrite !lookup_insert_ne by done.
      destruct (mem s1 !! q); constructor. apply same_buffer_refl.
Qed.

End SelfAppend.

Lemma C4_self_append_is_copy_then_append_witness :
  exists s' s'',
    Append (HeapMgr 1000) (InBuf 1 1) 2 st_tight = Ok tt s' /\
    Append (HeapMgr 1000) (External (span_copy (buf 1 1 3 "abc") 1 2)) 2 st_tight
      = Ok tt s''.
Proof.
  exact (proj2 (C4_self_append_is_copy_then_append (HeapMgr 1000)
           (HeapMgr_spec 1000 ltac:(ilia)) st_tight (buf 1 1 3 "abc") 1 2
           eq_refl
           ltac:(repeat split; simpl; try ilia; reflexivity)
           ltac:(simpl; lia) ltac:(ilia))
           ltac:(vm_compute; discriminate) _ _ eq_refl).
Defined.

(** ** Running [SetString], [Empty] and [CloneData] *)

Section AssignRuns.

Variable Mgr : IAmvStringMgr.

Lemma AddRef_run p b s :
  mem s !! p = Some b ->
  AddRef p s =
  Ok tt (mkState (<[p := with_nRefs b (to_int (nRefs b + 1))]> (mem s))
                 (m_pszData s)).
Proof. intros Hb. unfold AddRef. mred. by rewrite Hb. Qed.

Lemma CloneData_share p b s :
  mem s !! p = Some b -> 0 <= nRefs b ->
  Clone Mgr (pStringMgr b) = pStringMgr b ->
  CloneData Mgr p s =
  Ok p (mkState (<[p := with_nRefs b (to_int (nRefs b + 1))]> (mem s))
                (m_pszData s)).
Proof.
  intros Hb Hr Hc. unfold CloneData. mred. rewrite Hb. simpl.
  unfold IsLocked. destruct (Z.ltb_spec (nRefs b) 0); [lia|].
  rewrite Hc, Z.eqb_refl. simpl.
  change (match AddRef p s with
          | Ok _ s' => Ok p s'
          | Throw e s' => Throw e s'
          end = Ok p (mkState (<[p := with_nRefs b (to_int (nRefs b + 1))]> (mem s))
                              (m_pszData s))).
  by rewrite (AddRef_run p b).
Qed.

Lemma SetString_run s old src n :
  mem s !! m_pszData s = Some old ->
  0 <= nDataLength old <= INT_MAX ->
  n <> 0 -> src <> NULL ->
  SetString Mgr src n s =
  bind (PrepareWrite Mgr n)
       (fun p1 =>
          alloc <~ GetAllocLength;
          SetString_copy src (m_pszData s) (nDataLength old) p1 alloc n;;
          SetLength n) s.
Proof.
  intros Hold Hd Hn Hsrc. unfold SetString.
  destruct (Z.eqb_spec n 0); [done|].
  destruct src as [|q off|cs]; [done| |];
    unfold GetBuffer, ReleaseBufferSetLength, SetString_copy;
    mred; rewrite Hold; simpl; try rewrite to_uint_id by lia; reflexivity.
Qed.

Lemma Empty_run s old :
  mem s !! m_pszData s = Some old ->
  0 <= nAllocLength old ->
  Empty Mgr s =
  if nDataLength old =? 0 then Ok tt s
  else if nRefs old <? 0 then
    Ok tt (mkState (<[m_pszData s :=
                        with_data (with_nDataLength old 0)
                                  (poke (data old) 0 NUL)]> (mem s))
                   (m_pszData s))
  else
    let h := <[m_pszData s := with_nRefs old (to_int (nRefs old - 1))]> (mem s) in
    let h1 := if to_int (nRefs old - 1) <=? 0
              then Free Mgr (pStringMgr old) (m_pszData s) h else h in
    let '(pNil, h2) := GetNilString Mgr (pStringMgr old) h1 in
    Ok tt (mkState h2 pNil).
Proof.
  intros Hold Ha. unfold Empty. mred. rewrite Hold. simpl.
  destruct (nDataLength old =? 0); [reflexivity|].
  unfold IsLocked. destruct (nRefs old <? 0).
  - unfold SetLength. mred. rewrite Hold. simpl.
    destruct (Z.gtb_spec 0 (nAllocLength old)); [lia|]. reflexivity.
  - rewrite (Release_run Mgr _ _ s Hold). unfold mgr_GetNilString. simpl.
    destruct (GetNilString Mgr _ _). reflexivity.
Qed.

End AssignRuns.

(** ** Assignment *)

Section Assignment.

Variable Mgr : IAmvStringMgr.
Hypothesis HM : MgrSpec Mgr.

(** [Empty] leaves alone every other buffer that is not the nil string of
    the emptied buffer's manager. *)
Lemma Empty_keeps_other s old q x :
  mem s !! m_pszData s = Some old ->
  0 <= nAllocLength old ->
  q <> m_pszData s -> mem s !! q = Some x ->
  nRefs old < 0 \/ pStringMgr x <> pStringMgr old ->
  mem (final (Empty Mgr s)) !! q = Some x.
Proof.
  intros Hold Ha Hq Hx Hcase. rewrite (Empty_run Mgr s old) by done.
  destruct (nDataLength old =? 0); [done|].
  destruct (Z.ltb_spec (nRefs old) 0) as [Hl|Hl].
  - simpl. by rewrite lookup_insert_ne.
  - destruct Hcase as [?|Hm]; [lia|]. cbv zeta.
    set (h1 := if to_int (nRefs old - 1) <=? 0 then _ else _).
    assert (Hx1 : h1 !! q = Some x).
    { subst h1. destruct (to_int (nRefs old - 1) <=? 0).
      - rewrite (Free_other _ HM) by done. by rewrite lookup_insert_ne.
      - by rewrite lookup_insert_ne. }
    destruct (GetNilString Mgr (pStringMgr old) h1) as [pn h2] eqn:HN.
    destruct (GetNilString_ok _ HM _ _ _ _ HN)
      as ((bn & Hbn & Hmn & _) & Hframe & Hsame).
    simpl. destruct (decide (q = pn)) as [->|Hne].
    + destruct (Hsame x Hx1) as (r & Hr). rewrite Hbn in Hr.
      injection Hr as ->. simpl in Hmn. done.
    + rewrite Hframe by done. done.
Qed.

Lemma GetAllocLength_live s b :
  mem s !! m_pszData s = Some b -> GetAllocLength s = Ok (nAllocLength b) s.
Proof. intros Hb. mred. by rewrite Hb. Qed.

Lemma GetLength_live s b :
  mem s !! m_pszData s = Some b -> GetLength s = Ok (nDataLength b) s.
Proof. intros Hb. mred. by rewrite Hb. Qed.

(** [SetString] from the start of another live buffer. *)
Lemma SetString_foreign s old q src n p1 s1 :
  mem s !! m_pszData s = Some old ->
  wf_data old ->
  q <> m_pszData s -> mem s !! q = Some src ->
  0 < n <= INT_MAX ->
  PrepareWrite Mgr n s = Ok p1 s1 ->
  exists b1 b',
    mem s1 !! p1 = Some b1 /\ p1 <> q /\ mem s1 !! q = Some src /\
    SetString Mgr (InBuf q 0) n s = Ok tt (mkState (<[p1 := b']> (mem s1)) p1) /\
    pStringMgr b' = pStringMgr b1 /\ nAllocLength b' = nAllocLength b1 /\
    nRefs b' = nRefs b1 /\ nDataLength b' = n /\
    forall i, data b' i = poke (blit (data b1) 0 (data src) n) n NUL i.
Proof.
  intros Hold [[Hr Ha] [Hd Hz]] Hq Hsrc Hn HPW.
  pose proof (PrepareWrite_spec Mgr HM s old n Hold Hr Hd Ha ltac:(lia)) as HP.
  rewrite HPW in HP.
  destruct HP as (Hp1 & b1 & Hb1 & Hd1 & Hcap & _ & _ & _ & Hdata & Hfresh & Hframe & _).
  assert (Hne : p1 <> q)
    by (destruct Hfresh as [->|Hnone]; [done|congruence]).
  assert (Hsrc1 : mem s1 !! q = Some src) by (rewrite Hframe; done).
  rewrite (SetString_run Mgr s old) by (try done; lia).
  erewrite bind_ok by exact HPW. subst p1.
  erewrite bind_ok by (by apply GetAllocLength_live).
  unfold SetString_copy, ptr_diff. destruct (Z.eqb_spec q (m_pszData s)); [done|].
  destruct (write_tail s1 b1 0 n (InBuf q 0) (data src) Hb1
              ltac:(lia) ltac:(lia) ltac:(lia)
              ltac:(right; simpl; by rewrite Hsrc1))
    as (b' & Hrun & Hm' & Ha' & Hr' & Hd' & Hdata').
  exists b1, b'. split; [done|]. split; [done|]. split; [done|].
  split; [exact Hrun|]. repeat split; done.
Qed.

(** C3, as the code has it.  Between distinct buffers, an unlocked target
    of the same manager as an unlocked source whose manager clones to
    itself shares: one [AddRef] on the source, one [Release] on the old
    target, and the handle attached to the source buffer.  If the target is
    locked or the managers differ, the assignment is [SetString] from the
    source's characters: the source buffer, count included, is untouched
    whatever the outcome, the target ends with the source's length and
    characters in the buffer [PrepareWrite] returns, and that is the
    target's own buffer when it is unshared and has room. *)
Theorem C3_assignment_shares_or_copies s old src pSrc :
  mem s !! m_pszData s = Some old ->
  mem s !! pSrc = Some src ->
  pSrc <> m_pszData s ->
  wf_data old -> wf_data src ->
  (0 <= nRefs old -> pStringMgr src = pStringMgr old ->
   0 < nRefs src < INT_MAX -> Clone Mgr (pStringMgr src) = pStringMgr src ->
   exists s',
     operator_assign Mgr pSrc s = Ok tt s' /\
     m_pszData s' = pSrc /\
     mem s' !! pSrc = Some (with_nRefs src (nRefs src + 1)) /\
     mem s' =
       (let h := <[m_pszData s := with_nRefs old (to_int (nRefs old - 1))]>
                   (<[pSrc := with_nRefs src (nRefs src + 1)]> (mem s)) in
        if to_int (nRefs old - 1) <=? 0
        then Free Mgr (pStringMgr old) (m_pszData s) h else h)) /\
  (nRefs old < 0 \/ pStringMgr src <> pStringMgr old ->
   operator_assign Mgr pSrc s
     = SetString Mgr (InBuf pSrc 0) (nDataLength src) s /\
   mem (final (operator_assign Mgr pSrc s)) !! pSrc = Some src /\
   (nDataLength src <> 0 -> forall p1 s1,
      PrepareWrite Mgr (nDataLength src) s = Ok p1 s1 ->
      exists s' b',
        operator_assign Mgr pSrc s = Ok tt s' /\
        m_pszData s' = p1 /\ mem s' !! p1 = Some b' /\
        nDataLength b' = nDataLength src /\
        (forall i, 0 <= i <= nDataLength src -> data b' i = data src i) /\
        (nRefs old <= 1 -> nDataLength src <= nAllocLength old ->
           p1 = m_pszData s))).
Proof.
  intros Hold Hsrc Hne Hwf Hwfs.
  pose proof Hwf as [[Hr Ha] [Hd Hz]]. pose proof Hwfs as [[Hrs Has] [Hds Hzs]].
  split.
  - intros Hul Hm Hrs' Hc.
    unfold operator_assign. mred.
    destruct (Z.eqb_spec pSrc (m_pszData s)); [done|]. simpl.
    rewrite Hsrc, Hold. simpl.
    unfold IsLocked. destruct (Z.ltb_spec (nRefs old) 0); [lia|].
    rewrite Hm, Z.eqb_refl. simpl.
    rewrite (CloneData_share Mgr pSrc src s Hsrc ltac:(lia) Hc).
    rewrite to_int_id by ilia.
    erewrite Release_run by (simpl; rewrite lookup_insert_ne by done; exact Hold).
    simpl. eexists. split; [reflexivity|]. simpl. split; [done|].
    split; [|done].
    destruct (to_int (nRefs old - 1) <=? 0).
    + rewrite (Free_other _ HM) by done.
      by rewrite lookup_insert_ne, lookup_insert_eq.
    + by rewrite lookup_insert_ne, lookup_insert_eq.
  - intros Hcase.
    assert (Heq : operator_assign Mgr pSrc s
                  = SetString Mgr (InBuf pSrc 0) (nDataLength src) s).
    { unfold operator_assign. mred.
      destruct (Z.eqb_spec pSrc (m_pszData s)); [done|]. simpl.
      rewrite Hsrc, Hold. simpl.
      unfold IsLocked. destruct (Z.ltb_spec (nRefs old) 0); [done|].
      destruct Hcase as [?|Hm]; [lia|].
      destruct (Z.eqb_spec (pStringMgr src) (pStringMgr old)); [done|].
      reflexivity. }
    split; [done|]. rewrite Heq.
    destruct (decide (nDataLength src = 0)) as [Hz0|Hnz].
    { split; [|done]. rewrite Hz0.
      change (SetString Mgr (InBuf pSrc 0) 0 s) with (Empty Mgr s).
      by apply (Empty_keeps_other s old); [| lia | | |]. }
    pose proof (PrepareWrite_spec Mgr HM s old (nDataLength src) Hold Hr Hd Ha
                  ltac:(lia)) as HP.
    destruct (PrepareWrite Mgr (nDataLength src) s) as [p1 s1|e s1] eqn:HPW.
    + destruct (SetString_foreign s old pSrc src (nDataLength src) p1 s1
                  Hold Hwf Hne Hsrc ltac:(lia) HPW)
        as (b1 & b' & Hb1 & Hne1 & Hsrc1 & Hrun & _ & _ & _ & Hd' & Hdata').
      rewrite Hrun. simpl. split.
      { by rewrite lookup_insert_ne. }
      intros _ p1' s1' [= <- <-].
      eexists _, b'. split; [reflexivity|]. simpl.
      split; [done|]. split; [apply lookup_insert_eq|]. split; [done|].
      split.
      { intros i Hi. rewrite Hdata'. unfold poke, blit.
        destruct (Z.eqb_spec i (nDataLength src)) as [->|Hi']; [done|].
        destruct (Z.leb_spec 0 i); [|lia].
        destruct (Z.ltb_spec i (0 + nDataLength src)); [|lia].
        simpl. f_equal. lia. }
      intros Hun Hroom.
      rewrite (PrepareWrite_roomy Mgr s old) in HPW by (try done; lia).
      by injection HPW as <- _.
    + split; [|intros _ ? ? [=]].
      rewrite (SetString_run Mgr s old) by (try done; lia).
      erewrite bind_throw by exact HPW. simpl.
      destruct HP as (_ & Hpres & _). by apply Hpres.
Qed.

End Assignment.

Lemma C3_assignment_shares_or_copies_witness :
  exists s',
    operator_assign (HeapMgr 1000) 2 st_two = Ok tt s' /\
    m_pszData s' = 2 /\
    mem s' !! 2 = Some (with_nRefs (buf 1 1 3 "abc") (1 + 1)).
Proof.
  destruct (proj1 (C3_assignment_shares_or_copies (HeapMgr 1000)
              (HeapMgr_spec 1000 ltac:(ilia)) st_two
              (buf 1 1 8 "hello") (buf 1 1 3 "abc") 2
              eq_refl eq_refl ltac:(simpl; lia)
              ltac:(repeat split; simpl; try ilia; reflexivity)
              ltac:(repeat split; simpl; try ilia; reflexivity))
              ltac:(simpl; lia) eq_refl ltac:(simpl; ilia) eq_refl)
    as (s' & Hrun & Hp & Hb & _).
  exists s'. repeat split; assumption.
Defined.

(** C3 as stated fails on a locked target with room: the characters are
    copied into the target's own buffer, which was live before the call and
    stays attached and locked; nothing is allocated. *)
Lemma C3_counterexample :
  exists s' b',
    operator_assign (HeapMgr 1000) 2 st_locked_target = Ok tt s' /\
    IsLocked (buf 1 (-1) 8 "hello") = true /\
    m_pszData s' = m_pszData st_locked_target /\
    mem st_locked_target !! m_pszData s' = Some (buf 1 (-1) 8 "hello") /\
    dom (mem s') = dom (mem st_locked_target) /\
    mem s' !! m_pszData s' = Some b' /\ nRefs b' = -1 /\
    value_of s' = Some "abc"%string.
Proof.
  eexists _, _. split; [vm_compute; reflexivity|].
  split; [reflexivity|]. split; [reflexivity|]. split; [reflexivity|].
  split; [vm_compute; reflexivity|].
  split; [vm_compute; reflexivity|]. split; [reflexivity|].
  vm_compute. reflexivity.
Qed.

(** ** Concatenation *)

Lemma map_seq_from {A} (f : nat -> A) a n :
  map f (seq a n) = map (fun i => f (a + i)%nat) (seq 0 n).
Proof.
  revert a. induction n as [|n IH]; intros a; [done|].
  simpl. f_equal; [f_equal; lia|].
  rewrite IH. rewrite <- seq_shift, map_map.
  apply map_ext. intros i. f_equal. lia.
Qed.

Lemma chars_app r ba bb :
  0 <= nDataLength ba -> 0 <= nDataLength bb ->
  nDataLength r = nDataLength ba + nDataLength bb ->
  (forall i, 0 <= i < nDataLength ba -> data r i = data ba i) ->
  (forall i, 0 <= i < nDataLength bb ->
             data r (nDataLength ba + i) = data bb i) ->
  chars r = chars ba ++ chars bb.
Proof.
  intros Ha Hb Hl H1 H2. unfold chars. rewrite Hl.
  rewrite Z2Nat.inj_add by lia. rewrite seq_app, map_app. f_equal.
  - apply map_ext_in. intros i Hi. apply in_seq in Hi. apply H1. lia.
  - rewrite map_seq_from. apply map_ext_in. intros i Hi. apply in_seq in Hi.
    rewrite <- H2 by lia. f_equal. lia.
Qed.

Lemma memcpy_spec d off src n f b s :
  0 <= n -> mem s !! d = Some b ->
  n = 0 \/ deref (mem s) src = Some f ->
  exists b',
    memcpy d off src n s = Ok tt (mkState (<[d := b']> (mem s)) (m_pszData s)) /\
    hdr_eq b' b /\ forall i, data b' i = blit (data b) off f n i.
Proof.
  intros Hn Hb Hsrc. destruct (decide (n = 0)) as [->|Hn0].
  - exists b. rewrite memcpy_zero, insert_id, state_eta by done.
    split; [done|]. split; [by repeat split|].
    intros i. unfold blit.
    destruct (Z.leb_spec off i); destruct (Z.ltb_spec i (off + 0)); simpl; try done.
    lia.
  - destruct Hsrc as [?|Hf]; [done|]. eexists. split.
    { apply memcpy_ok; [lia|exact Hf|exact Hb]. }
    split; [by repeat split|done].
Qed.

Lemma on_GetLength a b s :
  mem s !! a = Some b -> on a GetLength s = Ok (nDataLength b) s.
Proof. intros Hb. unfold on. mred. rewrite Hb. simpl. by rewrite state_eta. Qed.

Section Concatenation.

Variable Mgr : IAmvStringMgr.
Hypothesis HM : MgrSpec Mgr.

Lemma on_GetManager a b s :
  mem s !! a = Some b ->
  on a (GetManager Mgr) s =
  Ok (if pStringMgr b =? 0 then 0 else Clone Mgr (pStringMgr b)) s.
Proof.
  intros Hb. unfold on, GetManager. mred. rewrite Hb. simpl. by rewrite state_eta.
Qed.

Lemma GetNilString_content m (h h1 : gmap Z BStringData) pn x bx :
  GetNilString Mgr m h = (pn, h1) -> h !! x = Some bx ->
  exists r, h1 !! x = Some (with_nRefs bx r).
Proof.
  intros HN Hx.
  destruct (GetNilString_ok _ HM _ _ _ _ HN) as (_ & Hframe & Hsame).
  destruct (decide (x = pn)) as [->|Hne]; [by apply Hsame|].
  exists (nRefs bx). by rewrite Hframe, with_nRefs_same.
Qed.

(** C7: [operator+] takes the nil string of the first operand's manager,
    forks it into a buffer that was not live before, and writes there the
    characters of the first operand followed by those of the second and the
    terminator.  The result has the sum of the lengths and a count of 1;
    both operands keep their characters, lengths, capacity and manager (at
    most the count of an operand that is itself the nil string moves). *)
Theorem C7_concatenation_builds_new_buffer s a b ba bb pn h1 q h2 :
  mem s !! a = Some ba -> mem s !! b = Some bb ->
  0 <= nDataLength ba -> 0 <= nDataLength bb ->
  nDataLength ba + nDataLength bb <= INT_MAX ->
  pStringMgr ba <> 0 -> Clone Mgr (pStringMgr ba) <> 0 ->
  GetNilString Mgr (Clone Mgr (pStringMgr ba)) (mem s) = (pn, h1) ->
  Allocate Mgr (Clone Mgr (Clone Mgr (pStringMgr ba)))
           (nDataLength ba + nDataLength bb) sizeof_XCHAR h1 = (Some q, h2) ->
  exists s' r,
    operator_plus Mgr a b s = Ok tt s' /\
    m_pszData s' = q /\ mem s !! q = None /\
    mem s' !! q = Some r /\ nRefs r = 1 /\
    nDataLength r = nDataLength ba + nDataLength bb /\
    chars r = chars ba ++ chars bb /\
    data r (nDataLength ba + nDataLength bb) = NUL /\
    (exists ra, mem s' !! a = Some (with_nRefs ba ra)) /\
    (exists rb, mem s' !! b = Some (with_nRefs bb rb)).
Proof.
  intros Ha Hb Hla Hlb Hsum Hm0 Hc0 HN HA.
  set (la := nDataLength ba) in *. set (lb := nDataLength bb) in *.
  destruct (GetNilString_ok _ HM _ _ _ _ HN)
    as ((bn & Hbn & Hmn & Hdn & Han & Hrn & Hzn) & Hframe & Hsame).
  destruct (GetNilString_content _ _ _ _ a ba HN Ha) as (ra1 & Ha1).
  destruct (GetNilString_content _ _ _ _ b bb HN Hb) as (rb1 & Hb1).
  (* the fork of the nil string *)
  set (s0 := mkState h1 pn).
  assert (HF := Fork_ok Mgr HM s0 bn (la + lb) q h2 Hbn ltac:(lia) ltac:(ilia)
                  ltac:(lia)).
  rewrite Hmn in HF. specialize (HF HA).
  destruct HF as (b0 & -> & Hq1 & Hm0' & Hr0 & Hcap & HF). simpl in HF, Hq1.
  assert (Hqpn : q <> pn) by congruence.
  assert (Hqa : q <> a) by congruence.
  assert (Hqb : q <> b) by congruence.
  assert (Hq : mem s !! q = None) by (rewrite <- Hframe; done).
  set (fk := forked bn b0 (la + lb)) in *.
  set (hF := <[pn := with_nRefs bn (nRefs bn - 1)]> (<[q := fk]> h1)) in *.
  assert (HaF : exists ra, hF !! a = Some (with_nRefs ba ra)).
  { subst hF. destruct (decide (a = pn)) as [->|Hne].
    - rewrite lookup_insert_eq. rewrite Hbn in Ha1. injection Ha1 as ->.
      by eexists.
    - rewrite !lookup_insert_ne by done. by eexists. }
  assert (HbF : exists rb, hF !! b = Some (with_nRefs bb rb)).
  { subst hF. destruct (decide (b = pn)) as [->|Hne].
    - rewrite lookup_insert_eq. rewrite Hbn in Hb1. injection Hb1 as ->.
      by eexists.
    - rewrite !lookup_insert_ne by done. by eexists. }
  destruct HaF as (ra & HaF). destruct HbF as (rb & HbF).
  assert (HqF : hF !! q = Some fk)
    by (subst hF; by rewrite lookup_insert_ne, lookup_insert_eq).
  (* the two copies and the commit *)
  destruct (memcpy_spec q 0 (InBuf a 0) la (data ba) fk (mkState hF q)
              Hla HqF ltac:(right; simpl; by rewrite HaF))
    as (c1 & Hrun1 & (Hm1 & Hd1 & Ha1' & Hr1) & Hdata1).
  set (hF1 := <[q := c1]> hF) in *.
  destruct (memcpy_spec q la (InBuf b 0) lb (data bb) c1 (mkState hF1 q)
              Hlb ltac:(simpl; apply lookup_insert_eq)
              ltac:(right; simpl; subst hF1;
                    rewrite lookup_insert_ne by done; by rewrite HbF))
    as (c2 & Hrun2 & (Hm2 & Hd2 & Ha2' & Hr2) & Hdata2).
  simpl in Hrun1, Hrun2.
  set (hF2 := <[q := c2]> hF1) in *.
  assert (Hcap2 : la + lb <= nAllocLength c2).
  { rewrite Ha2', Ha1'. subst fk. simpl. lia. }
  pose proof (SetLength_ok (mkState hF2 q) c2 (la + lb)
                ltac:(simpl; apply lookup_insert_eq) ltac:(lia)) as Hrun3.
  simpl in Hrun3.
  set (r := with_data (with_nDataLength c2 (la + lb))
                      (poke (data c2) (la + lb) NUL)) in *.
  exists (mkState (<[q := r]> hF2) q), r.
  split.
  { unfold operator_plus.
    erewrite bind_ok by (by apply on_GetManager).
    destruct (Z.eqb_spec (pStringMgr ba) 0); [done|].
    unfold ctor_mgr.
    destruct (Z.eqb_spec (Clone Mgr (pStringMgr ba)) 0); [done|].
    unfold bind at 1. unfold bind at 1. unfold mgr_GetNilString. rewrite HN.
    unfold Attach. cbv beta iota. simpl mem. simpl m_pszData.
    erewrite bind_ok by (apply on_GetLength; simpl; exact Ha1).
    erewrite bind_ok by (apply on_GetLength; simpl; exact Hb1).
    simpl nDataLength. fold la lb.
    unfold Concatenate. rewrite to_int_id by ilia.
    unfold GetBuffer.
    erewrite bind_ok; cycle 1.
    { rewrite (PrepareWrite_shared Mgr _ bn) by (simpl; try done; lia).
      rewrite Hdn. replace (Z.max 0 (la + lb)) with (la + lb) by lia.
      fold s0. rewrite HF. reflexivity. }
    simpl m_pszData. unfold CopyChars, ReleaseBufferSetLength.
    erewrite bind_ok by exact Hrun1.
    erewrite bind_ok by exact Hrun2.
    exact Hrun3. }
  simpl. split; [done|]. split; [done|].
  split; [apply lookup_insert_eq|].
  assert (Hlt1 : forall i, 0 <= i < la -> data c2 i = data ba i).
  { intros i Hi. rewrite Hdata2. unfold blit.
    destruct (Z.leb_spec la i); [lia|]. simpl.
    rewrite Hdata1. unfold blit.
    destruct (Z.leb_spec 0 i); [|lia]. destruct (Z.ltb_spec i (0 + la)); [|lia].
    simpl. f_equal. lia. }
  assert (Hlt2 : forall i, 0 <= i < lb -> data c2 (la + i) = data bb i).
  { intros i Hi. rewrite Hdata2. unfold blit.
    destruct (Z.leb_spec la (la + i)); [|lia].
    destruct (Z.ltb_spec (la + i) (la + lb)); [|lia]. simpl. f_equal. lia. }
  split; [subst r; simpl; rewrite Hr2, Hr1; done|].
  split; [done|].
  split.
  { apply chars_app; try done.
    - intros i Hi. subst r. simpl. unfold poke.
      destruct (Z.eqb_spec i (la + lb)); [lia|]. by apply Hlt1.
    - intros i Hi. subst r. simpl. unfold poke. fold la.
      destruct (Z.eqb_spec (la + i) (la + lb)); [lia|]. by apply Hlt2. }
  split; [subst r; simpl; unfold poke; by rewrite Z.eqb_refl|].
  split.
  - exists ra. subst hF2 hF1. by rewrite !lookup_insert_ne by done.
  - exists rb. subst hF2 hF1. by rewrite !lookup_insert_ne by done.
Qed.

End Concatenation.

Lemma C7_concatenation_builds_new_buffer_witness :
  exists s' r,
    operator_plus (HeapMgr 1000) 1 2 st_foo_bar = Ok tt s' /\
    mem s' !! m_pszData s' = Some r /\
    chars r = chars (buf 1 2 3 "foo") ++ chars (buf 1 1 8 "bar").
Proof.
  destruct (C7_concatenation_builds_new_buffer (HeapMgr 1000)
              (HeapMgr_spec 1000 ltac:(ilia)) st_foo_bar 1 2
              (buf 1 2 3 "foo") (buf 1 1 8 "bar") _ _ _ _
              eq_refl eq_refl ltac:(simpl; lia) ltac:(simpl; lia)
              ltac:(simpl; ilia) ltac:(simpl; lia) ltac:(simpl; lia)
              eq_refl eq_refl)
    as (s' & r & Hrun & Hp & _ & Hr & _ & _ & Hc & _).
  exists s', r. rewrite Hp. repeat split; assumption.
Defined.

(** ** The payload invariant *)

Lemma hdr_eq_refl b : hdr_eq b b.
Proof. by repeat split. Qed.

Lemma memcpy_writes d off src n s b :
  d = m_pszData s -> mem s !! d = Some b ->
  writes_payload (memcpy d off src n) s b.
Proof.
  intros -> Hb. unfold writes_payload, memcpy.
  destruct (Z.eqb_spec n 0).
  - simpl. split; [done|]. exists b. split; [done|apply hdr_eq_refl].
  - destruct (deref (mem s) src); [|done]. rewrite Hb.
    destruct (n <? 0); [done|]. simpl. split; [done|].
    eexists. split; [apply lookup_insert_eq|]. by repeat split.
Qed.

Lemma write_char_writes d i ch s b :
  d = m_pszData s -> mem s !! d = Some b ->
  writes_payload (write_char d i ch) s b.
Proof.
  intros -> Hb. unfold writes_payload, write_char. mred. rewrite Hb. simpl.
  split; [done|]. eexists. split; [apply lookup_insert_eq|]. by repeat split.
Qed.

Lemma SetString_copy_writes src this dl d alloc n s b :
  d = m_pszData s -> mem s !! d = Some b ->
  writes_payload (SetString_copy src this dl d alloc n) s b.
Proof.
  intros Hd Hb. unfold SetString_copy.
  destruct (ptr_diff src this) as [o|]; [|by apply memcpy_writes].
  destruct (o <=? dl); [|by apply memcpy_writes].
  unfold CopyCharsOverlapped. destruct (n >? alloc).
  - unfold writes_payload, AmvThrow. done.
  - by apply memcpy_writes.
Qed.

Lemma SetLength_keeps s b n :
  mem s !! m_pszData s = Some b -> typed b ->
  0 <= n <= nAllocLength b ->
  exists s', SetLength n s = Ok tt s' /\ attached wf_data s'.
Proof.
  intros Hb [Hr Ha] Hn. eexists. split; [by apply SetLength_ok|].
  eexists. split; [simpl; apply lookup_insert_eq|].
  split; [by split|]. split; [simpl; lia|].
  simpl. unfold poke. by rewrite Z.eqb_refl.
Qed.

(** Characters written into a prepared buffer, then the length committed. *)
Lemma write_commit_keeps (m : M unit) s b n :
  mem s !! m_pszData s = Some b -> wf_data b ->
  0 <= n <= nAllocLength b ->
  writes_payload m s b ->
  keeps ((m;; SetLength n) s).
Proof.
  intros Hb Hwf Hn Hw. unfold writes_payload in Hw. unfold bind, keeps.
  destruct (m s) as [[] s'|e s'].
  - destruct Hw as (Hp & b' & Hb' & Hm & Hd & Ha & Hr).
    destruct Hwf as [[Hr0 Ha0] _].
    destruct (SetLength_keeps s' b' n) as (s'' & -> & Hk).
    + by rewrite Hp.
    + split; congruence.
    + lia.
    + done.
  - subst s'. simpl. by exists b.
Qed.

Section Invariant.

Variable Mgr : IAmvStringMgr.
Hypothesis HM : MgrSpec Mgr.

Lemma PrepareWrite_keeps s old n :
  mem s !! m_pszData s = Some old -> wf_data old -> is_int n ->
  match PrepareWrite Mgr n s with
  | Ok p1 s1 =>
      m_pszData s1 = p1 /\
      exists b1, mem s1 !! p1 = Some b1 /\ wf_data b1 /\
                 nDataLength b1 = nDataLength old /\
                 0 <= n <= nAllocLength b1
  | Throw e s1 => attached wf_data s1
  end.
Proof.
  intros Hold Hwf Hn. pose proof Hwf as [[Hr Ha] [Hd Hz]].
  destruct (decide (n < 0)) as [Hneg|Hpos].
  - unfold PrepareWrite. destruct (Z.ltb_spec n 0); [|lia].
    unfold AmvThrow. by exists old.
  - pose proof (PrepareWrite_spec Mgr HM s old n Hold Hr Hd Ha ltac:(ilia)) as HP.
    destruct (PrepareWrite Mgr n s) as [p1 s1|e s1].
    + destruct HP as (Hp1 & b1 & Hb1 & Hd1 & Hcap & _ & Hr1 & _ & Hdata & _).
      split; [done|]. exists b1. split; [done|].
      split; [|split; [done|lia]].
      split; [split; [done|lia]|]. split; [lia|].
      rewrite Hd1. rewrite Hdata by lia. done.
    + destruct HP as (Hp & Hpres & _). exists old. split; [|done].
      rewrite Hp. by apply Hpres.
Qed.

(** The pattern of every writer: prepare, write characters, commit. *)
Lemma prepare_write_commit_keeps s old n (w : addr -> M unit) :
  mem s !! m_pszData s = Some old -> wf_data old -> is_int n ->
  (forall s1 b1, mem s1 !! m_pszData s1 = Some b1 ->
                 writes_payload (w (m_pszData s1)) s1 b1) ->
  keeps (bind (PrepareWrite Mgr n) (fun p1 => w p1;; SetLength n) s).
Proof.
  intros Hold Hwf Hn Hw.
  pose proof (PrepareWrite_keeps s old n Hold Hwf Hn) as HP.
  unfold bind at 1. destruct (PrepareWrite Mgr n s) as [p1 s1|e s1]; [|done].
  destruct HP as (<- & b1 & Hb1 & Hwf1 & _ & Hcap).
  apply (write_commit_keeps _ s1 b1); try done. by apply Hw.
Qed.

Lemma Truncate_keeps s old n :
  mem s !! m_pszData s = Some old -> wf_data old -> is_int n ->
  keeps (Truncate Mgr n s).
Proof.
  intros Hold Hwf Hn.
  pose proof (prepare_write_commit_keeps s old n (fun _ => ret tt) Hold Hwf Hn)
    as H.
  unfold Truncate, GetBuffer, ReleaseBufferSetLength.
  unfold keeps, bind, ret in *.
  destruct (PrepareWrite Mgr n s) as [p1 s1|e s1]; apply H;
    intros s2 b2 Hb2; unfold writes_payload;
    (split; [done|]); exists b2; (split; [done|apply hdr_eq_refl]).
Qed.

Lemma Append_keeps s old src n :
  mem s !! m_pszData s = Some old -> wf_data old -> is_int n ->
  keeps (Append Mgr src n s).
Proof.
  intros Hold Hwf Hn. pose proof Hwf as [[Hr Ha] [Hd Hz]].
  assert (Hk0 : @keeps unit (Throw InvalidArgument s)) by (by exists old).
  destruct (decide (n < 0)) as [Hneg|Hpos].
  { by rewrite (Append_negative Mgr s old). }
  destruct (StringLengthN src n s) as [k s0|e s0] eqn:HSL.
  - destruct (StringLengthN_range src n s k s0 ltac:(ilia) HSL) as [-> Hk].
    rewrite (Append_run Mgr s old src n k) by (try done; ilia).
    destruct (INT_MAX - k <? nDataLength old) eqn:Hov; [done|].
    apply Z.ltb_ge in Hov.
    apply (prepare_write_commit_keeps s old (nDataLength old + k)
             (fun p1 => CopyChars p1 (nDataLength old) k
                          (rebase src (m_pszData s) (nDataLength old) p1) k));
      try done; [ilia|].
    intros s1 b1 Hb1. by apply memcpy_writes.
  - unfold Append. mred. rewrite Hold. simpl.
    destruct (Z.geb_spec n 0); [|lia]. simpl. rewrite HSL.
    unfold StringLengthN in HSL.
    destruct src; [done| |]; destruct (deref (mem s) _); try done;
      injection HSL as <- <-; by exists old.
Qed.

End Invariant.

Lemma StringLength_cases psz s :
  (exists n, StringLength psz s = Ok n s /\ is_int n) \/
  StringLength psz s = Throw InvalidAccess s.
Proof.
  unfold StringLength. destruct psz as [|q off|cs].
  - left. exists 0. split; [done|ilia].
  - destruct (mem s !! q); [|by right].
    left. eexists. split; [done|apply to_int_is_int].
  - left. eexists. split; [done|apply to_int_is_int].
Qed.

Section Invariant2.

Variable Mgr : IAmvStringMgr.
Hypothesis HM : MgrSpec Mgr.

Lemma Empty_keeps s old :
  mem s !! m_pszData s = Some old -> wf_data old -> keeps (Empty Mgr s).
Proof.
  intros Hold Hwf. pose proof Hwf as [[Hr Ha] [Hd Hz]].
  rewrite (Empty_run Mgr s old) by (try done; lia).
  destruct (nDataLength old =? 0); [by exists old|].
  destruct (nRefs old <? 0).
  - eexists. split; [simpl; apply lookup_insert_eq|].
    split; [by split|]. split; [simpl; lia|].
    simpl. unfold poke. by rewrite Z.eqb_refl.
  - cbv zeta. destruct (GetNilString Mgr _ _) as [pn h2] eqn:HN.
    destruct (GetNilString_ok _ HM _ _ _ _ HN)
      as ((bn & Hbn & Hmn & Hdn & Han & Hrn & Hzn) & _).
    exists bn. split; [done|].
    split; [split; [ilia|lia]|]. split; [lia|]. by rewrite Hdn.
Qed.

Lemma SetString_keeps s old src n :
  mem s !! m_pszData s = Some old -> wf_data old -> is_int n ->
  keeps (SetString Mgr src n s).
Proof.
  intros Hold Hwf Hn. pose proof Hwf as [[Hr Ha] [Hd Hz]].
  destruct (decide (n = 0)) as [->|Hn0];
    [change (SetString Mgr src 0 s) with (Empty Mgr s);
     by apply (Empty_keeps s old)|].
  assert (Hsrc : src = NULL \/ src <> NULL) by (destruct src; auto).
  destruct Hsrc as [->|Hsrc].
  { unfold SetString. destruct (Z.eqb_spec n 0); [done|]. by exists old. }
  rewrite (SetString_run Mgr s old) by (try done; lia).
  pose proof (PrepareWrite_keeps Mgr HM s old n Hold Hwf Hn) as HP.
  unfold bind at 1. destruct (PrepareWrite Mgr n s) as [p1 s1|e s1]; [|done].
  destruct HP as (<- & b1 & Hb1 & Hwf1 & _ & Hcap).
  erewrite bind_ok by (by apply GetAllocLength_live).
  apply (write_commit_keeps _ s1 b1); try done.
  by apply SetString_copy_writes.
Qed.

Lemma SetString_psz_keeps s old src :
  mem s !! m_pszData s = Some old -> wf_data old ->
  keeps (SetString_psz Mgr src s).
Proof.
  intros Hold Hwf. unfold SetString_psz.
  destruct (StringLength_cases src s) as [(n & Hrun & Hn)|Hrun].
  - erewrite bind_ok by exact Hrun. by apply (SetString_keeps s old).
  - erewrite bind_throw by exact Hrun. by exists old.
Qed.

Lemma Append_psz_keeps s old src :
  mem s !! m_pszData s = Some old -> wf_data old ->
  keeps (Append_psz Mgr src s).
Proof.
  intros Hold Hwf. unfold Append_psz.
  destruct (StringLength_cases src s) as [(n & Hrun & Hn)|Hrun].
  - erewrite bind_ok by exact Hrun. by apply (Append_keeps Mgr HM s old).
  - erewrite bind_throw by exact Hrun. by exists old.
Qed.

Lemma Append_str_keeps s old pSrc src :
  mem s !! m_pszData s = Some old -> wf_data old ->
  mem s !! pSrc = Some src -> wf_data src ->
  keeps (Append_str Mgr pSrc s).
Proof.
  intros Hold Hwf Hsrc [[_ Has] [Hds _]]. unfold Append_str.
  erewrite bind_ok by (by apply on_GetLength).
  apply (Append_keeps Mgr HM s old); try done. ilia.
Qed.

Lemma AppendChar_keeps s old ch :
  mem s !! m_pszData s = Some old -> wf_data old ->
  keeps (AppendChar Mgr ch s).
Proof.
  intros Hold Hwf. unfold AppendChar.
  erewrite bind_ok by (by apply GetLength_live).
  unfold GetBuffer, ReleaseBufferSetLength.
  apply (prepare_write_commit_keeps Mgr HM s old _
           (fun p1 => write_char p1 (to_uint (nDataLength old)) ch));
    try done; [apply to_int_is_int|].
  intros s1 b1 Hb1. by apply write_char_writes.
Qed.

Lemma GetBuffer0_is_PrepareWrite s old :
  mem s !! m_pszData s = Some old -> wf_data old ->
  GetBuffer0 Mgr s = PrepareWrite Mgr (nDataLength old) s.
Proof.
  intros Hold [[Hr Ha] [Hd Hz]]. unfold GetBuffer0. mred. rewrite Hold. simpl.
  unfold IsShared. destruct (Z.gtb_spec (nRefs old) 1).
  - rewrite (PrepareWrite_shared Mgr s old) by (try done; ilia).
    rewrite Z.max_id. unfold then_this. by destruct (Fork Mgr _ s).
  - by rewrite (PrepareWrite_roomy Mgr s old) by (try done; lia).
Qed.

Lemma SetAt_keeps s old i ch :
  mem s !! m_pszData s = Some old -> wf_data old ->
  keeps (SetAt Mgr i ch s).
Proof.
  intros Hold Hwf. pose proof Hwf as [[Hr Ha] [Hd Hz]]. unfold SetAt.
  erewrite bind_ok by (by apply GetLength_live).
  destruct ((i <? 0) || (i >=? nDataLength old)); [by exists old|].
  erewrite bind_ok by (by apply GetLength_live).
  unfold ReleaseBufferSetLength.
  pose proof (prepare_write_commit_keeps Mgr HM s old (nDataLength old)
                (fun p1 => write_char p1 i ch) Hold Hwf ltac:(ilia)) as H.
  unfold bind at 1 in H. unfold bind at 1.
  rewrite (GetBuffer0_is_PrepareWrite s old) by done.
  apply H. intros s1 b1 Hb1. by apply write_char_writes.
Qed.

Lemma FreeExtra_keeps s old :
  mem s !! m_pszData s = Some old -> wf_data old -> keeps (FreeExtra Mgr s).
Proof.
  intros Hold Hwf. pose proof Hwf as [[Hr Ha] [Hd Hz]].
  unfold FreeExtra. mred. rewrite Hold. simpl.
  destruct (nAllocLength old =? nDataLength old); [by exists old|].
  destruct (IsLocked old); simpl; [by exists old|].
  unfold mgr_Allocate.
  destruct (Allocate Mgr (pStringMgr old) (nDataLength old) sizeof_XCHAR (mem s))
    as [[q|] h1] eqn:HA; simpl.
  - destruct (Allocate_ok _ HM _ _ _ _ _ _ HA) as (Hq & b0 & -> & Hm0 & Hr0 & Hcap).
    assert (Hne : q <> m_pszData s) by congruence.
    destruct (memcpy_spec q 0 (InBuf (m_pszData s) 0) (nDataLength old)
                (data old) b0
                (mkState (<[q := b0]> (mem s)) (m_pszData s))
                ltac:(lia) ltac:(simpl; apply lookup_insert_eq)
                ltac:(right; simpl; rewrite lookup_insert_ne by done;
                      by rewrite Hold))
      as (c & Hrun & (Hmc & Hdc & Hac & Hrc) & Hdata).
    unfold CopyChars. rewrite Hrun. simpl.
    erewrite Release_run
      by (simpl; rewrite !lookup_insert_ne by done; exact Hold).
    simpl.
    set (h3 := if to_int (nRefs old - 1) <=? 0 then _ else _).
    assert (Hc3 : h3 !! q = Some c).
    { subst h3. destruct (to_int (nRefs old - 1) <=? 0).
      - rewrite (Free_other _ HM) by done.
        by rewrite lookup_insert_ne, lookup_insert_eq.
      - by rewrite lookup_insert_ne, lookup_insert_eq. }
    destruct (SetLength_keeps (mkState h3 q) c (nDataLength old) Hc3)
      as (s' & Hrun' & Hk); [split; [rewrite Hrc; ilia|lia]|lia|].
    unfold keeps. by rewrite Hrun'.
  - rewrite (Allocate_fail _ HM _ _ _ _ _ HA). rewrite state_eta.
    destruct (SetLength_keeps s old (nDataLength old) Hold)
      as (s' & Hrun' & Hk); [done|lia|].
    unfold keeps. by rewrite Hrun'.
Qed.

End Invariant2.

Lemma SetLength_post s b n :
  mem s !! m_pszData s = Some b -> typed b ->
  match SetLength n s with
  | Ok _ s' => attached wf_data s'
  | Throw _ s' => s' = s
  end.
Proof.
  intros Hb Ht.
  destruct (decide (0 <= n <= nAllocLength b)) as [Hn|Hn].
  - destruct (SetLength_keeps s b n Hb Ht Hn) as (s' & -> & Hk). done.
  - rewrite (SetLength_bad s b n Hb) by lia. done.
Qed.

Section Invariant3.

Variable Mgr : IAmvStringMgr.
Hypothesis HM : MgrSpec Mgr.

Lemma CloneData_cases s pSrc src :
  mem s !! pSrc = Some src -> wf_data src ->
  match CloneData Mgr pSrc s with
  | Ok q s1 =>
      m_pszData s1 = m_pszData s /\
      (q = pSrc \/ mem s !! q = None) /\
      (exists bq, mem s1 !! q = Some bq /\ wf_data bq) /\
      (forall x bx, x <> pSrc -> mem s !! x = Some bx -> mem s1 !! x = Some bx)
  | Throw e s1 => m_pszData s1 = m_pszData s /\ preserves s s1
  end.
Proof.
  intros Hsrc Hwf. pose proof Hwf as [[Hr Ha] [Hd Hz]].
  unfold CloneData. mred. rewrite Hsrc. simpl.
  destruct (negb (IsLocked src) && (Clone Mgr (pStringMgr src) =? pStringMgr src)).
  - change (match match AddRef pSrc s with
                  | Ok _ s' => Ok pSrc s'
                  | Throw e s' => Throw e s'
                  end with
            | Ok q s1 =>
                m_pszData s1 = m_pszData s /\
                (q = pSrc \/ mem s !! q = None) /\
                (exists bq, mem s1 !! q = Some bq /\ wf_data bq) /\
                (forall x bx, x <> pSrc -> mem s !! x = Some bx ->
                              mem s1 !! x = Some bx)
            | Throw e s1 => m_pszData s1 = m_pszData s /\ preserves s s1
            end).
    rewrite (AddRef_run pSrc src s Hsrc). simpl.
    split; [done|]. split; [by left|]. split.
    + eexists. split; [apply lookup_insert_eq|].
      split; [split; [apply to_int_is_int|done]|done].
    + intros x bx Hx Hbx. by rewrite lookup_insert_ne.
  - unfold mgr_Allocate.
    destruct (Allocate Mgr _ (nDataLength src) sizeof_XCHAR (mem s))
      as [[q|] h1] eqn:HA; simpl.
    + destruct (Allocate_ok _ HM _ _ _ _ _ _ HA) as (Hq & b0 & -> & Hm0 & Hr0 & Hcap).
      assert (Hne : q <> pSrc) by congruence.
      rewrite lookup_insert_eq. simpl. rewrite insert_insert_eq.
      unfold CopyChars.
      destruct (decide (nDataLength src < INT_MAX)) as [Hlt|Hge].
      * rewrite to_int_id by ilia.
        erewrite memcpy_ok;
          [| lia
           | simpl; rewrite lookup_insert_ne by done; by rewrite Hsrc
           | simpl; apply lookup_insert_eq].
        simpl. rewrite insert_insert_eq.
        split; [done|]. split; [by right|]. split.
        -- eexists. split; [apply lookup_insert_eq|].
           split; [split; [simpl; ilia|simpl; lia]|].
           split; [simpl; lia|]. simpl. unfold blit.
           destruct (Z.leb_spec 0 (nDataLength src)); [|lia].
           destruct (Z.ltb_spec (nDataLength src) (0 + (nDataLength src + 1)));
             [|lia].
           simpl. by rewrite Z.sub_0_r.
        -- intros x bx Hx Hbx. rewrite lookup_insert_ne by congruence. done.
      * replace (nDataLength src) with INT_MAX by lia.
        change (to_int (INT_MAX + 1)) with INT_MIN.
        unfold memcpy. simpl.
        rewrite lookup_insert_ne, Hsrc, lookup_insert_eq by done. simpl.
        split; [done|]. intros x bx Hbx. simpl.
        rewrite lookup_insert_ne by congruence. done.
    + rewrite (Allocate_fail _ HM _ _ _ _ _ HA). rewrite state_eta.
      split; [done|apply preserves_refl].
Qed.

Lemma operator_assign_keeps s old pSrc src :
  mem s !! m_pszData s = Some old -> wf_data old ->
  mem s !! pSrc = Some src -> wf_data src ->
  keeps (operator_assign Mgr pSrc s).
Proof.
  intros Hold Hwf Hsrc Hwfs.
  unfold operator_assign. cbv zeta.
  erewrite bind_ok by (unfold get_this; reflexivity). cbv beta.
  destruct (Z.eqb_spec pSrc (m_pszData s)) as [->|Hne]; cbn [negb].
  { by exists old. }
  erewrite bind_ok by (by apply load_live).
  erewrite bind_ok by (by apply load_live).
  destruct (IsLocked old || negb (pStringMgr src =? pStringMgr old)).
  { apply (SetString_keeps Mgr HM s old); try done.
    destruct Hwfs as [[_ Has] [Hds _]]. ilia. }
  pose proof (CloneData_cases s pSrc src Hsrc Hwfs) as HC.
  unfold bind at 1. destruct (CloneData Mgr pSrc s) as [q s1|e s1].
  - destruct HC as (Hp & Hq & (bq & Hbq & Hwfq) & Hpres).
    assert (Hold1 : mem s1 !! m_pszData s = Some old) by (by apply Hpres).
    assert (Hqne : q <> m_pszData s)
      by (destruct Hq as [->|Hq]; [done|congruence]).
    erewrite bind_ok by (by apply Release_run).
    unfold Attach, keeps. simpl.
    exists bq. split; [|done]. cbv zeta.
    destruct (to_int (nRefs old - 1) <=? 0); simpl.
    + rewrite (Free_other _ HM) by done. by rewrite lookup_insert_ne.
    + by rewrite lookup_insert_ne.
  - destruct HC as (Hp & Hpres). exists old. simpl. rewrite Hp.
    split; [by apply Hpres|done].
Qed.

(** A new buffer is attached, its length set and its characters filled. *)
Lemma fill_new_buffer h q b0 src n :
  h !! q = Some b0 -> is_int (nRefs b0) -> n <= nAllocLength b0 <= INT_MAX ->
  match (SetLength n;; CopyChars q 0 n src n) (mkState h q) with
  | Ok _ s' => attached wf_data s'
  | Throw _ _ => True
  end.
Proof.
  intros Hb0 Hr Hcap.
  destruct (decide (0 <= n)) as [Hn|Hn]; cycle 1.
  { erewrite bind_throw; [done|]. apply (SetLength_bad _ b0); [done|lia]. }
  erewrite bind_ok by (apply (SetLength_ok _ b0); [done|lia]).
  unfold CopyChars, memcpy. destruct (Z.eqb_spec n 0) as [->|Hn0].
  - simpl. eexists. split; [simpl; apply lookup_insert_eq|].
    split; [split; [done|simpl; lia]|]. split; [simpl; lia|].
    simpl. unfold poke. by rewrite Z.eqb_refl.
  - simpl mem. destruct (deref _ src) as [f|]; [|done].
    rewrite lookup_insert_eq. destruct (Z.ltb_spec n 0); [done|].
    simpl. rewrite insert_insert_eq.
    eexists. split; [simpl; apply lookup_insert_eq|].
    split; [split; [done|simpl; lia]|]. split; [simpl; lia|].
    simpl. unfold blit, poke.
    destruct (Z.leb_spec 0 n); destruct (Z.ltb_spec n (0 + n)); simpl; try lia.
    by rewrite Z.eqb_refl.
Qed.

Lemma ctor_keeps (o : public_op) s :
  kind_of o = Constructs -> op_pre o s ->
  match exec Mgr o s with
  | Ok _ s' => attached wf_data s'
  | Throw _ _ => True
  end.
Proof.
  intros Hk (_ & Hsrc & Hint).
  destruct o as [m|pSrc|psz m|pch n m|pSrc|psz|psz n|psz|pSrc|ch|psz n|psz|i ch|n| | |n|n];
    try discriminate Hk; simpl in *.
  - (* from a manager *)
    unfold ctor_mgr. destruct (m =? 0); [done|].
    unfold bind, mgr_GetNilString, Attach.
    destruct (GetNilString Mgr _ _) as [pn h1] eqn:HN.
    destruct (GetNilString_ok _ HM _ _ _ _ HN)
      as ((bn & Hbn & Hmn & Hdn & Han & Hrn & Hzn) & _).
    exists bn. split; [done|].
    split; [split; [ilia|lia]|]. split; [lia|]. by rewrite Hdn.
  - (* from another handle *)
    destruct Hsrc as (src & Hsrc & Hwfs).
    pose proof (CloneData_cases s pSrc src Hsrc Hwfs) as HC.
    unfold ctor_copy, bind, Attach.
    destruct (CloneData Mgr pSrc s) as [q s1|e s1]; [|done].
    destruct HC as (_ & _ & (bq & Hbq & Hwfq) & _). by exists bq.
  - (* from a terminated string *)
    unfold ctor_psz. destruct (m =? 0); [done|].
    destruct (StringLength_cases psz s) as [(n & Hrun & Hn)|Hrun];
      [|by erewrite bind_throw by exact Hrun].
    erewrite bind_ok by exact Hrun.
    unfold bind at 1. unfold mgr_Allocate.
    destruct (Allocate Mgr m n sizeof_XCHAR (mem s))
      as [[q|] h1] eqn:HA; [|done].
    destruct (Allocate_ok _ HM _ _ _ _ _ _ HA) as (Hq & b0 & -> & Hm0 & Hr0 & Hcap).
    unfold bind at 1. unfold Attach. simpl mem.
    apply (fill_new_buffer _ q b0); [apply lookup_insert_eq|ilia|done].
  - (* from a counted span *)
    unfold ctor_pch. destruct (m =? 0); [done|].
    destruct (_ && _); [done|].
    unfold bind at 1. unfold mgr_Allocate.
    destruct (Allocate Mgr m n sizeof_XCHAR (mem s))
      as [[q|] h1] eqn:HA; [|done].
    destruct (Allocate_ok _ HM _ _ _ _ _ _ HA) as (Hq & b0 & -> & Hm0 & Hr0 & Hcap).
    unfold bind at 1. unfold Attach. simpl mem.
    apply (fill_new_buffer _ q b0); [apply lookup_insert_eq|ilia|done].
Qed.

Lemma ReleaseBuffer_post s b n :
  mem s !! m_pszData s = Some b -> typed b ->
  match ReleaseBuffer n s with
  | Ok _ s' => attached wf_data s'
  | Throw _ s' => s' = s
  end.
Proof.
  intros Hb Ht. unfold ReleaseBuffer.
  destruct (n =? -1).
  - erewrite bind_ok; cycle 1.
    { erewrite bind_ok by (by apply GetAllocLength_live).
      unfold bind, get_this, StringLengthN. simpl. rewrite Hb. reflexivity. }
    pose proof (SetLength_post s b
      (to_int (strnlen (fun i => data b (0 + i)) (nAllocLength b))) Hb Ht) as H.
    by destruct (SetLength _ s).
  - erewrite bind_ok by reflexivity.
    pose proof (SetLength_post s b n Hb Ht) as H. by destruct (SetLength _ s).
Qed.

(** C9: every constructor that returns leaves its handle attached to a
    buffer with [0 <= nDataLength <= nAllocLength] and a NUL at index
    [nDataLength]; assignment, append, [SetString], [SetAt], [Truncate],
    [Empty] and [FreeExtra] keep such a handle so, whether they return or
    throw; and a buffer release that returns establishes it from the
    header alone. *)
Theorem C9_payload_invariant (o : public_op) s :
  op_pre o s -> op_post o s (exec Mgr o s).
Proof.
  intros Hpre. pose proof Hpre as (Hatt & Hsrc & Hint).
  destruct (kind_of o) eqn:Hk.
  - pose proof (ctor_keeps o s Hk Hpre) as H. unfold op_post. rewrite Hk.
    by destruct (exec Mgr o s).
  - destruct Hatt as (old & Hold & Hwf).
    assert (keeps (exec Mgr o s)) as H; cycle 1.
    { unfold op_post, keeps in *. rewrite Hk. by destruct (exec Mgr o s). }
    destruct o as [m|pSrc|psz m|pch n m|pSrc|psz|psz n|psz|pSrc|ch|psz n|psz|i ch|n| | |n|n];
      try discriminate Hk; simpl in *.
    + destruct Hsrc as (src & Hsrc & Hwfs).
      by apply (operator_assign_keeps s old pSrc src).
    + by apply (SetString_psz_keeps Mgr HM s old).
    + by apply (Append_keeps Mgr HM s old).
    + by apply (Append_psz_keeps Mgr HM s old).
    + destruct Hsrc as (src & Hsrc & Hwfs).
      by apply (Append_str_keeps Mgr HM s old pSrc src).
    + by apply (AppendChar_keeps Mgr HM s old).
    + by apply (SetString_keeps Mgr HM s old).
    + by apply (SetString_psz_keeps Mgr HM s old).
    + by apply (SetAt_keeps Mgr HM s old).
    + by apply (Truncate_keeps Mgr HM s old).
    + by apply (Empty_keeps Mgr HM s old).
    + by apply (FreeExtra_keeps Mgr HM s old).
  - destruct Hatt as (b & Hb & Ht). unfold op_post. rewrite Hk.
    destruct o as [m|pSrc|psz m|pch n m|pSrc|psz|psz n|psz|pSrc|ch|psz n|psz|i ch|n| | |n|n];
      try discriminate Hk; simpl in *.
    + pose proof (ReleaseBuffer_post s b n Hb Ht) as H.
      by destruct (ReleaseBuffer _ s).
    + pose proof (SetLength_post s b n Hb Ht) as H.
      unfold ReleaseBufferSetLength. by destruct (SetLength _ s).
Qed.

End Invariant3.

Lemma C9_payload_invariant_witness :
  op_post (Op_SetAt 0 "H"%char) st_shared
          (exec (HeapMgr 1000) (Op_SetAt 0 "H"%char) st_shared).
Proof.
  apply (C9_payload_invariant (HeapMgr 1000) (HeapMgr_spec 1000 ltac:(ilia))).
  split; [|split; [exact I|simpl; ilia]].
  exists (buf 1 2 5 "hello"). split; [reflexivity|].
  repeat split; simpl; try ilia; reflexivity.
Defined.

(** * Further properties of the code *)

(** ** Indexing *)

Lemma GetData_live s b :
  mem s !! m_pszData s = Some b -> GetData s = Ok b s.
Proof. intros Hb. mred. by rewrite Hb. Qed.

Section Indexing.

Variable Mgr : IAmvStringMgr.
Hypothesis HM : MgrSpec Mgr.

Lemma write_char_run p b i ch s :
  mem s !! p = Some b ->
  write_char p i ch s =
  Ok tt (mkState (<[p := with_data b (poke (data b) i ch)]> (mem s))
                 (m_pszData s)).
Proof. intros Hb. unfold write_char. mred. by rewrite Hb. Qed.

(** [SetAt] once the writable buffer is known. *)
Lemma SetAt_commit s old i ch p1 s1 b1 :
  mem s !! m_pszData s = Some old -> wf_data old ->
  0 <= i < nDataLength old ->
  PrepareWrite Mgr (nDataLength old) s = Ok p1 s1 ->
  m_pszData s1 = p1 -> mem s1 !! p1 = Some b1 ->
  nDataLength old <= nAllocLength b1 ->
  SetAt Mgr i ch s =
  Ok tt (mkState
           (<[p1 := with_data (with_nDataLength b1 (nDataLength old))
                      (poke (poke (data b1) i ch) (nDataLength old) NUL)]>
              (mem s1)) p1).
Proof.
  intros Hold Hwf Hi HPW Hp1 Hb1 Hcap. pose proof Hwf as [_ [Hd _]].
  unfold SetAt.
  erewrite bind_ok by (by apply GetLength_live).
  destruct (Z.ltb_spec i 0); [lia|].
  destruct (Z.geb_spec i (nDataLength old)); [lia|]. cbn [orb].
  erewrite bind_ok by (by apply GetLength_live).
  erewrite bind_ok
    by (rewrite (GetBuffer0_is_PrepareWrite Mgr s old) by done; exact HPW).
  subst p1.
  erewrite bind_ok by (by apply write_char_run).
  unfold ReleaseBufferSetLength.
  erewrite SetLength_ok; [|simpl; apply lookup_insert_eq|simpl; lia].
  simpl. by rewrite insert_insert_eq.
Qed.

(** X1: [SetAt] is copy on write.  On a shared buffer it forks: the handle
    ends on a buffer that was not live before, with a count of 1, the new
    character at [iChar] and every other character (terminator included) as
    before, while the old buffer keeps its payload and loses exactly one
    reference.  On an unshared buffer the character is written in place. *)
Theorem X1_SetAt_copies_on_write s old i ch :
  mem s !! m_pszData s = Some old -> wf_data old ->
  0 <= i < nDataLength old ->
  (1 < nRefs old -> nDataLength old < INT_MAX ->
   forall q h1,
     Allocate Mgr (Clone Mgr (pStringMgr old)) (nDataLength old) sizeof_XCHAR
              (mem s) = (Some q, h1) ->
     exists s' b',
       SetAt Mgr i ch s = Ok tt s' /\
       m_pszData s' = q /\ mem s !! q = None /\
       mem s' !! q = Some b' /\ nRefs b' = 1 /\
       nDataLength b' = nDataLength old /\
       data b' i = ch /\
       (forall j, 0 <= j <= nDataLength old -> j <> i ->
                  data b' j = data old j) /\
       mem s' !! m_pszData s = Some (with_nRefs old (nRefs old - 1))) /\
  (nRefs old <= 1 ->
   SetAt Mgr i ch s =
   Ok tt (mkState
            (<[m_pszData s :=
                 with_data old (poke (poke (data old) i ch)
                                     (nDataLength old) NUL)]> (mem s))
            (m_pszData s))).
Proof.
  intros Hold Hwf Hi. pose proof Hwf as [[Hr Ha] [Hd Hz]]. split.
  - intros Hsh Hlt q h1 HA.
    destruct (Fork_ok Mgr HM s old (nDataLength old) q h1 Hold ltac:(ilia)
                ltac:(lia) ltac:(lia) HA)
      as (b0 & -> & Hq & Hm0 & Hr0 & Hcap & HF).
    assert (Hne : q <> m_pszData s) by congruence.
    assert (HPW : PrepareWrite Mgr (nDataLength old) s =
                  Ok q (mkState (<[m_pszData s := with_nRefs old (nRefs old - 1)]>
                                   (<[q := forked old b0 (nDataLength old)]> (mem s)))
                                q)).
    { rewrite (PrepareWrite_shared Mgr s old) by (try done; ilia).
      rewrite Z.max_id, HF. reflexivity. }
    eexists _, _. split.
    { eapply (SetAt_commit s old i ch q _ (forked old b0 (nDataLength old)));
        try done.
      - simpl. by rewrite lookup_insert_ne, lookup_insert_eq.
      - simpl. lia. }
    simpl. split; [done|]. split; [done|].
    split; [apply lookup_insert_eq|]. simpl.
    split; [done|]. split; [done|].
    split.
    { unfold poke. destruct (Z.eqb_spec i (nDataLength old)); [lia|].
      by rewrite Z.eqb_refl. }
    split.
    { intros j Hj Hji. unfold poke, blit.
      destruct (Z.eqb_spec j (nDataLength old)) as [->|Hjd]; [done|].
      destruct (Z.eqb_spec j i); [done|].
      destruct (Z.leb_spec 0 j); [|lia].
      destruct (Z.ltb_spec j (0 + (Z.min (nDataLength old) (nDataLength old) + 1)));
        [|lia].
      simpl. f_equal. lia. }
    rewrite lookup_insert_ne by done. apply lookup_insert_eq.
  - intros Hun.
    rewrite (SetAt_commit s old i ch (m_pszData s) s old); try done.
    + apply (PrepareWrite_roomy Mgr s old); try done; lia.
    + lia.
Qed.

(** X2: the bounds of indexing.  [GetAt] and [operator[]] accept the index
    of the terminator and return the NUL there; [SetAt] does not accept it.
    An index out of range is an invalid-argument fault in the unchanged
    state, and reading never changes the state. *)
Theorem X2_index_bounds s old i ch :
  mem s !! m_pszData s = Some old -> wf_data old ->
  (0 <= i <= nDataLength old ->
     GetAt i s = Ok (data old i) s /\ operator_index i s = Ok (data old i) s) /\
  (GetAt (nDataLength old) s = Ok NUL s) /\
  (i < 0 \/ nDataLength old < i ->
     GetAt i s = Throw InvalidArgument s /\
     operator_index i s = Throw InvalidArgument s) /\
  (i < 0 \/ nDataLength old <= i ->
     SetAt Mgr i ch s = Throw InvalidArgument s).
Proof.
  intros Hold [_ [Hd Hz]].
  assert (Hin : forall j, 0 <= j <= nDataLength old ->
            GetAt j s = Ok (data old j) s /\ operator_index j s = Ok (data old j) s).
  { intros j Hj. unfold GetAt, operator_index.
    erewrite !bind_ok by (by apply GetLength_live).
    destruct (Z.ltb_spec j 0); [lia|].
    destruct (Z.gtb_spec j (nDataLength old)); [lia|]. simpl.
    mred. by rewrite Hold. }
  split; [apply Hin|]. split.
  { rewrite <- Hz. apply Hin. lia. }
  split.
  - intros Hout. unfold GetAt, operator_index.
    erewrite !bind_ok by (by apply GetLength_live).
    destruct (Z.ltb_spec i 0); [done|].
    destruct (Z.gtb_spec i (nDataLength old)); [done|lia].
  - intros Hout. unfold SetAt.
    erewrite bind_ok by (by apply GetLength_live).
    destruct (Z.ltb_spec i 0); [done|].
    destruct (Z.geb_spec i (nDataLength old)); [done|lia].
Qed.

(** X3: a character written with [SetAt] is the character [GetAt] then
    returns at that index, and every other index within the string reads
    as before, whether the write forked, or not. *)
Theorem X3_SetAt_then_GetAt s old i ch j p1 s1 :
  mem s !! m_pszData s = Some old -> wf_data old ->
  0 <= i < nDataLength old ->
  0 <= j <= nDataLength old ->
  PrepareWrite Mgr (nDataLength old) s = Ok p1 s1 ->
  exists s',
    SetAt Mgr i ch s = Ok tt s' /\
    GetAt j s' = Ok (if j =? i then ch else data old j) s'.
Proof.
  intros Hold Hwf Hi Hj HPW. pose proof Hwf as [[Hr Ha] [Hd Hz]].
  pose proof (PrepareWrite_spec Mgr HM s old (nDataLength old) Hold Hr Hd Ha
                ltac:(lia)) as HP.
  rewrite HPW in HP.
  destruct HP as (Hp1 & b1 & Hb1 & Hd1 & Hcap & _ & _ & _ & Hdata & _).
  eexists. split.
  { apply (SetAt_commit s old i ch p1 s1 b1); try done. lia. }
  unfold GetAt.
  erewrite bind_ok by (apply GetLength_live; simpl; apply lookup_insert_eq).
  change (nDataLength (with_data (with_nDataLength b1 (nDataLength old)) _))
    with (nDataLength old).
  destruct (Z.ltb_spec j 0); [lia|].
  destruct (Z.gtb_spec j (nDataLength old)); [lia|]. cbn [orb].
  erewrite bind_ok by (apply GetData_live; simpl; apply lookup_insert_eq).
  unfold ret. simpl data. f_equal.
  unfold poke. destruct (Z.eqb_spec j (nDataLength old)) as [->|Hjd].
  - destruct (Z.eqb_spec (nDataLength old) i); [lia|]. done.
  - destruct (Z.eqb_spec j i); [done|]. apply Hdata. lia.
Qed.

End Indexing.

Lemma X1_SetAt_copies_on_write_witness :
  exists s' b',
    SetAt (HeapMgr 1000) 0 "H"%char st_shared = Ok tt s' /\
    mem s' !! 2 = Some b' /\ data b' 0 = "H"%char /\
    mem s' !! 1 = Some (with_nRefs (buf 1 2 5 "hello") (2 - 1)).
Proof.
  destruct (proj1 (X1_SetAt_copies_on_write (HeapMgr 1000)
              (HeapMgr_spec 1000 ltac:(ilia)) st_shared (buf 1 2 5 "hello")
              0 "H"%char eq_refl
              ltac:(repeat split; simpl; try ilia; reflexivity)
              ltac:(simpl; lia))
              ltac:(simpl; lia) ltac:(simpl; ilia) 2 _ eq_refl)
    as (s' & b' & Hrun & _ & _ & Hb' & _ & _ & Hch & _ & Hold).
  exists s', b'. repeat split; assumption.
Defined.

Lemma X2_index_bounds_witness :
  GetAt 5 st_hello = Ok NUL st_hello /\
  SetAt (HeapMgr 1000) 5 "!"%char st_hello = Throw InvalidArgument st_hello.
Proof.
  pose proof (X2_index_bounds (HeapMgr 1000) st_hello (buf 1 1 8 "hello") 5 "!"%char
                eq_refl ltac:(repeat split; simpl; try ilia; reflexivity))
    as (_ & Hget & _ & Hset).
  split; [exact Hget|]. apply Hset. simpl. lia.
Defined.

Lemma X3_SetAt_then_GetAt_witness :
  exists s',
    SetAt (HeapMgr 1000) 0 "H"%char st_shared = Ok tt s' /\
    GetAt 1 s' = Ok "e"%char s'.
Proof.
  exact (X3_SetAt_then_GetAt (HeapMgr 1000) (HeapMgr_spec 1000 ltac:(ilia))
           st_shared (buf 1 2 5 "hello") 0 "H"%char 1 _ _ eq_refl
           ltac:(repeat split; simpl; try ilia; reflexivity)
           ltac:(simpl; lia) ltac:(simpl; lia) eq_refl).
Defined.

(** ** Truncation and compaction *)

Section Shrinking.

Variable Mgr : IAmvStringMgr.
Hypothesis HM : MgrSpec Mgr.

(** X4: [Truncate] rejects a negative length with an invalid-argument
    fault in the unchanged state; otherwise it commits the new length in
    the buffer [PrepareWrite] returns, keeps the characters before it and
    terminates there; on an unshared buffer with room it works in place,
    with no call to the manager. *)
Theorem X4_Truncate_keeps_prefix s old n :
  mem s !! m_pszData s = Some old -> wf_data old -> is_int n ->
  (n < 0 -> Truncate Mgr n s = Throw InvalidArgument s) /\
  (0 <= n -> forall p1 s1,
     PrepareWrite Mgr n s = Ok p1 s1 ->
     exists s' b',
       Truncate Mgr n s = Ok tt s' /\ m_pszData s' = p1 /\
       mem s' !! p1 = Some b' /\
       nDataLength b' = n /\ data b' n = NUL /\
       forall j, 0 <= j < Z.min n (nDataLength old) -> data b' j = data old j) /\
  (0 <= n <= nAllocLength old -> nRefs old <= 1 ->
     Truncate Mgr n s =
     Ok tt (mkState (<[m_pszData s :=
                         with_data (with_nDataLength old n)
                                   (poke (data old) n NUL)]> (mem s))
                    (m_pszData s))).
Proof.
  intros Hold Hwf Hn. pose proof Hwf as [[Hr Ha] [Hd Hz]].
  unfold Truncate, GetBuffer, ReleaseBufferSetLength. split; [|split].
  - intros Hneg. apply bind_throw. unfold PrepareWrite.
    destruct (Z.ltb_spec n 0); [done|lia].
  - intros Hpos p1 s1 HPW.
    pose proof (PrepareWrite_spec Mgr HM s old n Hold Hr Hd Ha ltac:(ilia)) as HP.
    rewrite HPW in HP.
    destruct HP as (Hp1 & b1 & Hb1 & Hd1 & Hcap & _ & _ & _ & Hdata & _).
    subst p1. erewrite bind_ok by exact HPW.
    erewrite SetLength_ok by (try done; lia).
    eexists _, _. split; [reflexivity|]. simpl. split; [done|].
    split; [apply lookup_insert_eq|]. simpl. split; [done|].
    split; [unfold poke; by rewrite Z.eqb_refl|].
    intros j Hj. unfold poke. destruct (Z.eqb_spec j n); [lia|].
    apply Hdata. lia.
  - intros Hroom Hun.
    erewrite bind_ok by (apply (PrepareWrite_roomy Mgr s old); try done; lia).
    by apply SetLength_ok.
Qed.

(** X5: [FreeExtra] always returns, and the string is what it was: the
    same length and the same characters, terminator included.  On a locked
    or already tight buffer the state is untouched; otherwise, when the
    manager provides a buffer for exactly the current length, the handle
    moves to that buffer, which was not live before and has a count
    of 1. *)
Theorem X5_FreeExtra_keeps_value s old :
  mem s !! m_pszData s = Some old -> wf_data old ->
  exists s' b',
    FreeExtra Mgr s = Ok tt s' /\
    mem s' !! m_pszData s' = Some b' /\
    nDataLength b' = nDataLength old /\
    nDataLength b' <= nAllocLength b' /\
    (forall j, 0 <= j <= nDataLength old -> data b' j = data old j) /\
    (nRefs old < 0 \/ nAllocLength old = nDataLength old -> s' = s) /\
    (0 <= nRefs old -> nAllocLength old <> nDataLength old ->
     forall q h1,
       Allocate Mgr (pStringMgr old) (nDataLength old) sizeof_XCHAR (mem s)
         = (Some q, h1) ->
       m_pszData s' = q /\ mem s !! q = None /\ nRefs b' = 1).
Proof.
  intros Hold Hwf. pose proof Hwf as [[Hr Ha] [Hd Hz]].
  unfold FreeExtra. mred. rewrite Hold. simpl.
  destruct (Z.eqb_spec (nAllocLength old) (nDataLength old)) as [Heq|Hneq].
  { exists s, old. repeat split; try done; lia. }
  unfold IsLocked. destruct (Z.ltb_spec (nRefs old) 0) as [Hl|Hl]; simpl.
  { exists s, old. repeat split; try done; lia. }
  unfold mgr_Allocate.
  destruct (Allocate Mgr (pStringMgr old) (nDataLength old) sizeof_XCHAR (mem s))
    as [[q|] h1] eqn:HA; simpl.
  - destruct (Allocate_ok _ HM _ _ _ _ _ _ HA) as (Hq & b0 & -> & Hm0 & Hr0 & Hcap).
    assert (Hne : q <> m_pszData s) by congruence.
    destruct (memcpy_spec q 0 (InBuf (m_pszData s) 0) (nDataLength old)
                (data old) b0
                (mkState (<[q := b0]> (mem s)) (m_pszData s))
                ltac:(lia) ltac:(simpl; apply lookup_insert_eq)
                ltac:(right; simpl; rewrite lookup_insert_ne by done;
                      by rewrite Hold))
      as (c & Hrun & (Hmc & Hdc & Hac & Hrc) & Hdata).
    unfold CopyChars. rewrite Hrun. simpl.
    erewrite Release_run
      by (simpl; rewrite !lookup_insert_ne by done; exact Hold).
    simpl.
    set (h3 := if to_int (nRefs old - 1) <=? 0 then _ else _).
    assert (Hc3 : h3 !! q = Some c).
    { subst h3. destruct (to_int (nRefs old - 1) <=? 0).
      - rewrite (Free_other _ HM) by done.
        by rewrite lookup_insert_ne, lookup_insert_eq.
      - by rewrite lookup_insert_ne, lookup_insert_eq. }
    rewrite (SetLength_ok (mkState h3 q) c (nDataLength old) Hc3 ltac:(lia)).
    eexists _, _. split; [reflexivity|]. simpl.
    split; [apply lookup_insert_eq|]. simpl. split; [done|]. split; [lia|].
    split.
    { intros j Hj. unfold poke.
      destruct (Z.eqb_spec j (nDataLength old)) as [->|Hjd]; [done|].
      rewrite Hdata. unfold blit.
      destruct (Z.leb_spec 0 j); [|lia].
      destruct (Z.ltb_spec j (0 + nDataLength old)); [|lia].
      simpl. f_equal. lia. }
    split; [intros [?|?]; lia|].
    intros _ _ q' h1' [= <- <-]. split; [done|]. split; [done|]. congruence.
  - rewrite (Allocate_fail _ HM _ _ _ _ _ HA). rewrite state_eta.
    rewrite (SetLength_ok s old (nDataLength old) Hold ltac:(lia)).
    eexists _, _. split; [reflexivity|]. simpl.
    split; [apply lookup_insert_eq|]. simpl. split; [done|]. split; [lia|].
    split.
    { intros j Hj. unfold poke.
      destruct (Z.eqb_spec j (nDataLength old)) as [->|Hjd]; done. }
    split; [intros [?|?]; lia|].
    intros _ _ q' h1' [=].
Qed.

End Shrinking.

Lemma X4_Truncate_keeps_prefix_witness :
  Truncate (HeapMgr 1000) 2 st_hello =
  Ok tt (mkState (<[1 := with_data (with_nDataLength (buf 1 1 8 "hello") 2)
                          (poke (payload "hello") 2 NUL)]> (mem st_hello)) 1).
Proof.
  exact (proj2 (proj2 (X4_Truncate_keeps_prefix (HeapMgr 1000)
           (HeapMgr_spec 1000 ltac:(ilia)) st_hello (buf 1 1 8 "hello") 2
           eq_refl ltac:(repeat split; simpl; try ilia; reflexivity)
           ltac:(ilia)))
           ltac:(simpl; lia) ltac:(simpl; lia)).
Defined.

Lemma X5_FreeExtra_keeps_value_witness :
  exists s' b',
    FreeExtra (HeapMgr 1000) st_loose = Ok tt s' /\
    mem s' !! m_pszData s' = Some b' /\ nDataLength b' = 2 /\
    m_pszData s' = 2.
Proof.
  destruct (X5_FreeExtra_keeps_value (HeapMgr 1000)
              (HeapMgr_spec 1000 ltac:(ilia)) st_loose (buf 1 1 10 "hi")
              eq_refl ltac:(repeat split; simpl; try ilia; reflexivity))
    as (s' & b' & Hrun & Hb' & Hd & _ & _ & _ & Hnew).
  destruct (Hnew ltac:(simpl; lia) ltac:(simpl; lia) 2 _ eq_refl) as (Hp & _).
  exists s', b'. repeat split; assumption.
Defined.

(** ** Reference counts and locks *)








Section Sharing.

Variable Mgr : IAmvStringMgr.
Hypothesis HM : MgrSpec Mgr.

(** X6: a copy shares and a destruction gives the share back: constructing
    a handle from a handle whose buffer is unlocked and whose manager
    clones to itself, then destroying it, leaves memory exactly as it was;
    in between, the one buffer carries one more reference. *)
Theorem X6_copy_then_destroy pSrc src s :
  mem s !! pSrc = Some src ->
  0 < nRefs src < INT_MAX ->
  Clone Mgr (pStringMgr src) = pStringMgr src ->
  ctor_copy Mgr pSrc s =
    Ok tt (mkState (<[pSrc := with_nRefs src (nRefs src + 1)]> (mem s)) pSrc) /\
  (ctor_copy Mgr pSrc;; dtor Mgr) s = Ok tt (mkState (mem s) pSrc).
Proof.
  intros Hsrc Hr Hc.
  assert (HC : ctor_copy Mgr pSrc s =
            Ok tt (mkState (<[pSrc := with_nRefs src (nRefs src + 1)]> (mem s))
                           pSrc)).
  { unfold ctor_copy.
    erewrite bind_ok by (apply (CloneData_share Mgr pSrc src); [done|lia|done]).
    rewrite to_int_id by ilia. reflexivity. }
  split; [exact HC|].
  erewrite bind_ok by exact HC. unfold dtor.
  erewrite bind_ok by (unfold get_this; reflexivity).
  erewrite Release_run by (simpl; apply lookup_insert_eq). simpl.
  replace (nRefs src + 1 - 1) with (nRefs src) by lia.
  rewrite to_int_id by ilia.
  destruct (Z.leb_spec (nRefs src) 0); [lia|].
  rewrite insert_insert_eq, with_nRefs_twice, with_nRefs_same.
  by rewrite insert_id.
Qed.


End Sharing.

Lemma X6_copy_then_destroy_witness :
  (ctor_copy (HeapMgr 1000) 1;; dtor (HeapMgr 1000)) st_hello
  = Ok tt (mkState (mem st_hello) 1).
Proof.
  exact (proj2 (X6_copy_then_destroy (HeapMgr 1000) 1 (buf 1 1 8 "hello")
                  st_hello eq_refl ltac:(simpl; ilia) eq_refl)).
Defined.

(** ** Preparing, appending and replacing *)

Lemma strnlen_full f n :
  0 <= n -> (forall j, 0 <= j < n -> f j <> NUL) -> strnlen f n = n.
Proof.
  intros Hn Hno. pose proof (strnlen_bounds f n Hn) as Hb.
  destruct (decide (strnlen f n < n)) as [Hlt|]; [|lia].
  pose proof (strnlen_stop f n Hn Hlt) as Hz.
  exfalso. apply (Hno (strnlen f n)); [lia|done].
Qed.

Section Writers.

Variable Mgr : IAmvStringMgr.
Hypothesis HM : MgrSpec Mgr.

(** X9: once [PrepareWrite n] has returned, a request for [m <= n] costs
    nothing: no fork, no reallocation, the same pointer and the same
    state; so [Preallocate] makes later buffer requests within its length
    free. *)
Theorem X9_prepared_buffer_is_reused s old n m p1 s1 :
  mem s !! m_pszData s = Some old -> wf_data old ->
  0 <= m <= n -> n <= INT_MAX ->
  PrepareWrite Mgr n s = Ok p1 s1 ->
  PrepareWrite Mgr m s1 = Ok p1 s1 /\
  GetBuffer0 Mgr s1 = Ok p1 s1 /\
  (Preallocate Mgr n;; GetBuffer Mgr m) s = Ok p1 s1.
Proof.
  intros Hold Hwf Hm Hn HPW. pose proof Hwf as [[Hr Ha] [Hd Hz]].
  pose proof (PrepareWrite_spec Mgr HM s old n Hold Hr Hd Ha ltac:(lia)) as HP.
  rewrite HPW in HP.
  destruct HP as (Hp1 & b1 & Hb1 & Hd1 & Hcap & Hun & Hr1 & _ & Hdata & _).
  subst p1.
  assert (Hwf1 : wf_data b1).
  { split; [split; [done|lia]|]. split; [lia|].
    rewrite Hd1, Hdata by lia. done. }
  assert (H1 : PrepareWrite Mgr m s1 = Ok (m_pszData s1) s1)
    by (apply (PrepareWrite_roomy Mgr s1 b1); try done; lia).
  split; [exact H1|]. split.
  - rewrite (GetBuffer0_is_PrepareWrite Mgr s1 b1) by done.
    apply (PrepareWrite_roomy Mgr s1 b1); try done; lia.
  - unfold Preallocate, GetBuffer.
    erewrite bind_ok by (erewrite bind_ok by exact HPW; reflexivity).
    exact H1.
Qed.

(** X10: on an unshared buffer [PrepareWrite] never gives capacity back
    and never changes the lock state or the manager: the buffer it returns
    has at least the old capacity, the same count and the same manager. *)
Theorem X10_unshared_capacity_never_shrinks s old n p1 s1 :
  mem s !! m_pszData s = Some old -> wf_data old ->
  nRefs old <= 1 ->
  0 <= n <= INT_MAX ->
  PrepareWrite Mgr n s = Ok p1 s1 ->
  exists b1,
    mem s1 !! p1 = Some b1 /\ m_pszData s1 = p1 /\
    nAllocLength old <= nAllocLength b1 /\ n <= nAllocLength b1 /\
    nRefs b1 = nRefs old /\ pStringMgr b1 = pStringMgr old /\
    nDataLength b1 = nDataLength old.
Proof.
  intros Hold Hwf Hun Hn HPW. pose proof Hwf as [[Hr Ha] [Hd Hz]].
  destruct (decide (n <= nAllocLength old)) as [Hroom|Hshort].
  - rewrite (PrepareWrite_roomy Mgr s old) in HPW by (try done; lia).
    injection HPW as <- <-. exists old. repeat split; try done; lia.
  - pose proof (PrepareWrite_spec Mgr HM s old n Hold Hr Hd Ha Hn) as HP.
    rewrite HPW in HP.
    destruct HP as (Hp1 & b1 & Hb1 & Hd1 & Hcap & _ & _ & Hsame & _).
    destruct (Hsame Hun) as [Hr1 Hm1].
    exists b1. repeat split; try done; lia.
Qed.

(** [AppendChar] once the writable buffer is known. *)
Lemma AppendChar_commit s old ch p1 s1 b1 :
  mem s !! m_pszData s = Some old ->
  0 <= nDataLength old < INT_MAX ->
  PrepareWrite Mgr (nDataLength old + 1) s = Ok p1 s1 ->
  m_pszData s1 = p1 -> mem s1 !! p1 = Some b1 ->
  nDataLength old + 1 <= nAllocLength b1 ->
  AppendChar Mgr ch s =
  Ok tt (mkState
           (<[p1 := with_data (with_nDataLength b1 (nDataLength old + 1))
                      (poke (poke (data b1) (nDataLength old) ch)
                            (nDataLength old + 1) NUL)]> (mem s1)) p1).
Proof.
  intros Hold Hd HPW Hp1 Hb1 Hcap. unfold AppendChar.
  erewrite bind_ok by (by apply GetLength_live). cbv zeta.
  rewrite (to_uint_id (nDataLength old)) by lia.
  rewrite to_uint_id by lia. rewrite to_int_id by ilia.
  unfold GetBuffer, ReleaseBufferSetLength.
  erewrite bind_ok by exact HPW. subst p1.
  erewrite bind_ok by (by apply write_char_run).
  erewrite SetLength_ok; [|simpl; apply lookup_insert_eq|simpl; lia].
  simpl. by rewrite insert_insert_eq.
Qed.

(** X11: [AppendChar] adds exactly one unit, whatever it is (a NUL
    included, which [Append] would not add): the length grows by 1, the
    unit sits at the old length, the terminator follows, and the old
    characters stay.  At the maximum length the call is rejected with an
    invalid-argument fault in the unchanged state. *)
Theorem X11_AppendChar_adds_one_unit s old ch :
  mem s !! m_pszData s = Some old -> wf_data old ->
  (nDataLength old < INT_MAX -> forall p1 s1,
     PrepareWrite Mgr (nDataLength old + 1) s = Ok p1 s1 ->
     exists s' b',
       AppendChar Mgr ch s = Ok tt s' /\ m_pszData s' = p1 /\
       mem s' !! p1 = Some b' /\
       nDataLength b' = nDataLength old + 1 /\
       data b' (nDataLength old) = ch /\
       data b' (nDataLength old + 1) = NUL /\
       forall j, 0 <= j < nDataLength old -> data b' j = data old j) /\
  (nDataLength old = INT_MAX ->
     AppendChar Mgr ch s = Throw InvalidArgument s).
Proof.
  intros Hold Hwf. pose proof Hwf as [[Hr Ha] [Hd Hz]]. split.
  - intros Hlt p1 s1 HPW.
    pose proof (PrepareWrite_spec Mgr HM s old (nDataLength old + 1) Hold Hr Hd
                  Ha ltac:(lia)) as HP.
    rewrite HPW in HP.
    destruct HP as (Hp1 & b1 & Hb1 & Hd1 & Hcap & _ & _ & _ & Hdata & _).
    eexists _, _. split.
    { apply (AppendChar_commit s old ch p1 s1 b1); try done; lia. }
    simpl. split; [done|]. split; [apply lookup_insert_eq|]. simpl.
    split; [done|]. unfold poke. split.
    { destruct (Z.eqb_spec (nDataLength old) (nDataLength old + 1)); [lia|].
      by rewrite Z.eqb_refl. }
    split; [by rewrite Z.eqb_refl|].
    intros j Hj.
    destruct (Z.eqb_spec j (nDataLength old + 1)); [lia|].
    destruct (Z.eqb_spec j (nDataLength old)); [lia|]. apply Hdata. lia.
  - intros Hmax. unfold AppendChar.
    erewrite bind_ok by (by apply GetLength_live). cbv zeta. rewrite Hmax.
    apply bind_throw. reflexivity.
Qed.

(** X12: appending a string to itself.  The length appended is the length
    up to the string's first NUL, so a string with no NUL among its
    characters is doubled, whether the buffer had to be forked or
    reallocated for it or not. *)
Theorem X12_self_append_doubles s old p1 s1 :
  mem s !! m_pszData s = Some old -> wf_data old ->
  (forall j, 0 <= j < nDataLength old -> data old j <> NUL) ->
  nDataLength old + nDataLength old <= INT_MAX ->
  PrepareWrite Mgr (nDataLength old + nDataLength old) s = Ok p1 s1 ->
  exists s' b',
    Append_str Mgr (m_pszData s) s = Ok tt s' /\ m_pszData s' = p1 /\
    mem s' !! p1 = Some b' /\
    nDataLength b' = nDataLength old + nDataLength old /\
    chars b' = chars old ++ chars old /\
    data b' (nDataLength old + nDataLength old) = NUL.
Proof.
  intros Hold Hwf Hno Hsum HPW. pose proof Hwf as [[Hr Ha] [Hd Hz]].
  set (f := fun i => data old (0 + i)).
  assert (Hf : deref (mem s) (InBuf (m_pszData s) 0) = Some f)
    by (simpl; by rewrite Hold).
  assert (Hk : strnlen f (nDataLength old) = nDataLength old)
    by (apply strnlen_full; [lia|intros j Hj; by apply Hno]).
  pose proof (PrepareWrite_spec Mgr HM s old _ Hold Hr Hd Ha
                (conj (Z.add_nonneg_nonneg _ _ (proj1 Hd) (proj1 Hd)) Hsum)) as HP.
  rewrite HPW in HP.
  destruct (steady_after s old _ p1 s1 (InBuf (m_pszData s) 0) f
              (nDataLength old) Hold ltac:(lia) Hz HP
              ltac:(right; split; [done|lia]) Hf)
    as (f1 & Hf1 & Hagree). rewrite Hk in Hagree.
  destruct (Append_commit Mgr HM s old (InBuf (m_pszData s) 0) (nDataLength old)
              (nDataLength old) p1 s1 f1 Hold Hwf ltac:(lia)
              ltac:(rewrite <- Hk at 2; apply StringLengthN_read; [done|lia])
              ltac:(lia) Hsum HPW (or_intror Hf1))
    as (b1 & b' & Hb1 & Hrun & _ & _ & _ & Hd' & Hdata' & Hdata).
  eexists _, b'. split.
  { unfold Append_str. erewrite bind_ok by (by apply on_GetLength). exact Hrun. }
  simpl. split; [done|]. split; [apply lookup_insert_eq|]. split; [done|].
  split.
  - apply chars_app; try lia.
    + intros j Hj. rewrite Hdata'. unfold poke, blit.
      destruct (Z.eqb_spec j (nDataLength old + nDataLength old)); [lia|].
      destruct (Z.leb_spec (nDataLength old) j); [lia|]. simpl.
      apply Hdata. lia.
    + intros j Hj. rewrite Hdata'. unfold poke, blit.
      destruct (Z.eqb_spec (nDataLength old + j)
                           (nDataLength old + nDataLength old)); [lia|].
      destruct (Z.leb_spec (nDataLength old) (nDataLength old + j)); [|lia].
      destruct (Z.ltb_spec (nDataLength old + j)
                           (nDataLength old + nDataLength old)); [|lia].
      simpl. replace (nDataLength old + j - nDataLength old) with j by lia.
      rewrite Hagree by lia. reflexivity.
  - rewrite Hdata'. unfold poke. by rewrite Z.eqb_refl.
Qed.

(** [SetString] once the writable buffer is known and the source can be
    read: [nLength] units are copied, with no look at what they are. *)
Lemma SetString_commit s old src n p1 s1 f :
  mem s !! m_pszData s = Some old -> wf_data old ->
  0 < n <= INT_MAX -> src <> NULL ->
  PrepareWrite Mgr n s = Ok p1 s1 ->
  deref (mem s1)
        (match ptr_diff src (m_pszData s) with
         | Some o => if o <=? nDataLength old then InBuf p1 o else src
         | None => src
         end) = Some f ->
  exists b1 b',
    mem s1 !! p1 = Some b1 /\
    SetString Mgr src n s = Ok tt (mkState (<[p1 := b']> (mem s1)) p1) /\
    nDataLength b' = n /\ nRefs b' = nRefs b1 /\
    (forall i, data b' i = poke (blit (data b1) 0 f n) n NUL i) /\
    (forall i, 0 <= i <= nDataLength old -> data b1 i = data old i).
Proof.
  intros Hold Hwf Hn Hsrc HPW Hf. pose proof Hwf as [[Hr Ha] [Hd Hz]].
  pose proof (PrepareWrite_spec Mgr HM s old n Hold Hr Hd Ha ltac:(lia)) as HP.
  rewrite HPW in HP.
  destruct HP as (Hp1 & b1 & Hb1 & Hd1 & Hcap & _ & _ & _ & Hdata & _).
  rewrite (SetString_run Mgr s old) by (try done; lia).
  erewrite bind_ok by exact HPW. subst p1.
  erewrite bind_ok by (by apply GetAllocLength_live).
  set (src' := match ptr_diff src (m_pszData s) with
               | Some o => if o <=? nDataLength old
                           then InBuf (m_pszData s1) o else src
               | None => src
               end) in *.
  assert (Hcopy : SetString_copy src (m_pszData s) (nDataLength old)
                    (m_pszData s1) (nAllocLength b1) n
                  = CopyChars (m_pszData s1) 0 n src' n).
  { unfold SetString_copy, src'. destruct (ptr_diff src (m_pszData s)) as [o|];
      [|reflexivity].
    destruct (o <=? nDataLength old); [|reflexivity].
    unfold CopyCharsOverlapped.
    destruct (Z.gtb_spec n (nAllocLength b1)); [lia|reflexivity]. }
  rewrite Hcopy.
  destruct (write_tail s1 b1 0 n src' f Hb1 ltac:(lia) ltac:(lia) ltac:(lia)
              (or_intror Hf))
    as (b' & Hrun & _ & _ & Hr' & Hd' & Hdata').
  exists b1, b'. repeat split; done.
Qed.

(** X13: [SetString] from a caller's array takes the length as given: the
    string ends with exactly [nLength] units of the source, NULs among
    them included, then the terminator.  A null source with a length other
    than 0, and a negative length, are invalid-argument faults in the
    unchanged state. *)
Theorem X13_SetString_takes_length_as_given s old cs n :
  mem s !! m_pszData s = Some old -> wf_data old ->
  n <> 0 -> is_int n ->
  SetString Mgr NULL n s = Throw InvalidArgument s /\
  (n < 0 -> SetString Mgr (External cs) n s = Throw InvalidArgument s) /\
  (0 < n -> forall p1 s1,
     PrepareWrite Mgr n s = Ok p1 s1 ->
     exists s' b',
       SetString Mgr (External cs) n s = Ok tt s' /\ m_pszData s' = p1 /\
       mem s' !! p1 = Some b' /\
       nDataLength b' = n /\ data b' n = NUL /\
       forall j, 0 <= j < n -> data b' j = ext_mem cs j).
Proof.
  intros Hold Hwf Hn0 Hn. pose proof Hwf as [[Hr Ha] [Hd Hz]].
  split; [|split].
  - unfold SetString. destruct (Z.eqb_spec n 0); [done|]. reflexivity.
  - intros Hneg. rewrite (SetString_run Mgr s old) by (try done; lia).
    apply bind_throw. unfold PrepareWrite.
    destruct (Z.ltb_spec n 0); [done|lia].
  - intros Hpos p1 s1 HPW.
    destruct (SetString_commit s old (External cs) n p1 s1 (ext_mem cs)
                Hold Hwf ltac:(ilia) ltac:(done) HPW eq_refl)
      as (b1 & b' & Hb1 & Hrun & Hd' & _ & Hdata' & _).
    eexists _, b'. split; [exact Hrun|]. simpl.
    split; [done|]. split; [apply lookup_insert_eq|]. split; [done|].
    split; [rewrite Hdata'; unfold poke; by rewrite Z.eqb_refl|].
    intros j Hj. rewrite Hdata'. unfold poke, blit.
    destruct (Z.eqb_spec j n); [lia|].
    destruct (Z.leb_spec 0 j); [|lia]. destruct (Z.ltb_spec j (0 + n)); [|lia].
    simpl. f_equal. lia.
Qed.

(** X14: a string set to a part of itself.  With the source [off] units
    into the handle's own characters and the span inside them, [SetString]
    ends with exactly that span, although the copy runs inside one buffer
    and that buffer may have been forked or reallocated first. *)
Theorem X14_SetString_from_own_span s old off n p1 s1 :
  mem s !! m_pszData s = Some old -> wf_data old ->
  0 <= off -> 0 < n -> off + n <= nDataLength old ->
  PrepareWrite Mgr n s = Ok p1 s1 ->
  exists s' b',
    SetString Mgr (InBuf (m_pszData s) off) n s = Ok tt s' /\
    m_pszData s' = p1 /\ mem s' !! p1 = Some b' /\
    nDataLength b' = n /\ data b' n = NUL /\
    forall j, 0 <= j < n -> data b' j = data old (off + j).
Proof.
  intros Hold Hwf Hoff Hn Hspan HPW. pose proof Hwf as [[Hr Ha] [Hd Hz]].
  pose proof (PrepareWrite_spec Mgr HM s old n Hold Hr Hd Ha ltac:(lia)) as HP.
  rewrite HPW in HP.
  destruct HP as (Hp1 & b1 & Hb1 & _).
  destruct (SetString_commit s old (InBuf (m_pszData s) off) n p1 s1
              (fun i => data b1 (off + i)) Hold Hwf ltac:(lia) ltac:(done) HPW)
    as (b1' & b' & Hb1' & Hrun & Hd' & _ & Hdata' & Hdata).
  { unfold ptr_diff. rewrite Z.eqb_refl, to_uintptr_id by lia.
    destruct (Z.leb_spec off (nDataLength old)); [|lia].
    simpl. by rewrite Hb1. }
  rewrite Hb1 in Hb1'. injection Hb1' as <-.
  eexists _, b'. split; [exact Hrun|]. simpl.
  split; [done|]. split; [apply lookup_insert_eq|]. split; [done|].
  split; [rewrite Hdata'; unfold poke; by rewrite Z.eqb_refl|].
  intros j Hj. rewrite Hdata'. unfold poke, blit.
  destruct (Z.eqb_spec j n); [lia|].
  destruct (Z.leb_spec 0 j); [|lia]. destruct (Z.ltb_spec j (0 + n)); [|lia].
  simpl. rewrite Z.sub_0_r. apply Hdata. lia.
Qed.

End Writers.

Lemma X9_prepared_buffer_is_reused_witness :
  exists p1 s1,
    (Preallocate (HeapMgr 1000) 10;; GetBuffer (HeapMgr 1000) 5) st_abc
    = Ok p1 s1 /\
    PrepareWrite (HeapMgr 1000) 5 s1 = Ok p1 s1.
Proof.
  eexists _, _.
  pose proof (X9_prepared_buffer_is_reused (HeapMgr 1000)
                (HeapMgr_spec 1000 ltac:(ilia)) st_abc (buf 1 1 4 "abc")
                10 5 _ _ eq_refl
                ltac:(repeat split; simpl; try ilia; reflexivity)
                ltac:(lia) ltac:(ilia) eq_refl) as (H1 & _ & H3).
  split; [exact H3|exact H1].
Defined.

Lemma X10_unshared_capacity_never_shrinks_witness :
  exists p1 s1 b1,
    PrepareWrite (HeapMgr 1000) 20 st_locked = Ok p1 s1 /\
    mem s1 !! p1 = Some b1 /\ 8 <= nAllocLength b1 /\ nRefs b1 = -1.
Proof.
  destruct (PrepareWrite (HeapMgr 1000) 20 st_locked) as [p1 s1|e s1] eqn:HPW;
    [|vm_compute in HPW; discriminate].
  destruct (X10_unshared_capacity_never_shrinks (HeapMgr 1000)
              (HeapMgr_spec 1000 ltac:(ilia)) st_locked (buf 1 (-1) 8 "hello")
              20 p1 s1 eq_refl
              ltac:(repeat split; simpl; try ilia; reflexivity)
              ltac:(simpl; lia) ltac:(ilia) HPW)
    as (b1 & Hb1 & _ & Hcap & _ & Hr & _).
  exists p1, s1, b1. split; [reflexivity|]. split; [exact Hb1|].
  split; [exact Hcap|exact Hr].
Defined.

Lemma X11_AppendChar_adds_one_unit_witness :
  exists s' b',
    AppendChar (HeapMgr 1000) "d"%char st_abc = Ok tt s' /\
    mem s' !! 1 = Some b' /\ nDataLength b' = 4 /\ data b' 3 = "d"%char.
Proof.
  destruct (proj1 (X11_AppendChar_adds_one_unit (HeapMgr 1000)
              (HeapMgr_spec 1000 ltac:(ilia)) st_abc (buf 1 1 4 "abc")
              "d"%char eq_refl
              ltac:(repeat split; simpl; try ilia; reflexivity))
              ltac:(simpl; ilia) 1 _ eq_refl)
    as (s' & b' & Hrun & _ & Hb' & Hd & Hch & _).
  exists s', b'. repeat split; assumption.
Defined.

Lemma X12_self_append_doubles_witness :
  exists s' b',
    Append_str (HeapMgr 1000) 1 st_abc = Ok tt s' /\
    mem s' !! m_pszData s' = Some b' /\
    chars b' = ["a"; "b"; "c"; "a"; "b"; "c"]%char.
Proof.
  destruct (X12_self_append_doubles (HeapMgr 1000)
              (HeapMgr_spec 1000 ltac:(ilia)) st_abc (buf 1 1 4 "abc") _ _
              eq_refl ltac:(repeat split; simpl; try ilia; reflexivity)
              ltac:(intros j Hj; simpl in Hj;
                    assert (j = 0 \/ j = 1 \/ j = 2) as [->|[->| ->]] by lia;
                    discriminate)
              ltac:(simpl; ilia) eq_refl)
    as (s' & b' & Hrun & Hp & Hb' & _ & Hchars & _).
  exists s', b'. rewrite Hp. repeat split; assumption.
Defined.

Lemma X13_SetString_takes_length_as_given_witness :
  exists s' b',
    SetString (HeapMgr 1000) (External ["x"; NUL; "z"]%char) 3 st_hello
    = Ok tt s' /\
    mem s' !! 1 = Some b' /\ nDataLength b' = 3 /\ data b' 1 = NUL.
Proof.
  destruct (proj2 (proj2 (X13_SetString_takes_length_as_given (HeapMgr 1000)
              (HeapMgr_spec 1000 ltac:(ilia)) st_hello (buf 1 1 8 "hello")
              ["x"; NUL; "z"]%char 3 eq_refl
              ltac:(repeat split; simpl; try ilia; reflexivity)
              ltac:(lia) ltac:(ilia)))
              ltac:(lia) 1 _ eq_refl)
    as (s' & b' & Hrun & _ & Hb' & Hd & _ & Hdata).
  exists s', b'. repeat split; try assumption.
  exact (Hdata 1 ltac:(lia)).
Defined.

Lemma X14_SetString_from_own_span_witness :
  exists s' b',
    SetString (HeapMgr 1000) (InBuf 1 1) 3 st_shared = Ok tt s' /\
    m_pszData s' = 2 /\ mem s' !! 2 = Some b' /\
    nDataLength b' = 3 /\ data b' 0 = "e"%char.
Proof.
  destruct (X14_SetString_from_own_span (HeapMgr 1000)
              (HeapMgr_spec 1000 ltac:(ilia)) st_shared (buf 1 2 5 "hello")
              1 3 2 _ eq_refl
              ltac:(repeat split; simpl; try ilia; reflexivity)
              ltac:(lia) ltac:(lia) ltac:(simpl; lia) eq_refl)
    as (s' & b' & Hrun & Hp & Hb' & Hd & _ & Hdata).
  exists s', b'. repeat split; try assumption.
  exact (Hdata 0 ltac:(lia)).
Defined.

(** ** Construction from characters, and closing a buffer *)

(** The tail shared by the two constructors from characters: attach the
    new buffer, set its length, copy the characters. *)
Lemma ctor_fill (h : heap) q b0 src cs n this :
  h !! q = Some b0 -> 0 <= n <= nAllocLength b0 ->
  n = 0 \/ src = External cs ->
  exists b',
    (Attach q;; SetLength n;; CopyChars q 0 n src n) (mkState h this)
    = Ok tt (mkState (<[q := b']> h) q) /\
    nRefs b' = nRefs b0 /\ pStringMgr b' = pStringMgr b0 /\
    nAllocLength b' = nAllocLength b0 /\ nDataLength b' = n /\
    data b' n = NUL /\
    forall j, 0 <= j < n -> data b' j = ext_mem cs j.
Proof.
  intros Hq Hn Hsrc.
  unfold Attach at 1. unfold bind at 1. cbv beta iota.
  erewrite bind_ok by (apply (SetLength_ok (mkState h q) b0 n); done).
  unfold CopyChars, memcpy. simpl.
  destruct (Z.eqb_spec n 0) as [->|Hn0].
  - eexists. split; [reflexivity|]. simpl. repeat split.
    intros j Hj. lia.
  - destruct Hsrc as [?| ->]; [done|]. simpl. rewrite lookup_insert_eq.
    destruct (Z.ltb_spec n 0); [lia|].
    rewrite insert_insert_eq. eexists. split; [reflexivity|]. simpl.
    repeat split.
    + unfold blit, poke. destruct (Z.leb_spec 0 n); [|lia].
      destruct (Z.ltb_spec n (0 + n)); [lia|]. simpl. by rewrite Z.eqb_refl.
    + intros j Hj. unfold blit. destruct (Z.leb_spec 0 j); [|lia].
      destruct (Z.ltb_spec j (0 + n)); [|lia]. simpl. f_equal. lia.
Qed.

Section FromCharacters.

Variable Mgr : IAmvStringMgr.
Hypothesis HM : MgrSpec Mgr.

(** X15: the constructor from a character array.  Without a manager it
    fails its check; a null array with a length other than 0 is an
    invalid-argument fault; a failed allocation is an out-of-memory fault;
    all three leave the state as it was.  Otherwise the handle owns a
    buffer that was not live before, in the unique state and with the
    given manager, holding exactly [nLength] units of the array and the
    terminator, and no other buffer is touched. *)
Theorem X15_ctor_from_array s src cs n m :
  src = NULL \/ src = External cs ->
  ctor_pch Mgr src n 0 s = Throw EnsureFailed s /\
  (m <> 0 -> n <> 0 -> ctor_pch Mgr NULL n m s = Throw InvalidArgument s) /\
  (m <> 0 -> (src = NULL -> n = 0) -> forall h1,
     Allocate Mgr m n sizeof_XCHAR (mem s) = (None, h1) ->
     ctor_pch Mgr src n m s = Throw OutOfMemory s) /\
  (m <> 0 -> (src = NULL -> n = 0) -> 0 <= n -> forall q h1,
     Allocate Mgr m n sizeof_XCHAR (mem s) = (Some q, h1) ->
     exists s' b',
       ctor_pch Mgr src n m s = Ok tt s' /\ m_pszData s' = q /\
       mem s !! q = None /\ mem s' !! q = Some b' /\
       nRefs b' = 1 /\ pStringMgr b' = m /\ nDataLength b' = n /\
       n <= nAllocLength b' /\ data b' n = NUL /\
       (forall j, 0 <= j < n -> data b' j = ext_mem cs j) /\
       forall x, x <> q -> mem s' !! x = mem s !! x).
Proof.
  intros Hsrc.
  assert (Hguard : forall m', m' <> 0 -> (src = NULL -> n = 0) ->
            ctor_pch Mgr src n m' s =
            (r <~ mgr_Allocate Mgr m' n sizeof_XCHAR;
             match r with
             | None => ThrowMemoryException
             | Some pData =>
                 Attach pData;; SetLength n;; CopyChars pData 0 n src n
             end) s).
  { intros m' Hm' Hnull. unfold ctor_pch.
    destruct (Z.eqb_spec m' 0); [done|].
    destruct Hsrc as [->| ->]; [|reflexivity].
    rewrite (Hnull eq_refl). reflexivity. }
  split; [reflexivity|]. split; [|split].
  - intros Hm Hn. unfold ctor_pch.
    destruct (Z.eqb_spec m 0); [done|].
    destruct (Z.eqb_spec n 0); [done|]. reflexivity.
  - intros Hm Hnull h1 HA. rewrite Hguard by done.
    unfold bind, mgr_Allocate. rewrite HA.
    rewrite (Allocate_fail Mgr HM _ _ _ _ _ HA).
    unfold ThrowMemoryException, AmvThrow. by rewrite state_eta.
  - intros Hm Hnull Hn q h1 HA. rewrite Hguard by done.
    destruct (Allocate_ok Mgr HM _ _ _ _ _ _ HA)
      as (Hfresh & b0 & -> & Hm0 & Hr0 & Hcap).
    destruct (ctor_fill (<[q := b0]> (mem s)) q b0 src cs n (m_pszData s)
                (lookup_insert_eq _ _ _) ltac:(lia))
      as (b' & Hrun & Hr' & Hm' & Ha' & Hd' & Hz' & Hdata').
    { destruct Hsrc as [->| ->]; [left; by apply Hnull|by right]. }
    exists (mkState (<[q := b']> (<[q := b0]> (mem s))) q), b'.
    split.
    { unfold bind at 1. unfold mgr_Allocate. rewrite HA. exact Hrun. }
    simpl. split; [done|]. split; [done|].
    split; [apply lookup_insert_eq|].
    split; [congruence|]. split; [congruence|]. split; [done|].
    split; [lia|]. split; [done|]. split; [done|].
    intros x Hx. by rewrite !lookup_insert_ne.
Qed.

(** X16: the constructor from a NUL-terminated array takes the characters
    before the array's first NUL: the new string's length is that count,
    its characters are those, none of them is NUL, and it is terminated. *)
Theorem X16_ctor_from_terminated_array s cs m q h1 :
  m <> 0 -> Z.of_nat (length cs) <= INT_MAX ->
  let n := strnlen (ext_mem cs) (Z.of_nat (length cs)) in
  Allocate Mgr m n sizeof_XCHAR (mem s) = (Some q, h1) ->
  exists s' b',
    ctor_psz Mgr (External cs) m s = Ok tt s' /\ m_pszData s' = q /\
    mem s' !! q = Some b' /\ nRefs b' = 1 /\
    nDataLength b' = n /\ 0 <= n <= Z.of_nat (length cs) /\
    data b' n = NUL /\
    forall j, 0 <= j < n -> data b' j = ext_mem cs j /\ data b' j <> NUL.
Proof.
  intros Hm Hlen n HA.
  pose proof (strnlen_bounds (ext_mem cs) (Z.of_nat (length cs))
                ltac:(lia)) as Hb. fold n in Hb.
  destruct (Allocate_ok Mgr HM _ _ _ _ _ _ HA)
    as (Hfresh & b0 & -> & Hm0 & Hr0 & Hcap).
  destruct (ctor_fill (<[q := b0]> (mem s)) q b0 (External cs) cs n
              (m_pszData s) (lookup_insert_eq _ _ _) ltac:(lia)
              (or_intror eq_refl))
    as (b' & Hrun & Hr' & Hm' & Ha' & Hd' & Hz' & Hdata').
  exists (mkState (<[q := b']> (<[q := b0]> (mem s))) q), b'.
  split.
  { unfold ctor_psz. destruct (Z.eqb_spec m 0); [done|].
    unfold bind at 1. unfold StringLength.
    rewrite to_int_id by (fold n; ilia). fold n.
    unfold bind at 1. unfold mgr_Allocate. rewrite HA. exact Hrun. }
  simpl. split; [done|]. split; [apply lookup_insert_eq|].
  split; [congruence|]. split; [done|]. split; [done|]. split; [done|].
  intros j Hj. split; [by apply Hdata'|].
  rewrite Hdata' by done.
  apply (strnlen_before (ext_mem cs) (Z.of_nat (length cs))). exact Hj.
Qed.

End FromCharacters.

(** X17: [ReleaseBuffer] with its default argument recomputes the length
    as the position of the first NUL in the payload, looking at no more
    than the capacity; it works in place, cannot fail, and writes at most
    the terminator slot at the capacity (when the payload has no NUL
    before it). *)
Theorem X17_ReleaseBuffer_recomputes_length s b :
  mem s !! m_pszData s = Some b ->
  0 <= nAllocLength b <= INT_MAX ->
  let k := strnlen (data b) (nAllocLength b) in
  exists b',
    ReleaseBuffer (-1) s
    = Ok tt (mkState (<[m_pszData s := b']> (mem s)) (m_pszData s)) /\
    nDataLength b' = k /\ 0 <= k <= nAllocLength b /\
    data b' k = NUL /\
    (forall j, 0 <= j < k -> data b' j <> NUL) /\
    (forall j, j <> nAllocLength b -> data b' j = data b j) /\
    nRefs b' = nRefs b /\ nAllocLength b' = nAllocLength b /\
    pStringMgr b' = pStringMgr b.
Proof.
  intros Hb Ha k.
  pose proof (strnlen_bounds (data b) (nAllocLength b) ltac:(lia)) as Hk.
  fold k in Hk.
  exists (with_data (with_nDataLength b k) (poke (data b) k NUL)). split.
  { unfold ReleaseBuffer. simpl (-1 =? -1). cbv iota.
    erewrite bind_ok.
    2:{ erewrite bind_ok by (by apply GetAllocLength_live).
        unfold bind at 1, get_this at 1. cbv beta iota.
        apply (StringLengthN_read (InBuf (m_pszData s) 0) (nAllocLength b) s
                 (fun i => data b (0 + i))); [simpl; by rewrite Hb|lia]. }
    apply (SetLength_ok s b); [done|exact Hk]. }
  simpl. split; [done|]. split; [done|].
  split; [unfold poke; by rewrite Z.eqb_refl|].
  split.
  { intros j Hj. unfold poke. destruct (Z.eqb_spec j k); [lia|].
    apply (strnlen_before (data b) (nAllocLength b)). exact Hj. }
  split; [|done].
  intros j Hj. unfold poke. destruct (Z.eqb_spec j k) as [->|]; [|done].
  symmetry. apply (strnlen_stop (data b) (nAllocLength b)); [lia|].
  fold k. lia.
Qed.

Section BufferGuard.

Variable Mgr : IAmvStringMgr.
Hypothesis HM : MgrSpec Mgr.

(** X18: opening a [CStrBufT] on a string and closing it again without a
    write keeps the string's value: the length recorded at construction is
    the one set at destruction, and the characters are those of the start,
    in the buffer [GetBuffer] returned (a private copy when the buffer was
    shared). *)
Theorem X18_CStrBufT_round_trip s old p1 s1 :
  mem s !! m_pszData s = Some old -> wf_data old ->
  GetBuffer0 Mgr s = Ok p1 s1 ->
  exists s' b',
    (g <~ CStrBufT_ctor Mgr; CStrBufT_dtor g) s = Ok tt s' /\
    m_pszData s' = p1 /\ mem s' !! p1 = Some b' /\
    nDataLength b' = nDataLength old /\
    forall j, 0 <= j <= nDataLength old -> data b' j = data old j.
Proof.
  intros Hold Hwf HG. pose proof Hwf as [[Hr Ha] [Hd Hz]].
  pose proof HG as HPW.
  rewrite (GetBuffer0_is_PrepareWrite Mgr s old) in HPW by done.
  pose proof (PrepareWrite_spec Mgr HM s old (nDataLength old) Hold Hr
                ltac:(lia) Ha ltac:(lia)) as HP.
  rewrite HPW in HP.
  destruct HP as (Hp1 & b1 & Hb1 & Hd1 & Hcap & _ & _ & _ & Hdata & _).
  subst p1.
  eexists _, _. split.
  { unfold CStrBufT_ctor.
    erewrite bind_ok.
    2:{ erewrite bind_ok by (by apply GetLength_live).
        erewrite bind_ok by exact HG. reflexivity. }
    unfold CStrBufT_dtor, ReleaseBuffer. simpl m_nLength.
    destruct (Z.eqb_spec (nDataLength old) (-1)); [lia|].
    unfold bind at 1, ret at 1. cbv beta iota.
    apply (SetLength_ok s1 b1); [done|lia]. }
  simpl. split; [done|]. split; [apply lookup_insert_eq|]. simpl.
  split; [done|].
  intros j Hj. unfold poke.
  destruct (Z.eqb_spec j (nDataLength old)) as [->|]; [by rewrite Hz|].
  apply Hdata. lia.
Qed.

(** X19: a [CStrBufT] opened with a minimum length.  With the
    [AUTO_LENGTH] flag clear, closing it sets the string's length to that
    minimum, whatever was written; with the flag set, closing it
    recomputes the length from the payload.  A negative length given to
    its [SetLength] is an invalid-argument fault. *)
Theorem X19_CStrBufT_length_at_close s old n flags p1 s1 :
  mem s !! m_pszData s = Some old -> wf_data old ->
  0 <= n <= INT_MAX ->
  Z.land flags SET_LENGTH = 0 ->
  PrepareWrite Mgr n s = Ok p1 s1 ->
  exists b1, mem s1 !! p1 = Some b1 /\
  (Z.land flags AUTO_LENGTH = 0 ->
     exists s' b',
       (g <~ CStrBufT_ctor_min Mgr n flags; CStrBufT_dtor g) s = Ok tt s' /\
       m_pszData s' = p1 /\ mem s' !! p1 = Some b' /\ nDataLength b' = n /\
       data b' n = NUL) /\
  (Z.land flags AUTO_LENGTH <> 0 ->
     exists s' b',
       (g <~ CStrBufT_ctor_min Mgr n flags; CStrBufT_dtor g) s = Ok tt s' /\
       m_pszData s' = p1 /\ mem s' !! p1 = Some b' /\
       nDataLength b' = strnlen (data b1) (nAllocLength b1) /\
       nDataLength b' <= nDataLength old) /\
  forall g k, k < 0 -> CStrBufT_SetLength g k s = Throw InvalidArgument s.
Proof.
  intros Hold Hwf Hn Hset HPW. pose proof Hwf as [[Hr Ha] [Hd Hz]].
  pose proof (PrepareWrite_spec Mgr HM s old n Hold Hr Hd Ha Hn) as HP.
  rewrite HPW in HP.
  destruct HP as (Hp1 & b1 & Hb1 & Hd1 & Hcap & _ & _ & _ & Hdata & _).
  subst p1. exists b1. split; [done|].
  assert (Hopen : forall len,
            (if negb (Z.land flags AUTO_LENGTH =? 0) then -1 else n) = len ->
            CStrBufT_ctor_min Mgr n flags s
            = Ok (mkCStrBufT (m_pszData s1) len) s1).
  { intros len <-. unfold CStrBufT_ctor_min. rewrite Hset. simpl.
    unfold GetBuffer. erewrite bind_ok by exact HPW. reflexivity. }
  split; [|split].
  - intros Hauto. eexists _, _. split.
    { erewrite bind_ok by (apply Hopen; rewrite Hauto; reflexivity).
      unfold CStrBufT_dtor, ReleaseBuffer. simpl m_nLength.
      destruct (Z.eqb_spec n (-1)); [lia|].
      unfold bind at 1, ret at 1. cbv beta iota.
      apply (SetLength_ok s1 b1); [done|lia]. }
    simpl. split; [done|]. split; [apply lookup_insert_eq|]. simpl.
    split; [done|]. unfold poke. by rewrite Z.eqb_refl.
  - intros Hauto.
    pose proof (strnlen_bounds (data b1) (nAllocLength b1) ltac:(lia)) as Hk.
    exists (mkState (<[m_pszData s1 :=
                        with_data (with_nDataLength b1
                                     (strnlen (data b1) (nAllocLength b1)))
                          (poke (data b1)
                             (strnlen (data b1) (nAllocLength b1)) NUL)]>
                       (mem s1)) (m_pszData s1)).
    eexists. split.
    { erewrite bind_ok.
      2:{ apply (Hopen (-1)).
          by rewrite (proj2 (Z.eqb_neq (Z.land flags AUTO_LENGTH) 0) Hauto). }
      unfold CStrBufT_dtor, ReleaseBuffer. simpl m_nLength.
      simpl (-1 =? -1). cbv iota.
      erewrite bind_ok.
      2:{ erewrite bind_ok by (by apply GetAllocLength_live).
          unfold bind at 1, get_this at 1. cbv beta iota.
          apply (StringLengthN_read (InBuf (m_pszData s1) 0) (nAllocLength b1)
                   s1 (fun i => data b1 (0 + i)));
            [simpl; by rewrite Hb1|lia]. }
      apply (SetLength_ok s1 b1); [done|exact Hk]. }
    simpl. split; [done|]. split; [apply lookup_insert_eq|]. simpl.
    split; [done|].
    apply strnlen_le_nul; [lia|]. rewrite Hdata by lia. exact Hz.
  - intros g k Hk. unfold CStrBufT_SetLength.
    destruct (Z.ltb_spec k 0); [reflexivity|lia].
Qed.

End BufferGuard.

Lemma X15_ctor_from_array_witness :
  exists s' b',
    ctor_pch (HeapMgr 1000) (External ["a"; "b"; "c"]%char) 2 1 st_hello
    = Ok tt s' /\
    m_pszData s' = 2 /\ mem s' !! 2 = Some b' /\
    nDataLength b' = 2 /\ data b' 1 = "b"%char /\ data b' 2 = NUL.
Proof.
  destruct (proj2 (proj2 (proj2 (X15_ctor_from_array (HeapMgr 1000)
              (HeapMgr_spec 1000 ltac:(ilia)) st_hello
              (External ["a"; "b"; "c"]%char) ["a"; "b"; "c"]%char 2 1
              (or_intror eq_refl))))
              ltac:(lia) ltac:(discriminate) ltac:(lia) 2 _ eq_refl)
    as (s' & b' & Hrun & Hp & _ & Hb' & _ & _ & Hd & _ & Hz & Hdata & _).
  exists s', b'. repeat split; try assumption.
  exact (Hdata 1 ltac:(lia)).
Defined.

Lemma X16_ctor_from_terminated_array_witness :
  exists s' b',
    ctor_psz (HeapMgr 1000) (External ["a"; NUL; "c"]%char) 1 st_hello
    = Ok tt s' /\
    mem s' !! 2 = Some b' /\ nDataLength b' = 1.
Proof.
  destruct (X16_ctor_from_terminated_array (HeapMgr 1000)
              (HeapMgr_spec 1000 ltac:(ilia)) st_hello
              ["a"; NUL; "c"]%char 1 2 _ ltac:(lia) ltac:(simpl; ilia)
              eq_refl)
    as (s' & b' & Hrun & _ & Hb' & _ & Hd & _).
  exists s', b'. repeat split; assumption.
Defined.

Lemma X17_ReleaseBuffer_recomputes_length_witness :
  exists b',
    ReleaseBuffer (-1) st_hello = Ok tt (mkState (<[1 := b']> (mem st_hello)) 1)
    /\ nDataLength b' = 5.
Proof.
  destruct (X17_ReleaseBuffer_recomputes_length st_hello (buf 1 1 8 "hello")
              eq_refl ltac:(simpl; ilia))
    as (b' & Hrun & Hd & _).
  exists b'. split; [exact Hrun|exact Hd].
Defined.

Lemma X18_CStrBufT_round_trip_witness :
  exists s' b',
    (g <~ CStrBufT_ctor (HeapMgr 1000); CStrBufT_dtor g) st_shared = Ok tt s' /\
    m_pszData s' = 2 /\ mem s' !! 2 = Some b' /\ nDataLength b' = 5 /\
    data b' 0 = "h"%char.
Proof.
  destruct (X18_CStrBufT_round_trip (HeapMgr 1000)
              (HeapMgr_spec 1000 ltac:(ilia)) st_shared (buf 1 2 5 "hello")
              2 _ eq_refl ltac:(repeat split; simpl; try ilia; reflexivity)
              eq_refl)
    as (s' & b' & Hrun & Hp & Hb' & Hd & Hdata).
  exists s', b'. repeat split; try assumption.
  exact (Hdata 0 ltac:(simpl; lia)).
Defined.

Lemma X19_CStrBufT_length_at_close_witness :
  exists s' b',
    (g <~ CStrBufT_ctor_min (HeapMgr 1000) 10 0; CStrBufT_dtor g) st_abc
    = Ok tt s' /\
    mem s' !! m_pszData s' = Some b' /\ nDataLength b' = 10.
Proof.
  destruct (PrepareWrite (HeapMgr 1000) 10 st_abc) as [p1 s1|e s1] eqn:HPW;
    [|vm_compute in HPW; discriminate].
  destruct (X19_CStrBufT_length_at_close (HeapMgr 1000)
              (HeapMgr_spec 1000 ltac:(ilia)) st_abc (buf 1 1 4 "abc")
              10 0 p1 s1 eq_refl
              ltac:(repeat split; simpl; try ilia; reflexivity)
              ltac:(ilia) eq_refl HPW)
    as (b1 & _ & Hfix & _).
  destruct (Hfix eq_refl) as (s' & b' & Hrun & Hp & Hb' & Hd & _).
  exists s', b'. rewrite Hp. repeat split; assumption.
Defined.

(** ** Faults leave the string as it was *)

Section Faults.

Variable Mgr : IAmvStringMgr.
Hypothesis HM : MgrSpec Mgr.

(** A fork that throws has failed to allocate, or has faulted on the copy. *)
Lemma Fork_fault s old nLength e s' :
  mem s !! m_pszData s = Some old ->
  1 < nRefs old <= INT_MAX ->
  0 <= nDataLength old <= INT_MAX -> nDataLength old <= nLength ->
  Fork Mgr nLength s = Throw e s' -> raised e ->
  e = OutOfMemory /\ s' = s.
Proof.
  intros Hold Hr Hd HL HF He.
  destruct (Allocate Mgr (Clone Mgr (pStringMgr old)) nLength sizeof_XCHAR
              (mem s)) as [[q|] h1] eqn:HA.
  - destruct (decide (nDataLength old < INT_MAX)) as [Hlt|Hmax].
    + destruct (Fork_ok Mgr HM s old nLength q h1 Hold Hr ltac:(lia)
                  ltac:(lia) HA) as (b0 & _ & _ & _ & _ & _ & Hrun).
      rewrite Hrun in HF. discriminate.
    + exfalso. apply He.
      destruct (Allocate_ok Mgr HM _ _ _ _ _ _ HA)
        as (Hfresh & b0 & -> & _).
      assert (Hq : q <> m_pszData s) by (intros ->; congruence).
      revert HF. unfold Fork. mred. rewrite Hold. simpl.
      unfold mgr_Allocate. rewrite HA. simpl.
      destruct (Z.ltb_spec (nDataLength old) nLength); [|];
        replace (nDataLength old) with INT_MAX by lia.
      * unfold CopyChars, memcpy, bind. simpl.
        rewrite lookup_insert_ne, Hold, lookup_insert_eq by done.
        vm_compute. congruence.
      * replace nLength with INT_MAX by lia.
        unfold CopyChars, memcpy, bind. simpl.
        rewrite lookup_insert_ne, Hold, lookup_insert_eq by done.
        vm_compute. congruence.
  - revert HF. unfold Fork. mred. rewrite Hold. simpl.
    unfold mgr_Allocate. rewrite HA. simpl.
    rewrite (Allocate_fail Mgr HM _ _ _ _ _ HA), state_eta.
    unfold ThrowMemoryException, AmvThrow. intros [= <- <-]. done.
Qed.

(** [PrepareWrite] throws for a negative length, before anything else, or
    for want of memory, with nothing changed. *)
Lemma PrepareWrite_fault s old n e s' :
  mem s !! m_pszData s = Some old -> wf_data old -> n <= INT_MAX ->
  PrepareWrite Mgr n s = Throw e s' -> raised e ->
  s' = s /\ (e = InvalidArgument /\ n < 0 \/ e = OutOfMemory /\ 0 <= n).
Proof.
  intros Hold Hwf Hn HPW He. pose proof Hwf as [[Hr Ha] [Hd Hz]].
  destruct (decide (n < 0)) as [Hneg|Hpos].
  { revert HPW. unfold PrepareWrite. destruct (Z.ltb_spec n 0); [|lia].
    unfold AmvThrow. intros [= <- <-]. split; [done|]. left. done. }
  destruct (decide (1 < nRefs old)) as [Hsh|Hun].
  - rewrite (PrepareWrite_shared Mgr s old n) in HPW
      by (try done; unfold is_int in Hr; ilia).
    destruct (Fork Mgr (nDataLength old `max` n) s) as [[] s1|e1 s1] eqn:HF;
      [discriminate|]. simpl in HPW. injection HPW as -> ->.
    destruct (Fork_fault s old (nDataLength old `max` n) e s' Hold
                ltac:(unfold is_int in Hr; ilia)
                ltac:(lia) ltac:(lia) HF He) as [-> ->].
    split; [done|]. right. split; [done|lia].
  - destruct (decide (n <= nAllocLength old)) as [Hroom|Hshort].
    + rewrite (PrepareWrite_roomy Mgr s old) in HPW by (try done; lia).
      discriminate.
    + rewrite (PrepareWrite_grow Mgr s old n) in HPW by (try done; lia).
      destruct (Reallocate Mgr (pStringMgr old) (m_pszData s)
                  (grown (nAllocLength old) n) sizeof_XCHAR (mem s))
        as [[q|] h1] eqn:HR; [discriminate|].
      simpl in HPW. injection HPW as <- <-.
      rewrite (Reallocate_fail Mgr HM _ _ _ _ _ _ HR), state_eta.
      split; [done|]. right. split; [done|lia].
Qed.

(** Copying into a prepared buffer and setting the length does not throw,
    short of a memory fault on the source. *)
Lemma tail_fault s1 b1 off k src e s' :
  mem s1 !! m_pszData s1 = Some b1 ->
  0 <= off -> 0 <= k -> off + k <= nAllocLength b1 ->
  (CopyChars (m_pszData s1) off k src k;; SetLength (off + k)) s1 = Throw e s' ->
  ~ raised e.
Proof.
  intros Hb1 Hoff Hk Hcap Hrun He.
  destruct (decide (k = 0)) as [Hk0|Hk0].
  - destruct (write_tail s1 b1 off k src (fun _ => NUL) Hb1 Hoff Hk Hcap
                (or_introl Hk0)) as (b' & Hok & _).
    rewrite Hok in Hrun. discriminate.
  - destruct (deref (mem s1) src) as [f|] eqn:Hf.
    + destruct (write_tail s1 b1 off k src f Hb1 Hoff Hk Hcap
                  (or_intror Hf)) as (b' & Hok & _).
      rewrite Hok in Hrun. discriminate.
    + rewrite (write_tail_fault s1 b1 off k src Hb1 Hk0 Hf) in Hrun.
      injection Hrun as <- _. by apply He.
Qed.

(** X20: the strong guarantee of the writing members.  When [Append],
    [AppendChar], [SetString], [SetAt], [Truncate] or a buffer request
    throws an invalid-argument or an out-of-memory fault, the whole state
    (this string, every other buffer, every count) is what it was before
    the call: the argument checks and the allocation come before the first
    write. *)
Theorem X20_faults_change_nothing s old :
  mem s !! m_pszData s = Some old -> wf_data old ->
  (forall n, n <= INT_MAX -> all_or_nothing s (PrepareWrite Mgr n s)) /\
  (forall src n, is_int n -> all_or_nothing s (Append Mgr src n s)) /\
  (forall ch, all_or_nothing s (AppendChar Mgr ch s)) /\
  (forall src n, is_int n -> all_or_nothing s (SetString Mgr src n s)) /\
  (forall i ch, all_or_nothing s (SetAt Mgr i ch s)) /\
  (forall n, is_int n -> all_or_nothing s (Truncate Mgr n s)).
Proof.
  intros Hold Hwf. pose proof Hwf as [[Hr Ha] [Hd Hz]].
  assert (HP : forall n p1 s1, 0 <= n <= INT_MAX ->
            PrepareWrite Mgr n s = Ok p1 s1 ->
            m_pszData s1 = p1 /\ exists b1, mem s1 !! p1 = Some b1 /\
              n <= nAllocLength b1 /\ nDataLength old <= nAllocLength b1).
  { intros n p1 s1 Hn HPW.
    pose proof (PrepareWrite_spec Mgr HM s old n Hold Hr Hd Ha Hn) as HP.
    rewrite HPW in HP. destruct HP as (Hp1 & b1 & Hb1 & _ & Hcap & _).
    split; [done|]. exists b1. split; [done|]. lia. }
  assert (HPf : forall n, n <= INT_MAX ->
            all_or_nothing s (PrepareWrite Mgr n s)).
  { intros n Hn e s' HPW He.
    by destruct (PrepareWrite_fault s old n e s' Hold Hwf Hn HPW He). }
  split; [exact HPf|]. split; [|split; [|split; [|split]]].
  - (* Append *)
    intros src n Hn e s' Hrun He.
    destruct (decide (n < 0)) as [Hneg|Hpos].
    { rewrite (Append_negative Mgr s old src n Hold Hneg) in Hrun.
      by injection Hrun as _ <-. }
    destruct (StringLengthN src n s) as [k sk|ek sk] eqn:HS.
    + destruct (StringLengthN_range src n s k sk ltac:(ilia) HS) as [-> Hk].
      rewrite (Append_run Mgr s old src n k Hold ltac:(lia) ltac:(lia) HS
                 ltac:(ilia)) in Hrun.
      destruct (Z.ltb_spec (INT_MAX - k) (nDataLength old)).
      { by injection Hrun as _ <-. }
      destruct (PrepareWrite Mgr (nDataLength old + k) s)
        as [p1 s1|e1 s1] eqn:HPW.
      * exfalso. erewrite bind_ok in Hrun by exact HPW.
        destruct (HP (nDataLength old + k) p1 s1 ltac:(lia) HPW)
          as (<- & b1 & Hb1 & Hcap & _).
        exact (tail_fault s1 b1 (nDataLength old) k _ e s' Hb1 ltac:(lia)
                 ltac:(lia) Hcap Hrun He).
      * erewrite bind_throw in Hrun by exact HPW. injection Hrun as -> ->.
        apply (HPf (nDataLength old + k) ltac:(lia) e s' HPW He).
    + exfalso. apply He. revert Hrun. unfold Append. mred. rewrite Hold. simpl.
      destruct (Z.geb_spec n 0); [|lia]. cbn [negb].
      unfold bind. rewrite HS. intros [= <- _].
      revert HS. unfold StringLengthN.
      destruct src; [discriminate| |];
        (destruct (deref (mem s) _); [discriminate|by intros [= <- _]]).
  - (* AppendChar *)
    intros ch e s' Hrun He.
    destruct (decide (nDataLength old = INT_MAX)) as [Hmax|Hlt].
    { revert Hrun. unfold AppendChar.
      erewrite bind_ok by (by apply GetLength_live). cbv zeta. rewrite Hmax.
      erewrite bind_throw by reflexivity. by intros [= _ <-]. }
    destruct (PrepareWrite Mgr (nDataLength old + 1) s)
      as [p1 s1|e1 s1] eqn:HPW.
    + destruct (HP (nDataLength old + 1) p1 s1 ltac:(lia) HPW)
        as (Hp1 & b1 & Hb1 & Hcap & _).
      rewrite (AppendChar_commit Mgr s old ch p1 s1 b1 Hold ltac:(lia) HPW
                 Hp1 Hb1 Hcap) in Hrun. discriminate.
    + revert Hrun. unfold AppendChar.
      erewrite bind_ok by (by apply GetLength_live). cbv zeta.
      rewrite (to_uint_id (nDataLength old)) by lia.
      rewrite to_uint_id by lia. rewrite to_int_id by ilia.
      unfold GetBuffer. erewrite bind_throw by exact HPW.
      intros [= -> ->]. apply (HPf (nDataLength old + 1) ltac:(lia) e s' HPW He).
  - (* SetString *)
    intros src n Hn e s' Hrun He.
    destruct (decide (n = 0)) as [->|Hn0].
    { unfold SetString in Hrun. simpl in Hrun.
      rewrite (Empty_run Mgr s old Hold ltac:(lia)) in Hrun.
      destruct (nDataLength old =? 0); [discriminate|].
      destruct (nRefs old <? 0); [discriminate|]. cbv zeta in Hrun.
      destruct (GetNilString Mgr _ _); discriminate. }
    assert (Hsrc : src = NULL \/ src <> NULL)
      by (destruct src; [by left|by right|by right]).
    destruct Hsrc as [->|Hsrc].
    { unfold SetString in Hrun. destruct (Z.eqb_spec n 0); [done|].
      by injection Hrun as _ <-. }
    rewrite (SetString_run Mgr s old src n Hold ltac:(lia) Hn0 Hsrc) in Hrun.
    destruct (PrepareWrite Mgr n s) as [p1 s1|e1 s1] eqn:HPW.
    + exfalso.
      assert (0 <= n).
      { destruct (decide (n < 0)); [|lia].
        revert HPW. unfold PrepareWrite. destruct (Z.ltb_spec n 0); [|lia].
        discriminate. }
      destruct (HP n p1 s1 ltac:(ilia) HPW) as (<- & b1 & Hb1 & Hcap & _).
      erewrite bind_ok in Hrun by exact HPW.
      erewrite bind_ok in Hrun by (by apply GetAllocLength_live).
      assert (Hcopy : exists src',
                SetString_copy src (m_pszData s) (nDataLength old)
                  (m_pszData s1) (nAllocLength b1) n
                = CopyChars (m_pszData s1) 0 n src' n).
      { unfold SetString_copy. destruct (ptr_diff src (m_pszData s)) as [o|];
          [|by eexists].
        destruct (o <=? nDataLength old); [|by eexists].
        unfold CopyCharsOverlapped.
        destruct (Z.gtb_spec n (nAllocLength b1)); [lia|by eexists]. }
      destruct Hcopy as [src' Hcopy]. rewrite Hcopy in Hrun.
      exact (tail_fault s1 b1 0 n src' e s' Hb1 ltac:(lia) ltac:(lia)
               ltac:(lia) Hrun He).
    + erewrite bind_throw in Hrun by exact HPW. injection Hrun as -> ->.
      apply (HPf n ltac:(ilia) e s' HPW He).
  - (* SetAt *)
    intros i ch e s' Hrun He.
    destruct (decide (0 <= i < nDataLength old)) as [Hi|Hi].
    + destruct (PrepareWrite Mgr (nDataLength old) s)
        as [p1 s1|e1 s1] eqn:HPW.
      * destruct (HP (nDataLength old) p1 s1 ltac:(lia) HPW)
          as (Hp1 & b1 & Hb1 & Hcap & _).
        rewrite (SetAt_commit Mgr s old i ch p1 s1 b1 Hold Hwf Hi HPW Hp1 Hb1
                   Hcap) in Hrun. discriminate.
      * revert Hrun. unfold SetAt.
        erewrite bind_ok by (by apply GetLength_live).
        destruct (Z.ltb_spec i 0); [lia|].
        destruct (Z.geb_spec i (nDataLength old)); [lia|]. cbn [orb].
        erewrite bind_ok by (by apply GetLength_live).
        rewrite (bind_throw (GetBuffer0 Mgr) _ s e1 s1)
          by (by rewrite (GetBuffer0_is_PrepareWrite Mgr s old)).
        intros [= -> ->]. apply (HPf (nDataLength old) ltac:(lia) e s' HPW He).
    + revert Hrun. unfold SetAt.
      erewrite bind_ok by (by apply GetLength_live).
      destruct (Z.ltb_spec i 0); [by intros [= _ <-]|].
      destruct (Z.geb_spec i (nDataLength old)); [|lia].
      by intros [= _ <-].
  - (* Truncate *)
    intros n Hn e s' Hrun He. unfold Truncate, GetBuffer in Hrun.
    destruct (PrepareWrite Mgr n s) as [p1 s1|e1 s1] eqn:HPW.
    + exfalso.
      assert (0 <= n).
      { destruct (decide (n < 0)); [|lia].
        revert HPW. unfold PrepareWrite. destruct (Z.ltb_spec n 0); [|lia].
        discriminate. }
      destruct (HP n p1 s1 ltac:(ilia) HPW) as (<- & b1 & Hb1 & Hcap & _).
      erewrite bind_ok in Hrun by exact HPW.
      unfold ReleaseBufferSetLength in Hrun.
      rewrite (SetLength_ok s1 b1 n Hb1 ltac:(lia)) in Hrun. discriminate.
    + erewrite bind_throw in Hrun by exact HPW. injection Hrun as -> ->.
      apply (HPf n ltac:(ilia) e s' HPW He).
Qed.

End Faults.

Lemma X20_faults_change_nothing_witness :
  Append (HeapMgr 4) (External ["w"; "o"; "r"; "l"; "d"]%char) 5 st_abc
  = Throw OutOfMemory st_abc.
Proof.
  destruct (Append (HeapMgr 4) (External ["w"; "o"; "r"; "l"; "d"]%char) 5
              st_abc) as [u s'|e s'] eqn:Hrun;
    [vm_compute in Hrun; discriminate|].
  assert (He : e = OutOfMemory)
    by (pose proof Hrun as Hc; vm_compute in Hc; congruence).
  subst e. f_equal.
  apply (proj1 (proj2 (X20_faults_change_nothing (HeapMgr 4)
           (HeapMgr_spec 4 ltac:(ilia)) st_abc (buf 1 1 4 "abc") eq_refl
           ltac:(repeat split; simpl; try ilia; reflexivity)))
           (External ["w"; "o"; "r"; "l"; "d"]%char) 5 ltac:(ilia)
           OutOfMemory s' Hrun).
  discriminate.
Defined.

(** ** Concatenation with a character array *)

Section ConcatenationWithArray.

Variable Mgr : IAmvStringMgr.
Hypothesis HM : MgrSpec Mgr.

(** [Concatenate] on a handle that holds the nil string: the nil string is
    forked into a new buffer, and the two sources are written there one
    after the other.  A source is given by what it reads in any heap that
    keeps the buffers of [h1] up to their counts. *)
Lemma Concatenate_onto_nil (h1 : heap) pn bn src1 src2 f1 f2 l1 l2 q h2 :
  h1 !! pn = Some bn -> nDataLength bn = 0 -> 2 <= nRefs bn <= INT_MAX ->
  0 <= l1 -> 0 <= l2 -> l1 + l2 <= INT_MAX ->
  Allocate Mgr (Clone Mgr (pStringMgr bn)) (l1 + l2) sizeof_XCHAR h1
  = (Some q, h2) ->
  (forall h' : heap,
     (forall x b, h1 !! x = Some b -> x <> q ->
                  exists r, h' !! x = Some (with_nRefs b r)) ->
     (l1 = 0 \/ deref h' src1 = Some f1) /\
     (l2 = 0 \/ deref h' src2 = Some f2)) ->
  exists s' r,
    Concatenate Mgr src1 l1 src2 l2 (mkState h1 pn) = Ok tt s' /\
    m_pszData s' = q /\ h1 !! q = None /\ mem s' !! q = Some r /\
    nRefs r = 1 /\ nDataLength r = l1 + l2 /\
    (forall i, 0 <= i < l1 -> data r i = f1 i) /\
    (forall i, 0 <= i < l2 -> data r (l1 + i) = f2 i) /\
    data r (l1 + l2) = NUL /\
    forall x b, h1 !! x = Some b -> exists rx, mem s' !! x = Some (with_nRefs b rx).
Proof.
  intros Hbn Hdn Hrn Hl1 Hl2 Hsum HA Hsrc.
  set (s0 := mkState h1 pn).
  destruct (Fork_ok Mgr HM s0 bn (l1 + l2) q h2 Hbn ltac:(lia) ltac:(ilia)
              ltac:(lia) HA) as (b0 & -> & Hq1 & Hm0' & Hr0 & Hcap & HF).
  simpl in HF, Hq1.
  assert (Hqpn : q <> pn) by congruence.
  set (fk := forked bn b0 (l1 + l2)) in *.
  set (hF := <[pn := with_nRefs bn (nRefs bn - 1)]> (<[q := fk]> h1)) in *.
  assert (HkF : forall x b, h1 !! x = Some b -> x <> q ->
                  exists r, hF !! x = Some (with_nRefs b r)).
  { intros x b Hx Hxq. subst hF. destruct (decide (x = pn)) as [->|Hne].
    - rewrite lookup_insert_eq. rewrite Hbn in Hx. injection Hx as ->.
      by eexists.
    - rewrite !lookup_insert_ne by done. exists (nRefs b).
      by rewrite with_nRefs_same. }
  assert (HqF : hF !! q = Some fk)
    by (subst hF; by rewrite lookup_insert_ne, lookup_insert_eq).
  destruct (memcpy_spec q 0 src1 l1 f1 fk (mkState hF q) Hl1 HqF
              (proj1 (Hsrc hF HkF)))
    as (c1 & Hrun1 & (Hm1 & Hd1 & Ha1' & Hr1) & Hdata1).
  set (hF1 := <[q := c1]> hF) in *.
  assert (HkF1 : forall x b, h1 !! x = Some b -> x <> q ->
                   exists r, hF1 !! x = Some (with_nRefs b r)).
  { intros x b Hx Hxq. subst hF1. rewrite lookup_insert_ne by done.
    by apply HkF. }
  destruct (memcpy_spec q l1 src2 l2 f2 c1 (mkState hF1 q) Hl2
              ltac:(simpl; apply lookup_insert_eq) (proj2 (Hsrc hF1 HkF1)))
    as (c2 & Hrun2 & (Hm2 & Hd2 & Ha2' & Hr2) & Hdata2).
  simpl in Hrun1, Hrun2.
  set (hF2 := <[q := c2]> hF1) in *.
  assert (Hcap2 : l1 + l2 <= nAllocLength c2).
  { rewrite Ha2', Ha1'. subst fk. simpl. lia. }
  pose proof (SetLength_ok (mkState hF2 q) c2 (l1 + l2)
                ltac:(simpl; apply lookup_insert_eq) ltac:(lia)) as Hrun3.
  simpl in Hrun3.
  set (r := with_data (with_nDataLength c2 (l1 + l2))
                      (poke (data c2) (l1 + l2) NUL)) in *.
  exists (mkState (<[q := r]> hF2) q), r.
  split.
  { unfold Concatenate. rewrite to_int_id by ilia.
    unfold GetBuffer.
    erewrite bind_ok; cycle 1.
    { rewrite (PrepareWrite_shared Mgr _ bn) by (simpl; try done; lia).
      rewrite Hdn. replace (Z.max 0 (l1 + l2)) with (l1 + l2) by lia.
      fold s0. rewrite HF. reflexivity. }
    simpl m_pszData. unfold CopyChars, ReleaseBufferSetLength.
    erewrite bind_ok by exact Hrun1.
    erewrite bind_ok by exact Hrun2.
    exact Hrun3. }
  simpl. split; [done|]. split; [done|].
  split; [apply lookup_insert_eq|].
  split; [subst r; simpl; rewrite Hr2, Hr1; done|].
  split; [done|].
  split.
  { intros i Hi. subst r. simpl. unfold poke.
    destruct (Z.eqb_spec i (l1 + l2)); [lia|].
    rewrite Hdata2. unfold blit.
    destruct (Z.leb_spec l1 i); [lia|]. simpl.
    rewrite Hdata1. unfold blit.
    destruct (Z.leb_spec 0 i); [|lia]. destruct (Z.ltb_spec i (0 + l1)); [|lia].
    simpl. f_equal. lia. }
  split.
  { intros i Hi. subst r. simpl. unfold poke.
    destruct (Z.eqb_spec (l1 + i) (l1 + l2)); [lia|].
    rewrite Hdata2. unfold blit.
    destruct (Z.leb_spec l1 (l1 + i)); [|lia].
    destruct (Z.ltb_spec (l1 + i) (l1 + l2)); [|lia]. simpl. f_equal. lia. }
  split; [subst r; simpl; unfold poke; by rewrite Z.eqb_refl|].
  intros x b Hx.
  assert (Hxq : x <> q) by congruence.
  subst hF2. rewrite !lookup_insert_ne by done. by apply HkF1.
Qed.

(** What a string operand and an array operand read, wherever the
    operand's buffer is kept up to its count. *)
Lemma operands_readable (h1 : heap) a ba cs q la lc :
  h1 !! a = Some ba -> h1 !! q = None ->
  forall h' : heap,
    (forall x b, h1 !! x = Some b -> x <> q ->
                 exists r, h' !! x = Some (with_nRefs b r)) ->
    (la = 0 \/ deref h' (InBuf a 0) = Some (data ba)) /\
    (lc = 0 \/ deref h' (External cs) = Some (ext_mem cs)).
Proof.
  intros Ha Hq h' Hk. split; right; [|reflexivity].
  destruct (Hk a ba Ha ltac:(congruence)) as (r & Hr).
  simpl. by rewrite Hr.
Qed.

(** X21: [operator+] of a string and a NUL-terminated array.  The result
    is a new buffer in the unique state holding the string's characters
    followed by the array's characters before its first NUL; the string
    operand keeps its characters and length.  With the array first, the
    order of the two parts is the other way round. *)
Theorem X21_concatenation_with_array s a ba cs pn h1 :
  mem s !! a = Some ba -> 0 <= nDataLength ba ->
  Z.of_nat (length cs) <= INT_MAX ->
  let k := strnlen (ext_mem cs) (Z.of_nat (length cs)) in
  nDataLength ba + k <= INT_MAX ->
  pStringMgr ba <> 0 -> Clone Mgr (pStringMgr ba) <> 0 ->
  GetNilString Mgr (Clone Mgr (pStringMgr ba)) (mem s) = (pn, h1) ->
  (forall q h2,
     Allocate Mgr (Clone Mgr (Clone Mgr (pStringMgr ba)))
              (nDataLength ba + k) sizeof_XCHAR h1 = (Some q, h2) ->
     exists s' r,
       operator_plus_str_psz Mgr a (External cs) s = Ok tt s' /\
       m_pszData s' = q /\ mem s !! q = None /\ mem s' !! q = Some r /\
       nRefs r = 1 /\ nDataLength r = nDataLength ba + k /\
       (forall i, 0 <= i < nDataLength ba -> data r i = data ba i) /\
       (forall i, 0 <= i < k -> data r (nDataLength ba + i) = ext_mem cs i) /\
       data r (nDataLength ba + k) = NUL /\
       exists ra, mem s' !! a = Some (with_nRefs ba ra)) /\
  (forall q h2,
     Allocate Mgr (Clone Mgr (Clone Mgr (pStringMgr ba)))
              (k + nDataLength ba) sizeof_XCHAR h1 = (Some q, h2) ->
     exists s' r,
       operator_plus_psz_str Mgr (External cs) a s = Ok tt s' /\
       m_pszData s' = q /\ mem s !! q = None /\ mem s' !! q = Some r /\
       nRefs r = 1 /\ nDataLength r = k + nDataLength ba /\
       (forall i, 0 <= i < k -> data r i = ext_mem cs i) /\
       (forall i, 0 <= i < nDataLength ba -> data r (k + i) = data ba i) /\
       data r (k + nDataLength ba) = NUL /\
       exists ra, mem s' !! a = Some (with_nRefs ba ra)).
Proof.
  intros Ha Hla Hlen k Hsum Hm0 Hc0 HN.
  pose proof (strnlen_bounds (ext_mem cs) (Z.of_nat (length cs))
                ltac:(lia)) as Hk. fold k in Hk.
  destruct (GetNilString_ok _ HM _ _ _ _ HN)
    as ((bn & Hbn & Hmn & Hdn & Han & Hrn & Hzn) & Hframe & Hsame).
  destruct (GetNilString_content _ HM _ _ _ _ a ba HN Ha) as (ra1 & Ha1).
  assert (Hopen : forall (m : M unit) (s0 : State),
            s0 = mkState h1 (m_pszData s) ->
            (m0 <~ on a (GetManager Mgr); ctor_mgr Mgr m0;; m) s
            = (Attach pn;; m) s0).
  { intros m s0 ->. erewrite bind_ok by (by apply on_GetManager).
    destruct (Z.eqb_spec (pStringMgr ba) 0); [done|].
    unfold ctor_mgr.
    destruct (Z.eqb_spec (Clone Mgr (pStringMgr ba)) 0); [done|].
    unfold bind at 1. unfold bind at 1. unfold mgr_GetNilString. rewrite HN.
    reflexivity. }
  assert (Hfresh : forall q h2 n,
            Allocate Mgr (Clone Mgr (Clone Mgr (pStringMgr ba))) n
                     sizeof_XCHAR h1 = (Some q, h2) ->
            h1 !! q = None /\ mem s !! q = None).
  { intros q h2 n HA.
    destruct (Allocate_ok Mgr HM _ _ _ _ _ _ HA) as (Hq & _).
    split; [done|]. rewrite <- Hframe; [done|congruence]. }
  split.
  - intros q h2 HA. destruct (Hfresh q h2 _ HA) as [Hq1 Hq].
    rewrite <- Hmn in HA.
    destruct (Concatenate_onto_nil h1 pn bn (InBuf a 0) (External cs)
                (data (with_nRefs ba ra1)) (ext_mem cs) (nDataLength ba) k
                q h2 Hbn Hdn Hrn Hla ltac:(lia) Hsum HA
                (operands_readable h1 a (with_nRefs ba ra1) cs q _ _ Ha1 Hq1))
      as (s' & r & Hrun & Hp & _ & Hr & Hr1 & Hd & Hf1 & Hf2 & Hz & Hkeep).
    exists s', r. split.
    { unfold operator_plus_str_psz.
      rewrite (Hopen _ _ eq_refl).
      unfold Attach at 1. unfold bind at 1. cbv beta iota. simpl mem.
      erewrite bind_ok by (apply on_GetLength; simpl; exact Ha1).
      unfold bind at 1. unfold StringLength.
      rewrite to_int_id by (fold k; ilia). fold k. exact Hrun. }
    split; [done|]. split; [done|]. split; [done|]. split; [done|].
    split; [done|]. split; [done|]. split; [done|]. split; [done|].
    destruct (Hkeep a _ Ha1) as (rx & Hx). by exists rx.
  - intros q h2 HA. destruct (Hfresh q h2 _ HA) as [Hq1 Hq].
    rewrite <- Hmn in HA.
    destruct (Concatenate_onto_nil h1 pn bn (External cs) (InBuf a 0)
                (ext_mem cs) (data (with_nRefs ba ra1)) k (nDataLength ba)
                q h2 Hbn Hdn Hrn ltac:(lia) Hla ltac:(lia) HA)
      as (s' & r & Hrun & Hp & _ & Hr & Hr1 & Hd & Hf1 & Hf2 & Hz & Hkeep).
    { intros h' Hk'.
      destruct (operands_readable h1 a (with_nRefs ba ra1) cs q
                  (nDataLength ba) k Ha1 Hq1 h' Hk') as [H1 H2].
      split; assumption. }
    exists s', r. split.
    { unfold operator_plus_psz_str.
      rewrite (Hopen _ _ eq_refl).
      unfold Attach at 1. unfold bind at 1. cbv beta iota. simpl mem.
      unfold bind at 1. unfold StringLength.
      rewrite to_int_id by (fold k; ilia). fold k.
      erewrite bind_ok by (apply on_GetLength; simpl; exact Ha1).
      exact Hrun. }
    split; [done|]. split; [done|]. split; [done|]. split; [done|].
    split; [done|]. split; [done|]. split; [done|]. split; [done|].
    destruct (Hkeep a _ Ha1) as (rx & Hx). by exists rx.
Qed.

End ConcatenationWithArray.

Lemma X21_concatenation_with_array_witness :
  exists s' r,
    operator_plus_str_psz (HeapMgr 1000) 1 (External ["!"; NUL; "x"]%char)
      st_hello = Ok tt s' /\
    mem s' !! m_pszData s' = Some r /\
    nDataLength r = 6 /\ data r 5 = "!"%char /\ data r 6 = NUL.
Proof.
  destruct (proj1 (X21_concatenation_with_array (HeapMgr 1000)
              (HeapMgr_spec 1000 ltac:(ilia)) st_hello 1 (buf 1 1 8 "hello")
              ["!"; NUL; "x"]%char _ _ eq_refl ltac:(simpl; lia)
              ltac:(simpl; ilia) ltac:(vm_compute; discriminate)
              ltac:(simpl; lia) ltac:(simpl; lia) eq_refl) _ _ eq_refl)
    as (s' & r & Hrun & Hp & _ & Hr & _ & Hd & _ & Hcs & Hz & _).
  exists s', r. rewrite Hp. repeat split; try assumption.
  exact (Hcs 0 ltac:(vm_compute; split; [discriminate|reflexivity])).
Defined.

(** ** The nil string *)

Section NilString.

Variable Mgr : IAmvStringMgr.
Hypothesis HM : MgrSpec Mgr.

(** X22: [SetManager] leaves the handle on the nil string of the new
    manager whatever the string held before (that the string is empty is
    an assertion only, not a check): the string is then empty.  It gives
    up one reference on the old buffer, which stays live with one count
    less when it was shared, and touches no third buffer. *)
Theorem X22_SetManager_drops_the_value s old m :
  mem s !! m_pszData s = Some old -> is_int (nRefs old) ->
  exists s' bn,
    SetManager Mgr m s = Ok tt s' /\
    mem s' !! m_pszData s' = Some bn /\
    pStringMgr bn = m /\ nDataLength bn = 0 /\ data bn 0 = NUL /\
    2 <= nRefs bn /\
    IsEmpty s' = Ok true s' /\
    (1 < nRefs old -> m_pszData s' <> m_pszData s ->
     mem s' !! m_pszData s = Some (with_nRefs old (nRefs old - 1))) /\
    forall x, x <> m_pszData s -> x <> m_pszData s' ->
              mem s' !! x = mem s !! x.
Proof.
  intros Hold Hr.
  set (h := <[m_pszData s := with_nRefs old (to_int (nRefs old - 1))]> (mem s)).
  set (h1 := if to_int (nRefs old - 1) <=? 0
             then Free Mgr (pStringMgr old) (m_pszData s) h else h).
  destruct (GetNilString Mgr m h1) as [pn h2] eqn:HN.
  destruct (GetNilString_ok _ HM _ _ _ _ HN)
    as ((bn & Hbn & Hmn & Hdn & Han & Hrn & Hzn) & Hframe & _).
  exists (mkState h2 pn), bn. split.
  { unfold SetManager. unfold bind at 1, get_this at 1. cbv beta iota.
    erewrite bind_ok by (by apply (Release_run Mgr (m_pszData s) old)).
    unfold bind, mgr_GetNilString. simpl mem. fold h h1. rewrite HN.
    reflexivity. }
  simpl. split; [done|]. split; [done|]. split; [done|]. split; [done|].
  split; [lia|]. split.
  { unfold IsEmpty. erewrite bind_ok by (by apply GetLength_live).
    by rewrite Hdn. }
  split.
  - intros Hsh Hne. rewrite Hframe by done. subst h1.
    rewrite to_int_id by (unfold is_int in Hr; ilia).
    destruct (Z.leb_spec (nRefs old - 1) 0); [lia|].
    subst h. rewrite to_int_id by (unfold is_int in Hr; ilia).
    apply lookup_insert_eq.
  - intros x Hx Hxn. rewrite Hframe by done. subst h1.
    destruct (to_int (nRefs old - 1) <=? 0).
    + rewrite (Free_other Mgr HM) by done. subst h.
      by rewrite lookup_insert_ne.
    + subst h. by rewrite lookup_insert_ne.
Qed.

(** X23: an empty string made with a manager and destroyed again.  The
    constructor fails its check without a manager; otherwise the pair
    returns, the nil string it borrowed is still live and still counted
    (a handle's destructor never frees it), and no other buffer has
    changed. *)
Theorem X23_empty_string_lifecycle s m :
  ctor_mgr Mgr 0 s = Throw EnsureFailed s /\
  (m <> 0 ->
   exists s' pn bn,
     (ctor_mgr Mgr m;; dtor Mgr) s = Ok tt s' /\
     mem s' !! pn = Some bn /\ pStringMgr bn = m /\ nDataLength bn = 0 /\
     1 <= nRefs bn /\
     forall x, x <> pn -> mem s' !! x = mem s !! x).
Proof.
  split; [reflexivity|]. intros Hm.
  destruct (GetNilString Mgr m (mem s)) as [pn h1] eqn:HN.
  destruct (GetNilString_ok _ HM _ _ _ _ HN)
    as ((bn & Hbn & Hmn & Hdn & Han & Hrn & Hzn) & Hframe & _).
  exists (mkState (<[pn := with_nRefs bn (nRefs bn - 1)]> h1) pn), pn,
         (with_nRefs bn (nRefs bn - 1)).
  split.
  { unfold ctor_mgr. destruct (Z.eqb_spec m 0); [done|].
    unfold bind at 1. unfold bind at 1. unfold mgr_GetNilString. rewrite HN.
    unfold Attach. cbv beta iota. simpl mem.
    unfold dtor. unfold bind at 1, get_this at 1. cbv beta iota.
    simpl m_pszData.
    rewrite (Release_shared Mgr pn bn) by (simpl; try done; lia).
    reflexivity. }
  simpl. split; [apply lookup_insert_eq|]. split; [done|]. split; [done|].
  split; [lia|].
  intros x Hx. rewrite lookup_insert_ne by done. by apply Hframe.
Qed.

End NilString.

Lemma X22_SetManager_drops_the_value_witness :
  exists s' bn,
    SetManager (HeapMgr 1000) 1 st_shared = Ok tt s' /\
    mem s' !! m_pszData s' = Some bn /\ nDataLength bn = 0 /\
    IsEmpty s' = Ok true s'.
Proof.
  destruct (X22_SetManager_drops_the_value (HeapMgr 1000)
              (HeapMgr_spec 1000 ltac:(ilia)) st_shared (buf 1 2 5 "hello") 1
              eq_refl ltac:(simpl; ilia))
    as (s' & bn & Hrun & Hbn & _ & Hd & _ & _ & He & _).
  exists s', bn. repeat split; assumption.
Defined.

Lemma X23_empty_string_lifecycle_witness :
  exists s' pn bn,
    (ctor_mgr (HeapMgr 1000) 1;; dtor (HeapMgr 1000)) st_hello = Ok tt s' /\
    mem s' !! pn = Some bn /\ nDataLength bn = 0 /\ 1 <= nRefs bn.
Proof.
  destruct (proj2 (X23_empty_string_lifecycle (HeapMgr 1000)
              (HeapMgr_spec 1000 ltac:(ilia)) st_hello 1) ltac:(lia))
    as (s' & pn & bn & Hrun & Hbn & _ & Hd & Hr & _).
  exists s', pn, bn. repeat split; assumption.
Defined.

(** ** Assignment from a NUL-terminated array *)

Section AssignArray.

Variable Mgr : IAmvStringMgr.
Hypothesis HM : MgrSpec Mgr.

(** X24: [operator=(PCXSTR)].  A null pointer, and an array that starts
    with NUL, empty the string exactly as [Empty] does, with no fault;
    any other array leaves the string holding the array's characters
    before its first NUL, none of which is NUL, and the terminator. *)
Theorem X24_assign_terminated_array s old cs :
  mem s !! m_pszData s = Some old -> wf_data old ->
  Z.of_nat (length cs) <= INT_MAX ->
  let k := strnlen (ext_mem cs) (Z.of_nat (length cs)) in
  operator_assign_psz Mgr NULL s = Empty Mgr s /\
  (k = 0 -> operator_assign_psz Mgr (External cs) s = Empty Mgr s) /\
  (0 < k -> forall p1 s1,
     PrepareWrite Mgr k s = Ok p1 s1 ->
     exists s' b',
       operator_assign_psz Mgr (External cs) s = Ok tt s' /\
       m_pszData s' = p1 /\ mem s' !! p1 = Some b' /\
       nDataLength b' = k /\ data b' k = NUL /\
       forall j, 0 <= j < k -> data b' j = ext_mem cs j /\ data b' j <> NUL).
Proof.
  intros Hold Hwf Hlen k.
  pose proof (strnlen_bounds (ext_mem cs) (Z.of_nat (length cs))
                ltac:(lia)) as Hk. fold k in Hk.
  assert (Hopen : operator_assign_psz Mgr (External cs) s
                  = SetString Mgr (External cs) k s).
  { unfold operator_assign_psz, SetString_psz.
    unfold bind at 1. unfold StringLength.
    rewrite to_int_id by (fold k; ilia). reflexivity. }
  split; [reflexivity|]. split.
  - intros Hk0. rewrite Hopen, Hk0. reflexivity.
  - intros Hpos p1 s1 HPW. rewrite Hopen.
    destruct (SetString_commit Mgr HM s old (External cs) k p1 s1 (ext_mem cs)
                Hold Hwf ltac:(lia) ltac:(done) HPW eq_refl)
      as (b1 & b' & Hb1 & Hrun & Hd' & _ & Hdata' & _).
    eexists _, b'. split; [exact Hrun|]. simpl.
    split; [done|]. split; [apply lookup_insert_eq|]. split; [done|].
    split; [rewrite Hdata'; unfold poke; by rewrite Z.eqb_refl|].
    intros j Hj.
    assert (Hj' : data b' j = ext_mem cs j).
    { rewrite Hdata'. unfold poke, blit.
      destruct (Z.eqb_spec j k); [lia|].
      destruct (Z.leb_spec 0 j); [|lia].
      destruct (Z.ltb_spec j (0 + k)); [|lia]. simpl. f_equal. lia. }
    split; [exact Hj'|]. rewrite Hj'.
    apply (strnlen_before (ext_mem cs) (Z.of_nat (length cs))). exact Hj.
Qed.

End AssignArray.

Lemma X24_assign_terminated_array_witness :
  exists s' b',
    operator_assign_psz (HeapMgr 1000) (External ["x"; "y"; NUL; "z"]%char)
      st_shared = Ok tt s' /\
    m_pszData s' = 2 /\ mem s' !! 2 = Some b' /\ nDataLength b' = 2.
Proof.
  destruct (proj2 (proj2 (X24_assign_terminated_array (HeapMgr 1000)
              (HeapMgr_spec 1000 ltac:(ilia)) st_shared (buf 1 2 5 "hello")
              ["x"; "y"; NUL; "z"]%char eq_refl
              ltac:(repeat split; simpl; try ilia; reflexivity)
              ltac:(simpl; ilia)))
              ltac:(vm_compute; reflexivity) 2 _ eq_refl)
    as (s' & b' & Hrun & Hp & Hb' & Hd & _).
  exists s', b'. repeat split; assumption.
Defined.

(** ** A locked source *)

Section LockedSource.

Variable Mgr : IAmvStringMgr.
Hypothesis HM : MgrSpec Mgr.


End LockedSource.

